(** * Luas XACML 3.0 policy decision point: a shallow embedding

    The development follows the JavaScript sources of the PDP:

    - [Js]: the fragment of the JavaScript semantics the code relies on
      (thrown values, [try]/[catch], truthiness, module-level state);
    - [Regex]: regular expressions with a derivative matcher, used for the
      literal patterns of [dateTimeAttribute.js];
    - [DateTimeAttribute]: [xacml/attr/dateTimeAttribute.js];
    - [Attributes]: [xacml/xacml3/attributes.js];
    - [AttributeDesignator]: the attribute designator and its lookup cache;
    - [NotFunction]: the logical [not] function;
    - [Luas]: the PDP facade ([evaluates], [evaluateCallBack], [parseRes]).

    Classes the sources [require] but that are not part of the verified
    files (the request factory, the PDP proper, [Status], [Result],
    [moment], the DOM parser) enter as section variables. *)

(** Around these stand [LuasObligations] (the obligations read back from
    the policy files), [DecisionParams] and [PolicyInformationPoint]
    (the requests built from query parameters and [nodes.json]) and
    [App] (the [/getDecision] route and the start of the server). *)

From Stdlib Require Import ZArith Ascii String List Lia Bool.
From stdpp Require Import base strings gmap list.

Open Scope Z_scope.

(** ** JavaScript fragment *)

Module Js.

(** Values that reach a [catch] clause: [Error] objects (with their
    [name] and [message]), thrown strings, and [null]/[undefined]. *)
Inductive exn : Type :=
| ErrorObj (name message : string)
| ThrownStr (s : string)
| ThrownNullish.

Definition JsError (message : string) : exn := ErrorObj "Error" message.
Definition JsTypeError (message : string) : exn := ErrorObj "TypeError" message.

(** [Error.prototype.toString] and [String(v)] on a thrown string. *)
Definition String_of (e : exn) : string :=
  match e with
  | ErrorObj name message =>
      if String.eqb name "" then message
      else if String.eqb message "" then name
      else name +:+ ": " +:+ message
  | ThrownStr s => s
  | ThrownNullish => "null"
  end.

(** The result of running a piece of code: it returns or it throws. *)
Inductive Outcome (A : Type) : Type :=
| Return (a : A)
| Throw (e : exn).
Arguments Return {A} a.
Arguments Throw {A} e.

Definition bindO {A B} (m : Outcome A) (k : A -> Outcome B) : Outcome B :=
  match m with
  | Return a => k a
  | Throw e => Throw e
  end.

Definition returns {A} (m : Outcome A) : bool :=
  match m with Return _ => true | Throw _ => false end.

(** Code that reads and writes module-level state [W] and may throw.
    The state reached before a [throw] is kept, as in JavaScript. *)
Definition M (W A : Type) : Type := W -> Outcome A * W.

Section Monad.
Context {W : Type}.

Definition ret {A} (a : A) : M W A := fun w => (Return a, w).
Definition throw {A} (e : exn) : M W A := fun w => (Throw e, w).
Definition lift {A} (o : Outcome A) : M W A := fun w => (o, w).
Definition get : M W W := fun w => (Return w, w).
Definition put (w : W) : M W unit := fun _ => (Return tt, w).

Definition bind {A B} (m : M W A) (k : A -> M W B) : M W B :=
  fun w =>
    match m w with
    | (Return a, w') => k a w'
    | (Throw e, w') => (Throw e, w')
    end.

(** [try { m } catch (err) { h err }] *)
Definition tryCatch {A} (m : M W A) (h : exn -> M W A) : M W A :=
  fun w =>
    match m w with
    | (Return a, w') => (Return a, w')
    | (Throw e, w') => h e w'
    end.
End Monad.

(** JavaScript values as far as the PDP code inspects them. [JObj]
    stands for an object the code only tests for truthiness. *)
Inductive jsval : Type :=
| JUndefined
| JNull
| JBool (b : bool)
| JNum (z : Z)
| JStr (s : string)
| JArr (l : list string)
| JObj.

(** [Boolean(v)] *)
Definition truthy (v : jsval) : bool :=
  match v with
  | JUndefined | JNull => false
  | JBool b => b
  | JNum z => negb (z =? 0)
  | JStr s => negb (String.eqb s "")
  | JArr _ | JObj => true
  end.

(** Truthiness of a value that is [null] or a string. *)
Definition truthyStr (s : option string) : bool :=
  match s with
  | Some s => negb (String.eqb s "")
  | None => false
  end.

End Js.

Export Js.

Notation "'let!' x ':=' m 'in' k" := (Js.bind m (fun x => k))
  (at level 10, x name, m at level 100, k at level 200, only parsing).
Notation "'let?' x ':=' m 'in' k" := (Js.bindO m (fun x => k))
  (at level 10, x name, m at level 100, k at level 200, only parsing).

(** ** Regular expressions *)

Module Regex.

Inductive charclass : Type :=
| Lit (a : ascii)            (* a literal character *)
| Digit                      (* \d *)
| AnyOf (l : list ascii)     (* [abc] *)
| NoneOf (l : list ascii).   (* [^abc] *)

Definition isDigit (a : ascii) : bool :=
  let n := nat_of_ascii a in (48 <=? n)%nat && (n <=? 57)%nat.

Definition in_class (c : charclass) (a : ascii) : bool :=
  match c with
  | Lit b => Ascii.eqb a b
  | Digit => isDigit a
  | AnyOf l => existsb (Ascii.eqb a) l
  | NoneOf l => negb (existsb (Ascii.eqb a) l)
  end.

Inductive regex : Type :=
| Void
| Eps
| Cls (c : charclass)
| Cat (r1 r2 : regex)
| Alt (r1 r2 : regex)
| Star (r : regex).

(** [r{n}], [r+], [r?] and the concatenation of a list of pieces. *)
Fixpoint rep (n : nat) (r : regex) : regex :=
  match n with
  | O => Eps
  | S n => Cat r (rep n r)
  end.
Definition plus (r : regex) : regex := Cat r (Star r).
Definition opt (r : regex) : regex := Alt r Eps.
Definition chr (a : ascii) : regex := Cls (Lit a).
Definition digits (n : nat) : regex := rep n (Cls Digit).
Fixpoint cat_all (rs : list regex) : regex :=
  match rs with
  | [] => Eps
  | r :: rs => Cat r (cat_all rs)
  end.

Fixpoint nullable (r : regex) : bool :=
  match r with
  | Void => false
  | Eps => true
  | Cls _ => false
  | Cat r1 r2 => nullable r1 && nullable r2
  | Alt r1 r2 => nullable r1 || nullable r2
  | Star _ => true
  end.

Fixpoint deriv (a : ascii) (r : regex) : regex :=
  match r with
  | Void => Void
  | Eps => Void
  | Cls c => if in_class c a then Eps else Void
  | Cat r1 r2 =>
      if nullable r1 then Alt (Cat (deriv a r1) r2) (deriv a r2)
      else Cat (deriv a r1) r2
  | Alt r1 r2 => Alt (deriv a r1) (deriv a r2)
  | Star r => Cat (deriv a r) (Star r)
  end.

(** Whole-input matching, the meaning of [/^r$/.test(s)]. *)
Fixpoint accepts (r : regex) (s : list ascii) : bool :=
  match s with
  | [] => nullable r
  | a :: s => accepts (deriv a r) s
  end.

Definition test (r : regex) (s : string) : bool :=
  accepts r (list_ascii_of_string s).

(** The language of a regular expression. *)
Inductive Matches : regex -> list ascii -> Prop :=
| MEps : Matches Eps []
| MCls c a : in_class c a = true -> Matches (Cls c) [a]
| MCat r1 r2 s1 s2 :
    Matches r1 s1 -> Matches r2 s2 -> Matches (Cat r1 r2) (s1 ++ s2)
| MAltL r1 r2 s : Matches r1 s -> Matches (Alt r1 r2) s
| MAltR r1 r2 s : Matches r2 s -> Matches (Alt r1 r2) s
| MStarNil r : Matches (Star r) []
| MStarApp r s1 s2 :
    Matches r s1 -> Matches (Star r) s2 -> Matches (Star r) (s1 ++ s2).

End Regex.

(** ** [xacml/attr/dateTimeAttribute.js] *)

Module DateTimeAttribute.
Import Regex.

Definition identifier : string := "http://www.w3.org/2001/XMLSchema#dateTime".
Definition TZ_UNSPECIFIED : Z := -1000000.
Definition NANOS_PER_MILLI : Z := 1000000.
Definition MILLIS_PER_SECOND : Z := 1000.
Definition SECONDS_PER_MINUTE : Z := 60.
Definition MINUTES_PER_HOUR : Z := 60.
Definition HOURS_PER_DAY : Z := 24.
Definition NANOS_PER_SECOND : Z := NANOS_PER_MILLI * MILLIS_PER_SECOND.
Definition MILLIS_PER_MINUTE : Z := MILLIS_PER_SECOND * SECONDS_PER_MINUTE.
Definition MILLIS_PER_HOUR : Z := MILLIS_PER_MINUTE * MINUTES_PER_HOUR.
Definition MILLIS_PER_DAY : Z := MILLIS_PER_HOUR * HOURS_PER_DAY.

(** A [Date] is its time value, the milliseconds since the epoch
    (negative before 1970). The fields are those [init] assigns. *)
Record t : Type := {
  value : Z;
  nanoseconds : Z;
  timeZone : Z;
  defaultedTimeZone : Z
}.

(** [combineNanos(date, nanoseconds)]. JavaScript's [%] takes the sign
    of the dividend, which is [Z.rem]. The updates of the locals
    [millis] and [date] after [nanoResult] do not reach the caller. *)
Definition combineNanos (date nanoseconds : Z) : Z :=
  let millis := date in
  let milliCarry := Z.rem millis MILLIS_PER_SECOND in
  if (milliCarry =? 0) && (0 <? nanoseconds)
     && (nanoseconds <? NANOS_PER_SECOND)
  then nanoseconds
  else
    let millis := millis - milliCarry in
    let nanoTemp := nanoseconds in
    let nanoTemp := nanoTemp + milliCarry * NANOS_PER_MILLI in
    let nanoResult := Z.rem nanoTemp NANOS_PER_SECOND in
    let nanoTemp := nanoTemp - nanoResult in
    let millis := millis + Z.quot nanoTemp NANOS_PER_MILLI in
    let date := millis in
    nanoResult.

Definition init (date nanoseconds timeZone defaultedTimeZone : Z) : t :=
  {| value := date;
     nanoseconds := combineNanos date nanoseconds;
     timeZone := timeZone;
     defaultedTimeZone := defaultedTimeZone |}.

(** [dateTimeAttributeInit2]: [attributeValueInit(identifier)] of the
    base class records the data type, then [init] fills the fields. *)
Definition dateTimeAttributeInit2
    (date nanoseconds timeZone defaultedTimeZone : Z) : t :=
  init date nanoseconds timeZone defaultedTimeZone.

(** The timezone designator [(?:Z|[+\-]\d{2}:\d{2})]. *)
Definition tzRegex : regex :=
  Alt (chr "Z")
      (cat_all [Cls (AnyOf ["+"; "-"]%char); digits 2; chr ":"; digits 2]).

(** [/^\d{4}-\d{2}-\d{2}T\d{2}:\d{2}:\d{2}(?:\.\d+)?(?:Z|[+\-]\d{2}:\d{2})$/] *)
Definition dtRegex : regex :=
  cat_all [digits 4; chr "-"; digits 2; chr "-"; digits 2; chr "T";
           digits 2; chr ":"; digits 2; chr ":"; digits 2;
           opt (Cat (chr ".") (plus (Cls Digit)));
           tzRegex].

(** [value.match(/>([^<]+)</)]: the first capture of the leftmost match.
    A match starts at a [>] that is followed by a non-empty run of
    characters other than [<] and then by [<]; the greedy run cannot be
    shortened, since the character after it has to be [<]. *)
Fixpoint untilLt (s : list ascii) : list ascii * list ascii :=
  match s with
  | [] => ([], [])
  | c :: rest =>
      if Ascii.eqb c "<" then ([], s)
      else let '(run, tail) := untilLt rest in (c :: run, tail)
  end.

Fixpoint matchText (s : list ascii) : option (list ascii) :=
  match s with
  | [] => None
  | c :: rest =>
      if Ascii.eqb c ">" then
        match untilLt rest with
        | ((_ :: _) as run, _ :: _) => Some run
        | _ => matchText rest
        end
      else matchText rest
  end.

(** [value.match(/(Z|[+\-]\d{2}:\d{2})$/)]: the matched suffix. *)
Definition tzSuffix (value : string) : option string :=
  let n := String.length value in
  let last1 := substring (n - 1) 1 value in
  let last6 := substring (n - 6) 6 value in
  if (6 <=? n)%nat && Regex.test tzRegex last6 then Some last6
  else if (1 <=? n)%nat && Regex.test tzRegex last1 then Some last1
  else None.

(** [s.substring(start, end)] with indices already clamped to be
    non-negative: the arguments are swapped when [start > end]. *)
Definition js_substring (s : string) (start stop : nat) : string :=
  let lo := Nat.min start stop in
  let hi := Nat.max start stop in
  substring lo (hi - lo) s.

(** [frac.replace(/[^0-9]/g, '')] *)
Definition keepDigits (s : string) : string :=
  string_of_list_ascii (filter (fun a => isDigit a = true) (list_ascii_of_string s)).

(** [while (nanoString.length < 9) nanoString += '0'] *)
Definition padNine (s : string) : string :=
  s +:+ string_of_list_ascii (repeat "0"%char (9 - String.length s)).

(** [parseInt(s, 10)] on a string of decimal digits. *)
Definition parseInt10 (s : string) : Z :=
  fold_left (fun acc a => 10 * acc + (Z.of_nat (nat_of_ascii a) - 48))
            (list_ascii_of_string s) 0.

Definition parseNanos (value : string) : Z :=
  match index 0 "." value with
  | Some dotIndex =>
      let tzIndexMatch := tzSuffix value in
      let tzIndex :=
        match tzIndexMatch with
        | Some tz => index 0 tz value
        | None => None
        end in
      let frac :=
        js_substring value (dotIndex + 1)
          (match tzIndex with
           | Some i => i
           | None => String.length value
           end) in
      let nanoString := keepDigits frac in
      let nanoString := padNine nanoString in
      let nanoString :=
        if (9 <? String.length nanoString)%nat
        then substring 0 9 nanoString else nanoString in
      parseInt10 nanoString
  | None => 0
  end.

(** The first statement of [getInstance]: an [<AttributeValue ...>]
    element given as a string is replaced by its text content. *)
Definition dateTimeText (value : string) : Outcome string :=
  if String.prefix "<AttributeValue" value then
    match matchText (list_ascii_of_string value) with
    | Some text => Return (string_of_list_ascii text)
    | None => Throw (JsError "Invalid XML format for dateTime value")
    end
  else Return value.

Section Moment.
(** The [moment] library: strict ISO-8601 validity of a string, the
    instant it denotes and the UTC offset [moment] reports for it. *)
Variable moment_isValid : string -> bool.
Variable moment_toDate : string -> Z.
Variable moment_utcOffset : string -> Z.

(** [getInstance(value)] for a string argument. *)
Definition getInstance (value : string) : Outcome t :=
  let? value := dateTimeText value in
  if negb (Regex.test dtRegex value) then
    Throw (JsError ("Malformed dateTime value: " +:+ value))
  else if negb (moment_isValid value) then
    Throw (JsError ("Malformed dateTime value: " +:+ value))
  else
    let nanoseconds := parseNanos value in
    let dateValue := moment_toDate value in
    let timeZone := moment_utcOffset value in
    let defaultedTimeZone := timeZone in
    Return (dateTimeAttributeInit2 dateValue nanoseconds timeZone
                                   defaultedTimeZone).
End Moment.

(** [equals(date)]: the body is the single statement [throw new Error()],
    under the comment "compare date time here". *)
Definition equals (self date : t) : Outcome bool :=
  Throw (JsError "").

(** Two dateTime values denote the same instant: the same time value and
    the same sub-second nanoseconds. *)
Definition sameInstant (a b : t) : bool :=
  (value a =? value b) && (nanoseconds a =? nanoseconds b).

(** A string ends in a timezone designator: [Z] or [+hh:mm] / [-hh:mm]. *)
Definition endsWithTimezone (s : string) : bool :=
  match rev (list_ascii_of_string s) with
  | "Z"%char :: _ => true
  | m2 :: m1 :: ":"%char :: h2 :: h1 :: sign :: _ =>
      isDigit m2 && isDigit m1 && isDigit h2 && isDigit h1
      && (Ascii.eqb sign "+" || Ascii.eqb sign "-")
  | _ => false
  end.

End DateTimeAttribute.

(** ** The DOM as the loaders read it *)

Module Dom.

#[warnings="-register-all"]
Inductive Node : Type :=
| Element (name : string) (attrs : list (string * string))
          (children : list Node)
| Text (data : string).

Definition nodeName (n : Node) : string :=
  match n with
  | Element name _ _ => name
  | Text _ => "#text"
  end.

(** [tagName] is defined on elements only. *)
Definition tagName (n : Node) : option string :=
  match n with
  | Element name _ _ => Some name
  | Text _ => None
  end.

Definition childNodes (n : Node) : list Node :=
  match n with
  | Element _ _ children => children
  | Text _ => []
  end.

Definition firstChild (n : Node) : option Node := head (childNodes n).

(** [getAttribute(name)]: the value of the first attribute of that name,
    [null] when the element has none. *)
Fixpoint assoc (name : string) (attrs : list (string * string))
  : option string :=
  match attrs with
  | [] => None
  | (k, v) :: attrs => if String.eqb k name then Some v else assoc name attrs
  end.

Definition getAttribute (n : Node) (name : string) : option string :=
  match n with
  | Element _ attrs _ => assoc name attrs
  | Text _ => None
  end.

End Dom.

(** ** [xacml/xacml3/attributes.js] *)

Module Attributes.
Import Dom.

Section Loader.
(** [XACMLConstants] *)
Variable ATTRIBUTES_ELEMENT : string.
Variable ATTRIBUTES_CATEGORY : string.
Variable ATTRIBUTES_ID : string.
Variable ATTRIBUTES_CONTENT : string.
Variable ATTRIBUTE_ELEMENT : string.
Variable XACML_VERSION_3_0 : Z.

(** [ctx/attribute.js]: [Attribute.prototype.getInstance(node, version)] *)
Variable Attribute : Type.
Variable Attribute_getInstance : Node -> Z -> Outcome Attribute.

(** [new DOMParser().parseFromString(xmlString, 'text/xml').documentElement] *)
Variable documentElement : string -> option Node.

Record t : Type := {
  category : option string;
  content : option Node;
  attributes : list Attribute;
  id : option string
}.

Definition init (category : option string) (content : option Node)
    (attributes : list Attribute) (id : option string) : t :=
  {| category := category; content := content;
     attributes := attributes; id := id |}.

Definition initWithCategory (category : option string)
    (attributes : list Attribute) : t :=
  init category None attributes None.

(** The loop over [root.childNodes], threading the locals [content]
    and [attributes]. *)
Fixpoint scanChildren (nodes : list Node) (content : option Node)
    (attributes : list Attribute)
  : Outcome (option Node * list Attribute) :=
  match nodes with
  | [] => Return (content, attributes)
  | node :: nodes =>
      if String.eqb (nodeName node) ATTRIBUTES_CONTENT then
        match content with
        | Some _ => Throw (JsError "Too many content elements are defined.")
        | None => scanChildren nodes (firstChild node) attributes
        end
      else if String.eqb (nodeName node) ATTRIBUTE_ELEMENT then
        let? a := Attribute_getInstance node XACML_VERSION_3_0 in
        scanChildren nodes content (attributes ++ [a])
      else scanChildren nodes content attributes
  end.

(** [getInstance] from the root element on. *)
Definition getInstanceRoot (root : Node) : Outcome t :=
  if negb (String.eqb (nodeName root) ATTRIBUTES_ELEMENT) then
    Throw (JsError ("Attributes object cannot be created 
    with root node of type: " +:+ nodeName root))
  else
    let category := getAttribute root ATTRIBUTES_CATEGORY in
    let idNode := getAttribute root ATTRIBUTES_ID in
    let id := match idNode with Some i => Some i | None => None end in
    let nodes := childNodes root in
    let? scanned := scanChildren nodes None [] in
    let '(content, attributes) := scanned in
    match content with
    | Some _ => Throw (JsError "need an implementation")
    | None => Return (init category content attributes id)
    end.

Definition getInstance (xmlString : string) : Outcome t :=
  match documentElement xmlString with
  | None =>
      Throw (JsTypeError "Cannot read properties of null (reading 'nodeName')")
  | Some root => getInstanceRoot root
  end.

Definition getCategory (a : t) : option string := category a.
Definition getAttributes (a : t) : list Attribute := attributes a.
Definition getContent (a : t) : option Node := content a.
Definition getId (a : t) : option string := id a.

(** The scan ends with a content, or with an exception. *)
Definition endsWithContent
    (o : Outcome (option Node * list Attribute)) : Prop :=
  match o with
  | Return (content, _) => is_Some content
  | Throw _ => True
  end.

(** An [<Attributes>] group that carries a [<Content>] child holding
    an XML fragment. *)
Definition hasContentFragment (root : Node) : Prop :=
  exists child fragment,
    In child (childNodes root)
    /\ nodeName child = ATTRIBUTES_CONTENT
    /\ firstChild child = Some fragment.

End Loader.

End Attributes.

(** ** Evaluation results and status objects *)

Module Cond.

(** Modelled from the spec: [ctx/missingAttributeDetail.js] is not among
    the sources; a missing-attribute descriptor carries the arguments of
    [initWithIssuerAndAttributes(id, type, category, issuer, values,
    version)], the "(category, attributeId, dataType, issuer?)" of the
    data model. *)
Record MissingAttributeDetail : Type := {
  mad_id : option string;
  mad_type : option string;
  mad_category : option string;
  mad_issuer : option string;
  mad_attributeValues : option (list jsval);
  mad_xacmlVersion : Z
}.

(** Modelled from the spec: [ctx/statusDetail.js] is not among the
    sources; [initWithMissingAttribute] stores the list of descriptors. *)
Record StatusDetail : Type := {
  missingAttributes : list MissingAttributeDetail
}.

(** Modelled from the spec: [ctx/status.js] is not among the sources;
    "Status. (code: URI, message?: string, detail?: StatusDetail)", as
    [statusInit3(code, message, detail)] receives them. *)
Record Status : Type := {
  code : list string;
  message : option string;
  detail : option StatusDetail
}.

(** A bag of attribute values; [bag.size()] is its length. *)
Definition Bag : Type := list jsval.
Definition size (b : Bag) : Z := Z.of_nat (length b).

(** Modelled from the spec: [cond/evaluationResult.js] is not among the
    sources; an evaluation result is the object whose properties the
    expression code reads and writes: [indeterminate], [value],
    [status], [wasInd] and, for attribute lookups, the bag
    [attributeValues] ([undefined] when absent). *)
Record EvaluationResult : Type := {
  wasInd : bool;
  value : jsval;
  status : option Status;
  indeterminate : bool;
  attributeValues : option Bag
}.

End Cond.

(** ** The attribute designator and its module-level lookup cache *)

Module AttributeDesignator.
Import Dom Cond.

(** The fields [initWithIssuer] assigns; [null] is [None]. *)
Record t : Type := {
  type : option string;
  id : option string;
  mustBePresent : bool;
  issuer : option string;
  category : option string
}.

Definition initWithIssuer (type id : option string) (mustBePresent : bool)
    (issuer category : option string) : t :=
  {| type := type; id := id; mustBePresent := mustBePresent;
     issuer := issuer; category := category |}.

Definition init (type id : option string) (mustBePresent : bool)
    (category : option string) : t :=
  initWithIssuer type id mustBePresent None category.

(** [getInstance] on a DOM node. *)
Definition getInstance (root : Node) : Outcome t :=
  let tagName := tagName root in
  if negb (bool_decide (tagName = Some "AttributeDesignator")) then
    Throw (JsError ("AttributeDesignator cannot be constructed using type: "
                    +:+ default "undefined" tagName))
  else
    let id := Dom.getAttribute root "AttributeId" in
    let category := Dom.getAttribute root "Category" in
    let nodeValue := Dom.getAttribute root "MustBePresent" in
    let mustBePresent := bool_decide (nodeValue = Some "true") in
    let type := Dom.getAttribute root "DataType" in
    let node := Dom.getAttribute root "Issuer" in
    let issuer := if truthyStr node then node else None in
    Return (initWithIssuer type id mustBePresent issuer category).

Definition getType (d : t) := type d.
Definition getId (d : t) := id d.
Definition getCategory (d : t) := category d.
Definition getIssuer (d : t) := issuer d.
Definition returnsBag (d : t) : bool := true.

(** Object identity: [===] on two objects compares their references. *)
Definition ref : Type := nat.

(** The evaluation context as the designator uses it: the identity of
    the request's attribute store, and the lookup
    [getAttribute(type, id, issuer, category)]. *)
Record Context : Type := {
  attributesSet : ref;
  getAttribute :
    option string -> option string -> option string -> option string ->
    Outcome EvaluationResult
}.

(** The module-level variables [cacheType], [cacheId], [cacheIssuer],
    [cacheCategory], [cacheResult], [cacheAttributes]; [None] is the
    [undefined] each of them holds until the first lookup. *)
Record Cache : Type := {
  cacheType : option (option string);
  cacheId : option (option string);
  cacheIssuer : option (option string);
  cacheCategory : option (option string);
  cacheResult : option EvaluationResult;
  cacheAttributes : option ref
}.

Definition emptyCache : Cache :=
  {| cacheType := None; cacheId := None; cacheIssuer := None;
     cacheCategory := None; cacheResult := None; cacheAttributes := None |}.

(** The condition of the first [if] of [evaluate]. *)
Definition cacheHit (c : Cache) (d : t) (context : Context) : bool :=
  bool_decide (cacheType c = Some (type d))
  && bool_decide (cacheId c = Some (id d))
  && bool_decide (cacheIssuer c = Some (issuer d))
  && bool_decide (cacheCategory c = Some (category d))
  && bool_decide (cacheAttributes c = Some (attributesSet context)).

(** The first statement of [evaluate]: the cached result, or a lookup
    that refills the cache. *)
Definition cachedLookup (d : t) (context : Context)
  : M Cache (option EvaluationResult) :=
  let! c := get in
  if cacheHit c d context then ret (cacheResult c)
  else
    let! result :=
      lift (getAttribute context (type d) (id d) (issuer d) (category d)) in
    let! _ := put {| cacheType := Some (type d);
                     cacheId := Some (id d);
                     cacheIssuer := Some (issuer d);
                     cacheCategory := Some (category d);
                     cacheResult := Some result;
                     cacheAttributes := Some (attributesSet context) |} in
    ret (Some result).

Section Evaluate.
(** [Status.prototype.STATUS_MISSING_ATTRIBUTE] and
    [XACMLConstants.XACML_VERSION_3_0] *)
Variable STATUS_MISSING_ATTRIBUTE : string.
Variable XACML_VERSION_3_0 : Z.

(** The result built when a required attribute is missing. *)
Definition missingAttributeResult (d : t) : EvaluationResult :=
  let code := [STATUS_MISSING_ATTRIBUTE] in
  let missingAttribute :=
    {| mad_id := id d; mad_type := type d; mad_category := category d;
       mad_issuer := issuer d; mad_attributeValues := None;
       mad_xacmlVersion := XACML_VERSION_3_0 |} in
  let missingAttributes := [] ++ [missingAttribute] in
  let detail := {| missingAttributes := missingAttributes |} in
  let message := "Couldn't find AttributeDesignator attribute" in
  let status :=
    {| code := code; message := Some message; detail := Some detail |} in
  {| wasInd := true; value := JNull; status := Some status;
     indeterminate := true; attributeValues := None |}.

(** [evaluate(context)]. The logging block between the lookup and the
    size test catches its own errors and changes nothing. *)
Definition evaluate (d : t) (context : Context)
  : M Cache EvaluationResult :=
  let! result := cachedLookup d context in
  match result with
  | None =>
      throw (JsTypeError
               "Cannot read properties of undefined (reading 'indeterminate')")
  | Some result =>
      if indeterminate result then ret result
      else
        match attributeValues result with
        | None =>
            throw (JsTypeError
                     "Cannot read properties of undefined (reading 'size')")
        | Some bag =>
            if size bag =? 0 then
              if mustBePresent d then ret (missingAttributeResult d)
              else ret result
            else ret result
        end
  end.
End Evaluate.

(** Every lookup the cache would answer for this context is answered
    with what the context itself returns. *)
Definition cacheAgrees (context : Context) (c : Cache) : Prop :=
  forall d : t,
    cacheHit c d context = true ->
    exists result,
      cacheResult c = Some result
      /\ getAttribute context (type d) (id d) (issuer d) (category d)
         = Return result.

(** The cache is private to an evaluation context: what an evaluation
    returns in one context does not depend on a lookup made before in
    another context. *)
Definition cachePerContext (MISSING : string) (VERSION : Z) : Prop :=
  forall (d : t) (ctx1 ctx2 : Context),
    ctx1 <> ctx2 ->
    let after1 := snd (evaluate MISSING VERSION d ctx1 emptyCache) in
    fst (evaluate MISSING VERSION d ctx2 after1)
    = fst (evaluate MISSING VERSION d ctx2 emptyCache).

End AttributeDesignator.

(** ** The logical [not] function *)

Module NotFunction.
Import Cond.

Definition NAME_NOT : string := "urn:oasis:names:tc:xacml:1.0:function:not".

Definition getSupportedIdentifiers : list string := [] ++ [NAME_NOT].

Section Evaluate.
(** The module state [W] and the evaluation context [Ctx] of the
    expressions; an expression is its [evaluate(context)] method. *)
Context {W Ctx : Type}.
Definition Expression : Type := Ctx -> M W EvaluationResult.

(** [EvaluationResult.prototype.getInstance(b)]: the evaluation result
    that holds the boolean [b]. *)
Variable EvaluationResult_getInstance : bool -> EvaluationResult.

(** What [evaluate] can be handed: an array of expressions, an object
    with a [value] property, or any other value. *)
Inductive Inputs : Type :=
| InArray (exprs : list Expression)
| InResult (r : EvaluationResult)
| InOther (v : jsval).

(** [evaluateApply(value, context)] *)
Definition evaluateApply (value : list Expression) (context : Ctx)
  : M W EvaluationResult :=
  match value with
  | [] =>
      throw (JsTypeError
               "Cannot read properties of undefined (reading 'evaluate')")
  | first :: _ =>
      let! resultFirst := first context in
      if indeterminate resultFirst then ret resultFirst
      else ret (EvaluationResult_getInstance
                  (negb (truthy (Cond.value resultFirst))))
  end.

(** [evaluate(inputs, context)] *)
Definition evaluate (inputs : Inputs) (context : Ctx)
  : M W EvaluationResult :=
  match inputs with
  | InArray exprs => evaluateApply exprs context
  | InResult value =>
      if indeterminate value then ret value
      else ret (EvaluationResult_getInstance
                  (negb (truthy (Cond.value value))))
  | InOther value =>
      ret (EvaluationResult_getInstance (negb (truthy value)))
  end.
End Evaluate.

End NotFunction.

(** ** The PDP facade: [Luas] *)

Module Luas.
Import Cond.

(** The entries [getFullObligationsFromPolicy] builds. *)
Record DesignatorInfo : Type := {
  di_category : option string;
  di_attributeId : option string;
  di_dataType : option string;
  di_mustBePresent : bool
}.

Record Assignment : Type := {
  attributeId : option string;
  a_category : option string;
  a_issuer : option string;
  a_dataType : option string;
  a_value : option string;
  designator : option DesignatorInfo
}.

Record FullObligation : Type := {
  obligationId : option string;
  fulfillOn : option string;
  assignments : list Assignment
}.

(** [s.toLowerCase()] on the ASCII letters and [hay.includes(needle)]. *)
Definition lowerAscii (a : ascii) : ascii :=
  let n := nat_of_ascii a in
  if (65 <=? n)%nat && (n <=? 90)%nat then ascii_of_nat (n + 32) else a.

Definition toLowerCase (s : string) : string :=
  string_of_list_ascii (map lowerAscii (list_ascii_of_string s)).

Definition includes (hay needle : string) : bool :=
  match index 0 needle hay with
  | Some _ => true
  | None => false
  end.

(** The reason strings collected from the obligations of a [Deny]. *)
Definition reasonOfAssignment (a : Assignment) : list string :=
  match attributeId a with
  | Some attrId =>
      if truthyStr (Some attrId) && includes (toLowerCase attrId) "reason"
      then
        if truthyStr (a_value a) then
          match a_value a with Some v => [v] | None => [] end
        else
          match designator a with
          | Some dsg =>
              if truthyStr (di_attributeId dsg) then
                match di_attributeId dsg with Some i => [i] | None => [] end
              else []
          | None => []
          end
      else []
  | None => []
  end.

Definition collectReasons (fullObligations : list FullObligation)
  : list string :=
  flat_map (fun obl => flat_map reasonOfAssignment (assignments obl))
           fullObligations.

(** [JSON.stringify] of an array, given the text of its items. *)
Definition JSON_stringify_array {A} (item : A -> string) (l : list A)
  : string :=
  "[" +:+ String.concat "," (map item l) +:+ "]".

(** The object [evaluateCallBack] returns, by property name. *)
Abbreviation Response := (gmap string jsval).

Definition jsOfStr (s : option string) : jsval :=
  match s with
  | Some s => JStr s
  | None => JNull
  end.

(** [err.message || String(err)] in the [catch] clause. *)
Definition errorText (err : exn) : Outcome string :=
  match err with
  | ErrorObj _ message =>
      Return (if truthyStr (Some message) then message else String_of err)
  | ThrownStr _ => Return (String_of err)
  | ThrownNullish =>
      Throw (JsTypeError "Cannot read properties of null (reading 'message')")
  end.

Section Facade.
(** Module-level state of the process. *)
Context {W : Type}.

(** [ctx/requestCtxFactory.js]:
    [RequestCtxFactory.prototype.getFactory().getRequestCtxWithRequest] *)
Variable Request : Type.
Variable getRequestCtxWithRequest : string -> M W Request.

(** [ctx/result.js]: what the facade reads from a result. *)
Variable Obligation : Type.
Variable ResultAttributes : Type.
Record ResponseCtx : Type := {
  obligations : option (list Obligation);
  getDecision : Z;
  attributes : ResultAttributes;
  status : option Status
}.

(** [pdp.js]: [this.pdp.evaluate(request).getResults()[0]], which is
    [undefined] when there is no result. *)
Variable pdp_evaluate : Request -> M W (option ResponseCtx).

(** [getFullObligationsFromPolicy]: re-reads the policy files and
    collects the [ObligationExpression] elements with the given ids. *)
Variable getFullObligationsFromPolicy :
  option (list Obligation) -> M W (list FullObligation).

Variable JSON_stringify_obligation : FullObligation -> string.
Variable JSON_stringify_attributes : ResultAttributes -> jsval.

(** [Result.prototype.DECISION_*] *)
Variable DECISION_PERMIT : Z.
Variable DECISION_DENY : Z.
Variable DECISION_INDETERMINATE : Z.
Variable DECISION_NOT_APPLICABLE : Z.
Variable DECISION_INDETERMINATE_DENY : Z.
Variable DECISION_INDETERMINATE_PERMIT : Z.
Variable DECISION_INDETERMINATE_DENY_OR_PERMIT : Z.

(** [parseRes]: the [switch] takes the first matching [case]; without
    one the initial [null] is returned. *)
Definition parseRes (response : Z) : option string :=
  if response =? DECISION_PERMIT then Some "Permit"
  else if response =? DECISION_DENY then Some "Deny"
  else if response =? DECISION_INDETERMINATE then Some "Indeterminate"
  else if response =? DECISION_NOT_APPLICABLE then Some "NotApplicable"
  else if response =? DECISION_INDETERMINATE_DENY then Some "Indeterminate"
  else if response =? DECISION_INDETERMINATE_PERMIT then Some "Indeterminate"
  else if response =? DECISION_INDETERMINATE_DENY_OR_PERMIT
       then Some "Indeterminate"
  else None.

(** The object returned from the [catch] clause; [JSON.stringify([])]
    is the text of the empty array. *)
Definition errorResponse (message : string) : Response :=
  {[ "obligations" := JStr "[]";
     "attributes" := JStr "[]";
     "decision" := JStr "Indeterminate";
     "reason" := JNull;
     "message" := JStr message ]}.

(** [evaluateCallBack(requestFile)]. Only the construction of the
    request sits inside [try]; the [catch] clause returns. *)
Definition evaluateCallBack (requestFile : string) : M W Response :=
  let! request :=
    tryCatch
      (let! request := getRequestCtxWithRequest requestFile in
       ret (inl request))
      (fun err =>
         let! message := lift (errorText err) in
         ret (inr (errorResponse message))) in
  match request with
  | inr response => ret response
  | inl request =>
      let! responseCtx := pdp_evaluate request in
      match responseCtx with
      | None =>
          throw (JsTypeError
            "Cannot read properties of undefined (reading 'obligations')")
      | Some responseCtx =>
          let! fullObligations :=
            getFullObligationsFromPolicy (obligations responseCtx) in
          let decisionStr := parseRes (getDecision responseCtx) in
          let reasons :=
            if bool_decide (decisionStr = Some "Deny")
            then collectReasons fullObligations else [] in
          ret ({[ "obligations" :=
                    JStr (JSON_stringify_array JSON_stringify_obligation
                                               fullObligations);
                  "attributes" :=
                    JSON_stringify_attributes (attributes responseCtx);
                  "decision" := jsOfStr decisionStr;
                  "reason" :=
                    (if (0 <? length reasons)%nat then JArr reasons
                     else JNull);
                  "message" :=
                    match status responseCtx with
                    | Some st => jsOfStr (message st)
                    | None => JNull
                    end ]} : Response)
      end
  end.

(** [evaluates(request)]: [console.trace(err)] in the [catch] clause,
    after which the function returns [undefined] ([None]). *)
Definition evaluates (request : string) : M W (option Response) :=
  tryCatch
    (let! decision := evaluateCallBack request in
     ret (Some decision))
    (fun err => ret None).

End Facade.

(** *** What a response holds *)

(** A response object names a status code in one of its properties. *)
Definition carriesStatus (r : Response) (code : string) : Prop :=
  exists k s, r !! k = Some (JStr s) /\ includes s code = true.

(** The properties of the two object literals that [evaluateCallBack]
    returns. A response with a status has a property besides them:
    [message] is the text of an error, or the message of the status of
    the result, and no property is written from a status code. *)
Definition responseProperties : gset string :=
  {[ "obligations"; "attributes"; "decision"; "reason"; "message" ]}.

Definition hasStatus (r : Response) : Prop :=
  exists k, k ∈ (dom r : gset string) /\ k ∉ responseProperties.

End Luas.

(** ** Designators evaluated one after the other

    [pdp.js] and the expression classes, which decide what designators
    the evaluation of a request evaluates, are not among the sources.
    What is said about an evaluation here is said about the calls of
    [AttributeDesignator.prototype.evaluate] that it makes. *)

Module DesignatorCalls.
Import Cond AttributeDesignator.

Section Calls.
Variable STATUS_MISSING_ATTRIBUTE : string.
Variable XACML_VERSION_3_0 : Z.

(** The calls [d.evaluate(context)] for the designators of a list, in
    order, from a state of the module-level cache: their outcomes and
    the state they leave. *)
Fixpoint evaluateEach (ds : list t) (context : Context) (c : Cache)
  : list (Outcome EvaluationResult) * Cache :=
  match ds with
  | [] => ([], c)
  | d :: ds =>
      let '(o, c) :=
        evaluate STATUS_MISSING_ATTRIBUTE XACML_VERSION_3_0 d context c in
      let '(os, c) := evaluateEach ds context c in
      (o :: os, c)
  end.
End Calls.

End DesignatorCalls.

(** ** Sample designators, contexts and results *)

Module Examples.
Import Cond AttributeDesignator.

(** A designator for the expiry of a task and two contexts over the
    same attribute store that resolve it differently. *)
Definition MISSING : string :=
  "urn:oasis:names:tc:xacml:1.0:status:missing-attribute".

Definition taskExpires (required : bool) : t :=
  {| type := Some "http://www.w3.org/2001/XMLSchema#dateTime";
     id := Some "task_expires";
     mustBePresent := required;
     issuer := None;
     category :=
       Some "urn:oasis:names:tc:xacml:3.0:attribute-category:resource" |}.

Definition bagResult (bag : Bag) : EvaluationResult :=
  {| wasInd := false; value := JNull; status := None;
     indeterminate := false; attributeValues := Some bag |}.

Definition contextWith (store : ref) (bag : Bag) : Context :=
  {| attributesSet := store;
     getAttribute := fun _ _ _ _ => Return (bagResult bag) |}.

(** A designator for the current time. *)
Definition currentDateTime : t :=
  {| type := Some "http://www.w3.org/2001/XMLSchema#dateTime";
     id := Some "urn:oasis:names:tc:xacml:1.0:environment:current-dateTime";
     mustBePresent := false;
     issuer := None;
     category :=
       Some "urn:oasis:names:tc:xacml:3.0:attribute-category:environment" |}.

(** Stand-ins for the collaborators that are not among the sources, for
    running the facade: a request factory that rejects every request
    with an [Error], a PDP without a result and no obligations. They
    model none of them. *)
Definition rejectingFactory (request : string) : M unit unit :=
  throw (JsError "The request could not be parsed").

Definition noPdp (request : unit)
  : M unit (option (Luas.ResponseCtx unit unit)) := ret None.

Definition noObligations (o : option (list unit))
  : M unit (list Luas.FullObligation) := ret [].

(** A text that is not well-formed XML. *)
Definition malformedXml : string := "<Request><Attributes".

Definition booleanResult (b : bool) : EvaluationResult :=
  {| wasInd := false; value := JBool b; status := None;
     indeterminate := false; attributeValues := None |}.

End Examples.

(** ** Loops over fallible steps *)

Module JsLoops.

(** A loop that pushes the result of a fallible step for every element
    and stops at the first step that throws. *)
Fixpoint mapO {A B} (f : A -> Outcome B) (l : list A) : Outcome (list B) :=
  match l with
  | [] => Return []
  | x :: l =>
      let? y := f x in
      let? ys := mapO f l in
      Return (y :: ys)
  end.

End JsLoops.

(** ** [getFullObligationsFromPolicy] *)

Module LuasObligations.
Import Dom Luas.

(** [node.textContent]: the text of a text node, the concatenated text
    of the children of an element. *)
Fixpoint textContent (n : Node) : string :=
  match n with
  | Text data => data
  | Element _ _ children => String.concat "" (List.map textContent children)
  end.

(** The elements of a tree in document order, the root first. *)
Fixpoint elements (n : Node) : list Node :=
  match n with
  | Text _ => []
  | Element _ _ children => n :: flat_map elements children
  end.

(** [doc.getElementsByTagName(name)] on a document with the given root
    element ([None] when the document has none). *)
Definition getElementsByTagName (doc : option Node) (name : string)
  : list Node :=
  match doc with
  | Some root =>
      List.filter (fun n => String.eqb (nodeName n) name) (elements root)
  | None => []
  end.

(** An entry of the obligations of a result: an object, with whatever
    its [obligationId] property holds, or a string. *)
Inductive Obligation : Type :=
| OblObject (obligationId : jsval)
| OblString (s : string).

(** [o.obligationId ? o.obligationId : o] as far as [ids.includes(oid)]
    can tell, [oid] being a string or [null]: the id when it is a
    string, [None] when it is some other value, which equals no [oid]. *)
Definition idOf (o : Obligation) : option string :=
  match o with
  | OblObject v =>
      if truthy v then
        match v with
        | JStr s => Some s
        | _ => None
        end
      else None
  | OblString s => Some s
  end.

(** [ids.includes(oid)] *)
Definition includesId (ids : list (option string)) (oid : option string)
  : bool :=
  match oid with
  | Some s => existsb (fun i => bool_decide (i = Some s)) ids
  | None => false
  end.

(** [x || null] for the result of [getAttribute]. *)
Definition orNull (x : option string) : option string :=
  if truthyStr x then x else None.

(** The loop over the children of an [AttributeAssignment], threading
    the locals [value], [dataType] and [designator]. *)
Definition scanGrand (grand : list Node)
  : option string * option string * option DesignatorInfo :=
  fold_left
    (fun (acc : option string * option string * option DesignatorInfo) g =>
       let '(value, dataType, designator) := acc in
       if String.eqb (nodeName g) "AttributeValue" then
         (Some (textContent g), orNull (getAttribute g "DataType"),
          designator)
       else if String.eqb (nodeName g) "AttributeDesignator" then
         (value, dataType,
          Some {| di_category := orNull (getAttribute g "Category");
                  di_attributeId := orNull (getAttribute g "AttributeId");
                  di_dataType := orNull (getAttribute g "DataType");
                  di_mustBePresent :=
                    bool_decide (getAttribute g "MustBePresent" = Some "true")
               |})
       else acc)
    grand (None, None, None).

(** The entry pushed for one [AttributeAssignment] child. *)
Definition assignmentOf (child : Node) : Assignment :=
  let attrId := getAttribute child "AttributeId" in
  let category := orNull (getAttribute child "Category") in
  let issuer := orNull (getAttribute child "Issuer") in
  let '(value, dataType, designator) := scanGrand (childNodes child) in
  {| attributeId := attrId;
     a_category := category;
     a_issuer := issuer;
     a_dataType := dataType;
     a_value := value;
     designator := designator |}.

(** The object pushed for an [ObligationExpression] element that passed
    the id test. *)
Definition obligationOf (node : Node) : FullObligation :=
  let oid := getAttribute node "ObligationId" in
  let fulfillOn := getAttribute node "FulfillOn" in
  let assigns :=
    List.map assignmentOf
      (List.filter
         (fun child => String.eqb (nodeName child) "AttributeAssignment")
         (childNodes node)) in
  {| obligationId := oid; fulfillOn := fulfillOn; assignments := assigns |}.

(** The loop over the [ObligationExpression] elements of one document. *)
Definition matching (ids : list (option string)) (nodes : list Node)
  : list FullObligation :=
  List.map obligationOf
    (List.filter
       (fun node => includesId ids (getAttribute node "ObligationId"))
       nodes).

(** The last loop: the first entry of every [obligationId] is kept. *)
Fixpoint uniq (result : list FullObligation) (seen : gset (option string))
  : list FullObligation :=
  match result with
  | [] => []
  | o :: result =>
      if decide (obligationId o ∈ seen) then uniq result seen
      else o :: uniq result ({[ obligationId o ]} ∪ seen)
  end.

Section Files.
(** [this.policyFiles], [fs.readFileSync(pf, 'utf8')] and
    [new DOMParser().parseFromString(xml, 'text/xml')], the latter as
    the root element of the document it returns ([None] for a document
    without one). It throws when the parser throws, and when the parser
    returns no document, since the call of [getElementsByTagName] on
    its result then does; neither is caught. *)
Variable policyFiles : list string.
Variable readFileSync : string -> Outcome string.
Variable parseFromString : string -> Outcome (option Node).

(** The loop over the policy files, threading [result]; a file that
    cannot be read is skipped. *)
Fixpoint collect (ids : list (option string)) (files : list string)
    (result : list FullObligation) : Outcome (list FullObligation) :=
  match files with
  | [] => Return result
  | pf :: files =>
      match readFileSync pf with
      | Throw _ => collect ids files result
      | Return xml =>
          let? doc := parseFromString xml in
          let nodes := getElementsByTagName doc "ObligationExpression" in
          collect ids files (result ++ matching ids nodes)
      end
  end.

(** [getFullObligationsFromPolicy(obligations)]; [None] is an
    [undefined] or [null] argument. *)
Definition getFullObligationsFromPolicy
    (obligations : option (list Obligation))
  : Outcome (list FullObligation) :=
  match obligations with
  | None => Return []
  | Some [] => Return []
  | Some obligations =>
      let ids := List.map idOf obligations in
      let? result := collect ids policyFiles [] in
      Return (uniq result ∅)
  end.
End Files.

End LuasObligations.

(** ** A policy file with one obligation, and a PDP that asks for it *)

Module PolicyExamples.
Import Dom Luas LuasObligations.

Definition expiredObligation : Node :=
  Element "ObligationExpression"
    [("ObligationId", "task-expired"); ("FulfillOn", "Deny")]
    [Text " ";
     Element "AttributeAssignment" [("AttributeId", "denyReason")]
       [Element "AttributeValue"
          [("DataType", "http://www.w3.org/2001/XMLSchema#string")]
          [Text "The task has expired"]]].

(** The obligation is declared twice, as when a policy and the policy
    set that includes it are both loaded. *)
Definition policyDocument : Node :=
  Element "Policy" [("PolicyId", "task-approval")]
    [Element "ObligationExpressions" []
       [expiredObligation; expiredObligation]].

Definition policyXml : string := "<Policy PolicyId='task-approval'/>".

Definition policyFiles : list string :=
  ["policies/absent.xml"; "policies/task-approval.xml"].

Definition readFileSync (pf : string) : Outcome string :=
  if String.eqb pf "policies/task-approval.xml" then Return policyXml
  else Throw (JsError "ENOENT: no such file or directory").

Definition parseFromString (xml : string) : Outcome (option Node) :=
  if String.eqb xml policyXml then Return (Some policyDocument)
  else Return None.

Definition requested : option (list Obligation) :=
  Some [OblObject (JStr "task-expired"); OblString "notify-owner"].

Definition fullObligations : list FullObligation :=
  [obligationOf expiredObligation].

(** A PDP whose only result carries the given decision code, with the
    decision constants numbered from 0. *)
Definition samplePdp (code : Z) (request : unit)
  : M unit (option (ResponseCtx Obligation unit)) :=
  ret (Some {| obligations := requested; getDecision := code;
               attributes := tt; status := None |}).

Definition sampleObligations (o : option (list Obligation))
  : M unit (list FullObligation) :=
  lift (getFullObligationsFromPolicy policyFiles readFileSync
          parseFromString o).

Definition sampleCallBack (code : Z) (request : string) : M unit Response :=
  evaluateCallBack unit (fun _ => ret tt) Obligation unit (samplePdp code)
    sampleObligations (fun _ => "{}") (fun _ => JStr "[]")
    0 1 2 3 4 5 6 request.

Definition sampleResponse (decision reason : jsval) : Response :=
  {[ "obligations" := JStr "[{}]";
     "attributes" := JStr "[]";
     "decision" := decision;
     "reason" := reason;
     "message" := JNull ]}.

End PolicyExamples.

(** ** [utils/decisionParams.js] and [utils/policyInformationPoint.js] *)

Module DecisionParams.

(** A JavaScript value as this code observes it: [undefined], [null], a
    string, or any other value, of which the code only uses the
    truthiness and [String(v)]; [text] is [None] when the conversion
    throws, as it does for an object whose [toString] property is not a
    function. *)
Inductive Value : Type :=
| VUndefined
| VNull
| VStr (s : string)
| VOther (boolean : bool) (text : option string).

(** [Boolean(v)] *)
Definition toBoolean (v : Value) : bool :=
  match v with
  | VUndefined | VNull => false
  | VStr s => negb (String.eqb s "")
  | VOther t _ => t
  end.

(** The [TypeError] of a conversion to a string that fails. *)
Definition conversionError : exn :=
  JsTypeError "Cannot convert object to primitive value".

(** [String(v)] *)
Definition String_ (v : Value) : Outcome string :=
  match v with
  | VUndefined => Return "undefined"
  | VNull => Return "null"
  | VStr s => Return s
  | VOther _ (Some s) => Return s
  | VOther _ None => Throw conversionError
  end.

(** [a || b] *)
Definition or_ (a b : Value) : Value := if toBoolean a then a else b.

(** An object read by property name: the query of a request, or the
    object literal a policy information point returns. A property it
    does not have reads as [undefined]. *)
Definition Object_ : Type := gmap string Value.

Definition prop (o : Object_) (k : string) : Value :=
  default VUndefined (o !! k).

(** [s.replace(/c/g, by)] for a pattern that is one literal character
    and a replacement without [$]. *)
Fixpoint replaceAll (c : ascii) (by_ : string) (s : string) : string :=
  match s with
  | EmptyString => EmptyString
  | String x s =>
      if Ascii.eqb x c then by_ +:+ replaceAll c by_ s
      else String x (replaceAll c by_ s)
  end.

(** The double quote. *)
Definition dq : ascii := "034"%char.

(** The five replacements of [escapeXml], in the order of the source. *)
Definition escapeText (s : string) : string :=
  replaceAll "'" "&apos;"
    (replaceAll dq "&quot;"
       (replaceAll ">" "&gt;"
          (replaceAll "<" "&lt;"
             (replaceAll "&" "&amp;" s)))).

Definition escapeXml (str : Value) : Outcome string :=
  match str with
  | VUndefined | VNull => Return ""
  | _ =>
      let? s := String_ str in
      Return (escapeText s)
  end.

(** A text between double quotes, and lines joined by line feeds. *)
Definition q (s : string) : string := String dq (s +:+ String dq "").

Definition unlines (lines : list string) : string :=
  String.concat (String "010"%char "") lines.

(** The template literal of [buildTaskApprovalRequest], its
    placeholders in the order in which they are evaluated. *)
Definition taskApprovalTemplate (action taskId taskExpires now : string)
  : string :=
  unlines
    [ "<?xml version=" +:+ q "1.0" +:+ " encoding=" +:+ q "UTF-8" +:+ "?>";
      "<Request xmlns="
        +:+ q "urn:oasis:names:tc:xacml:3.0:core:schema:wd-17" +:+ ">";
      EmptyString;
      "  <!-- Action -->";
      "  <Attributes Category="
        +:+ q "urn:oasis:names:tc:xacml:3.0:attribute-category:action"
        +:+ ">";
      "    <Attribute AttributeId=" +:+ q "action" +:+ " IncludeInResult="
        +:+ q "false" +:+ ">";
      "      <AttributeValue DataType="
        +:+ q "http://www.w3.org/2001/XMLSchema#string" +:+ ">" +:+ action
        +:+ "</AttributeValue>";
      "    </Attribute>";
      "  </Attributes>";
      EmptyString;
      "  <!-- Resource: task-scoped federation -->";
      "  <Attributes Category="
        +:+ q "urn:oasis:names:tc:xacml:1.0:attribute-category:resource"
        +:+ ">";
      "    <Attribute AttributeId=" +:+ q "task_id" +:+ " IncludeInResult="
        +:+ q "false" +:+ ">";
      "      <AttributeValue DataType="
        +:+ q "http://www.w3.org/2001/XMLSchema#string" +:+ ">" +:+ taskId
        +:+ "</AttributeValue>";
      "    </Attribute>";
      EmptyString;
      "    <!-- Must be later than current-dateTime -->";
      "    <Attribute AttributeId=" +:+ q "task_expires"
        +:+ " IncludeInResult=" +:+ q "false" +:+ ">";
      "      <AttributeValue DataType="
        +:+ q "http://www.w3.org/2001/XMLSchema#dateTime" +:+ ">"
        +:+ taskExpires +:+ "</AttributeValue>";
      "    </Attribute>";
      "  </Attributes>";
      EmptyString;
      "  <!-- Environment -->";
      "  <Attributes Category="
        +:+ q "urn:oasis:names:tc:xacml:3.0:attribute-category:environment"
        +:+ ">";
      "    <Attribute AttributeId=" +:+ q "current-dateTime"
        +:+ " IncludeInResult=" +:+ q "false" +:+ ">";
      "      <AttributeValue DataType="
        +:+ q "http://www.w3.org/2001/XMLSchema#dateTime" +:+ ">" +:+ now
        +:+ "</AttributeValue>";
      "    </Attribute>";
      "  </Attributes>";
      EmptyString;
      "</Request>" ].

(** The template literal of [buildMembershipValidationRequest]. *)
Definition membershipValidationTemplate
    (action taskId taskExpires nodeId isMember taskMembershipExpires now
     : string)
  : string :=
  unlines
    [ "<?xml version=" +:+ q "1.0" +:+ " encoding=" +:+ q "UTF-8" +:+ "?>";
      "<Request xmlns="
        +:+ q "urn:oasis:names:tc:xacml:3.0:core:schema:wd-17" +:+ ">";
      EmptyString;
      "  <!-- Action: Node Activation -->";
      "  <Attributes Category="
        +:+ q "urn:oasis:names:tc:xacml:3.0:attribute-category:action"
        +:+ ">";
      "    <Attribute AttributeId=" +:+ q "action" +:+ ">";
      "      <AttributeValue DataType="
        +:+ q "http://www.w3.org/2001/XMLSchema#string" +:+ ">" +:+ action
        +:+ "</AttributeValue>";
      "    </Attribute>";
      "  </Attributes>";
      EmptyString;
      "  <!-- Resource: Task (task-scoped federation) -->";
      "  <Attributes Category="
        +:+ q "urn:oasis:names:tc:xacml:1.0:attribute-category:resource"
        +:+ ">";
      "    <Attribute AttributeId=" +:+ q "task_id" +:+ ">";
      "      <AttributeValue DataType="
        +:+ q "http://www.w3.org/2001/XMLSchema#string" +:+ ">" +:+ taskId
        +:+ "</AttributeValue>";
      "    </Attribute>";
      EmptyString;
      "    <!-- Must be strictly greater than current-dateTime -->";
      "    <Attribute AttributeId=" +:+ q "task_expires" +:+ ">";
      "      <AttributeValue DataType="
        +:+ q "http://www.w3.org/2001/XMLSchema#dateTime" +:+ ">"
        +:+ taskExpires +:+ "</AttributeValue>";
      "    </Attribute>";
      "  </Attributes>";
      EmptyString;
      "  <!-- Subject: Node (task-scoped membership) -->";
      "  <Attributes Category="
        +:+ q "urn:oasis:names:tc:xacml:1.0:subject-category:access-subject"
        +:+ ">";
      EmptyString;
      "    <Attribute AttributeId=" +:+ q "node_id" +:+ ">";
      "      <AttributeValue DataType="
        +:+ q "http://www.w3.org/2001/XMLSchema#string" +:+ ">" +:+ nodeId
        +:+ "</AttributeValue>";
      "    </Attribute>";
      EmptyString;
      "    <Attribute AttributeId=" +:+ q "is_member_of_task" +:+ ">";
      "      <AttributeValue DataType="
        +:+ q "http://www.w3.org/2001/XMLSchema#boolean" +:+ ">"
        +:+ isMember +:+ "</AttributeValue>";
      "    </Attribute>";
      EmptyString;
      "    <!-- Must be strictly greater than current-dateTime -->";
      "    <Attribute AttributeId=" +:+ q "task_membership_expires" +:+ ">";
      "      <AttributeValue DataType="
        +:+ q "http://www.w3.org/2001/XMLSchema#dateTime" +:+ ">"
        +:+ taskMembershipExpires +:+ "</AttributeValue>";
      "    </Attribute>";
      EmptyString;
      "  </Attributes>";
      EmptyString;
      "  <!-- Environment: Current DateTime -->";
      "  <Attributes Category="
        +:+ q "urn:oasis:names:tc:xacml:3.0:attribute-category:environment"
        +:+ ">";
      "    <Attribute AttributeId=" +:+ q "current-dateTime" +:+ ">";
      "      <AttributeValue DataType="
        +:+ q "http://www.w3.org/2001/XMLSchema#dateTime" +:+ ">" +:+ now
        +:+ "</AttributeValue>";
      "    </Attribute>";
      "  </Attributes>";
      EmptyString;
      "</Request>" ].

(** The template literal of [buildMembershipTypeRequest]; [title] is
    [action === 'train' ? 'Train' : 'Evaluate']. *)
Definition membershipTypeTemplate
    (title action taskId taskExpires isMember taskMembershipExpires taskRole
     now : string)
  : string :=
  unlines
    [ "<?xml version=" +:+ q "1.0" +:+ " encoding=" +:+ q "UTF-8" +:+ "?>";
      "<Request xmlns="
        +:+ q "urn:oasis:names:tc:xacml:3.0:core:schema:wd-17" +:+ ">";
      EmptyString;
      "  <!-- Action: " +:+ title +:+ " -->";
      "  <Attributes Category="
        +:+ q "urn:oasis:names:tc:xacml:3.0:attribute-category:action"
        +:+ ">";
      "    <Attribute AttributeId=" +:+ q "action" +:+ ">";
      "      <AttributeValue DataType="
        +:+ q "http://www.w3.org/2001/XMLSchema#string" +:+ ">" +:+ action
        +:+ "</AttributeValue>";
      "    </Attribute>";
      "  </Attributes>";
      EmptyString;
      "  <!-- Resource: Task -->";
      "  <Attributes Category="
        +:+ q "urn:oasis:names:tc:xacml:1.0:attribute-category:resource"
        +:+ ">";
      "    <Attribute AttributeId=" +:+ q "task_id" +:+ ">";
      "      <AttributeValue DataType="
        +:+ q "http://www.w3.org/2001/XMLSchema#string" +:+ ">" +:+ taskId
        +:+ "</AttributeValue>";
      "    </Attribute>";
      EmptyString;
      "    <!-- Must be strictly greater than current-dateTime -->";
      "    <Attribute AttributeId=" +:+ q "task_expires" +:+ ">";
      "      <AttributeValue DataType="
        +:+ q "http://www.w3.org/2001/XMLSchema#dateTime" +:+ ">"
        +:+ taskExpires +:+ "</AttributeValue>";
      "    </Attribute>";
      "  </Attributes>";
      EmptyString;
      "  <!-- Subject: Node -->";
      "  <Attributes Category="
        +:+ q "urn:oasis:names:tc:xacml:1.0:subject-category:access-subject"
        +:+ ">";
      EmptyString;
      "    <Attribute AttributeId=" +:+ q "is_member_of_task" +:+ ">";
      "      <AttributeValue DataType="
        +:+ q "http://www.w3.org/2001/XMLSchema#boolean" +:+ ">"
        +:+ isMember +:+ "</AttributeValue>";
      "    </Attribute>";
      EmptyString;
      "    <!-- Must be strictly greater than current-dateTime -->";
      "    <Attribute AttributeId=" +:+ q "task_membership_expires" +:+ ">";
      "      <AttributeValue DataType="
        +:+ q "http://www.w3.org/2001/XMLSchema#dateTime" +:+ ">"
        +:+ taskMembershipExpires +:+ "</AttributeValue>";
      "    </Attribute>";
      EmptyString;
      "    <!-- participant can train/aggregate -->";
      "    <Attribute AttributeId=" +:+ q "task_role" +:+ ">";
      "      <AttributeValue DataType="
        +:+ q "http://www.w3.org/2001/XMLSchema#string" +:+ ">" +:+ taskRole
        +:+ "</AttributeValue>";
      "    </Attribute>";
      EmptyString;
      "  </Attributes>";
      EmptyString;
      "  <!-- Environment -->";
      "  <Attributes Category="
        +:+ q "urn:oasis:names:tc:xacml:3.0:attribute-category:environment"
        +:+ ">";
      "    <Attribute AttributeId=" +:+ q "current-dateTime" +:+ ">";
      "      <AttributeValue DataType="
        +:+ q "http://www.w3.org/2001/XMLSchema#dateTime" +:+ ">" +:+ now
        +:+ "</AttributeValue>";
      "    </Attribute>";
      "  </Attributes>";
      EmptyString;
      "</Request>" ].

Section Builders.
(** [pip.getTaskPolicyInfo], [pip.getMembershipInfo] and
    [pip.getMembershipTypeInfo], which return [null] or an object;
    [new Date().toISOString()]; and [String.prototype.toLowerCase]. *)
Variable getTaskPolicyInfo : Value -> option Object_.
Variable getMembershipInfo : Value -> Value -> option Object_.
Variable getMembershipTypeInfo : Value -> option Object_.
Variable now : string.
Variable toLowerCase : string -> string.

(** [params.task_id || params.taskId || params.task || params.id] *)
Definition taskIdOf (params : Object_) : Value :=
  or_ (or_ (or_ (prop params "task_id") (prop params "taskId"))
           (prop params "task"))
      (prop params "id").

(** [params.node_id || params.nodeId || params.node] *)
Definition nodeIdOf (params : Object_) : Value :=
  or_ (or_ (prop params "node_id") (prop params "nodeId"))
      (prop params "node").

(** [null] is [None]. *)
Definition buildTaskApprovalRequest (params : Object_)
  : Outcome (option string) :=
  let taskId := taskIdOf params in
  if negb (toBoolean taskId) then Return None
  else
    match getTaskPolicyInfo taskId with
    | None => Return None
    | Some info =>
        let action := VStr "task-authorization" in
        let taskExpires :=
          or_ (or_ (prop info "taskExpires") (prop info "task_expires"))
              (VStr "2026-12-31T23:59:59Z") in
        let now :=
          or_ (or_ (prop info "current_dateTime")
                   (prop info "currentDateTime"))
              (VStr now) in
        let? action := escapeXml action in
        let? taskId := escapeXml taskId in
        let? taskExpires := escapeXml taskExpires in
        let? now := escapeXml now in
        Return (Some (taskApprovalTemplate action taskId taskExpires now))
    end.

Definition buildMembershipValidationRequest (params : Object_)
  : Outcome (option string) :=
  let nodeId := nodeIdOf params in
  let taskId := taskIdOf params in
  if negb (toBoolean nodeId) || negb (toBoolean taskId) then Return None
  else
    match getMembershipInfo taskId nodeId with
    | None => Return None
    | Some info =>
        let taskExpires :=
          or_ (or_ (prop info "taskExpires") (prop info "task_expires"))
              (VStr "2026-12-31T23:59:59Z") in
        let isMember :=
          or_ (or_ (prop info "isMember") (prop info "is_member_of_task"))
              (VStr "false") in
        let taskMembershipExpires :=
          or_ (or_ (prop info "taskMembershipExpires")
                   (prop info "task_membership_expires"))
              (VStr "2026-12-31T23:59:59Z") in
        let action := VStr "node-activation" in
        let now :=
          or_ (or_ (prop info "current_dateTime")
                   (prop info "currentDateTime"))
              (VStr now) in
        let? action := escapeXml action in
        let? taskId := escapeXml taskId in
        let? taskExpires := escapeXml taskExpires in
        let? nodeId := escapeXml nodeId in
        let? isMember := escapeXml isMember in
        let? taskMembershipExpires := escapeXml taskMembershipExpires in
        let? now := escapeXml now in
        Return (Some (membershipValidationTemplate action taskId taskExpires
                        nodeId isMember taskMembershipExpires now))
    end.

(** [let info = null; if (nodeId) { info = pip.getMembershipInfo(taskId,
    nodeId); } if (!info) { info = pip.getMembershipTypeInfo(taskId); }] *)
Definition membershipTypeInfoFor (taskId nodeId : Value) : option Object_ :=
  let info :=
    if toBoolean nodeId then getMembershipInfo taskId nodeId else None in
  match info with
  | Some info => Some info
  | None => getMembershipTypeInfo taskId
  end.

(** The [console.log] of the action is left out. *)
Definition buildMembershipTypeRequest (params : Object_)
  : Outcome (option string) :=
  let taskId := taskIdOf params in
  let nodeId := nodeIdOf params in
  if negb (toBoolean taskId) then Return None
  else
    match membershipTypeInfoFor taskId nodeId with
    | None => Return None
    | Some info =>
        let taskExpires :=
          or_ (or_ (prop info "taskExpires") (prop info "task_expires"))
              (VStr "2026-12-31T23:59:59Z") in
        let isMember :=
          or_ (or_ (prop info "isMember") (prop info "is_member_of_task"))
              (VStr "true") in
        let taskMembershipExpires :=
          or_ (or_ (prop info "taskMembershipExpires")
                   (prop info "task_membership_expires"))
              (VStr "2026-12-31T23:59:59Z") in
        let taskRole :=
          or_ (or_ (prop info "taskRole") (prop info "task_role"))
              (VStr "participant") in
        let action := prop params "action" in
        let now :=
          or_ (or_ (or_ (or_ (prop info "current_date_time")
                             (prop info "currentDateTime"))
                        (prop info "current_dateTime"))
                   (prop info "currentDateTime"))
              (VStr now) in
        let title :=
          match action with
          | VStr "train" => "Train"
          | _ => "Evaluate"
          end in
        let? action := escapeXml action in
        let? taskId := escapeXml taskId in
        let? taskExpires := escapeXml taskExpires in
        let? isMember := escapeXml isMember in
        let? taskMembershipExpires := escapeXml taskMembershipExpires in
        let? taskRole := escapeXml taskRole in
        let? now := escapeXml now in
        Return (Some (membershipTypeTemplate title action taskId taskExpires
                        isMember taskMembershipExpires taskRole now))
    end.

(** The cases of the [switch]. *)
Definition taskApprovalKeys : list string :=
  ["task_approval"; "task-approval"; "taks_approval"; "taskapproval"].

Definition membershipValidationKeys : list string :=
  ["membership_validation"; "membership-validation";
   "memebership_validation"; "membershipvalidation"].

Definition membershipTypeKeys : list string := ["train"; "evaluate"].

Definition getRequestXML (action : Value) (params : Object_)
  : Outcome (option string) :=
  if negb (toBoolean action) then Return None
  else
    let? s := String_ action in
    let key := toLowerCase s in
    if bool_decide (key ∈ taskApprovalKeys) then
      buildTaskApprovalRequest params
    else if bool_decide (key ∈ membershipValidationKeys) then
      buildMembershipValidationRequest params
    else if bool_decide (key ∈ membershipTypeKeys) then
      buildMembershipTypeRequest params
    else Return None.
End Builders.

(** The characters with which markup starts and ends, and the markup
    characters of a text in their order. *)
Definition isMarkup (c : ascii) : bool :=
  Ascii.eqb c "<" || Ascii.eqb c ">" || Ascii.eqb c dq || Ascii.eqb c "'".

Definition markup (s : string) : list ascii :=
  List.filter isMarkup (list_ascii_of_string s).

(** The markup of the three templates with nothing filled in. *)
Definition requestSkeletons : list (list ascii) :=
  [markup (taskApprovalTemplate "" "" "" "");
   markup (membershipValidationTemplate "" "" "" "" "" "" "");
   markup (membershipTypeTemplate "" "" "" "" "" "" "" "")].

End DecisionParams.

Module PolicyInformationPoint.
Import DecisionParams.

Section Pip.
(** What [nodes.json] holds, as far as the code reaches it: [Data] are
    the values that property reads produce, [view d] is what the code
    observes of such a value, [readData] is [_readData()], [get o k] is
    the read [o[k]] (it throws when [o] is [null] or [undefined], or
    when [k] has no property key), [emptyObject] is [{}] and [now] is
    [new Date().toISOString()]. *)
Variable Data : Type.
Variable readData : Outcome Data.
Variable get : Data -> Value -> Outcome Data.
Variable view : Data -> Value.
Variable emptyObject : Data.
Variable now : string.

(** [o.k] *)
Definition getp (o : Data) (k : string) : Outcome Data := get o (VStr k).

(** [a || b], where [b] is evaluated only when [a] is falsy. *)
Definition orElse (a b : Outcome Data) : Outcome Data :=
  let? x := a in
  if toBoolean (view x) then Return x else b.

(** [try { body } catch (err) { return null; }] *)
Definition nullOnError (body : Outcome (option Object_)) : option Object_ :=
  match body with
  | Return r => r
  | Throw _ => None
  end.

(** [const data = _readData(); const tasks = data.tasks || {};] *)
Definition readTasks : Outcome Data :=
  let? data := readData in
  orElse (getp data "tasks") (Return emptyObject).

(** [o.is_member_of_task !== undefined ? o.is_member_of_task :
    (o.isMemberOfTask !== undefined ? o.isMemberOfTask : undefined)] *)
Definition isMemberRawOf (o : Data) : Outcome Value :=
  let? a := getp o "is_member_of_task" in
  match view a with
  | VUndefined =>
      let? b := getp o "isMemberOfTask" in
      Return (view b)
  | v => Return v
  end.

(** [isMemberRaw !== undefined ? String(isMemberRaw) : undefined] *)
Definition isMemberOf (isMemberRaw : Value) : Outcome Value :=
  match isMemberRaw with
  | VUndefined => Return VUndefined
  | v =>
      let? s := String_ v in
      Return (VStr s)
  end.

(** In the three functions [x || null] followed by [if (!x) return
    null] is the test of the truthiness of [x]. *)
Definition getTaskPolicyInfo (taskId : Value) : option Object_ :=
  nullOnError
    (let? tasks := readTasks in
     let? info := orElse (get tasks taskId) (getp tasks "default") in
     if negb (toBoolean (view info)) then Return None
     else
       let? taskExpires :=
         orElse (getp info "task_expires") (getp info "taskExpires") in
       let? configured :=
         orElse (getp info "current_dateTime")
                (getp info "currentDateTime") in
       let now := or_ (view configured) (VStr now) in
       Return (Some {[ "taskExpires" := view taskExpires;
                       "current_date_time" := now ]})).

Definition getMembershipInfo (taskId nodeId : Value) : option Object_ :=
  nullOnError
    (let? tasks := readTasks in
     let? task := orElse (get tasks taskId) (getp tasks "default") in
     if negb (toBoolean (view task)) then Return None
     else
       let? taskExpires :=
         orElse (getp task "task_expires") (getp task "taskExpires") in
       let? nodes := orElse (getp task "nodes") (Return emptyObject) in
       let? nodeInfo := orElse (get nodes nodeId) (getp nodes "default") in
       if negb (toBoolean (view nodeInfo)) then Return None
       else
         let? isMemberRaw := isMemberRawOf nodeInfo in
         let? isMember := isMemberOf isMemberRaw in
         let? taskMembershipExpires :=
           orElse (orElse (getp nodeInfo "task_membership_expires")
                          (getp nodeInfo "taskMembershipExpires"))
                  (getp task "task_membership_expires") in
         let? taskRole :=
           orElse (orElse (orElse (getp nodeInfo "task_role")
                                  (getp nodeInfo "taskRole"))
                          (getp task "task_role"))
                  (getp task "taskRole") in
         let? configured :=
           orElse (getp task "current_date_time")
                  (getp task "currentDateTime") in
         let now := or_ (view configured) (VStr now) in
         Return (Some {[ "taskExpires" := view taskExpires;
                         "isMember" := isMember;
                         "taskMembershipExpires" :=
                           view taskMembershipExpires;
                         "taskRole" := view taskRole;
                         "current_date_time" := now ]})).

Definition getMembershipTypeInfo (taskId : Value) : option Object_ :=
  nullOnError
    (let? tasks := readTasks in
     let? task := orElse (get tasks taskId) (getp tasks "default") in
     if negb (toBoolean (view task)) then Return None
     else
       let? taskExpires :=
         orElse (getp task "task_expires") (getp task "taskExpires") in
       let? nodes := orElse (getp task "nodes") (Return emptyObject) in
       let? defaultNode := getp nodes "default" in
       if negb (toBoolean (view defaultNode)) then Return None
       else
         let? isMemberRaw := isMemberRawOf defaultNode in
         let? isMember := isMemberOf isMemberRaw in
         let? taskMembershipExpires :=
           orElse (orElse (getp defaultNode "task_membership_expires")
                          (getp defaultNode "taskMembershipExpires"))
                  (getp task "task_membership_expires") in
         let? taskRole :=
           orElse (getp defaultNode "task_role")
                  (getp defaultNode "taskRole") in
         let? configured :=
           orElse (getp task "current_dateTime")
                  (getp task "currentDateTime") in
         let now := or_ (view configured) (VStr now) in
         Return (Some {[ "taskExpires" := view taskExpires;
                         "isMember" := isMember;
                         "taskMembershipExpires" :=
                           view taskMembershipExpires;
                         "taskRole" := view taskRole;
                         "current_dateTime" := now ]})).
End Pip.

(** [decisionParams.getRequestXML] over this policy information point;
    [pipNow] and [now] are what [new Date().toISOString()] returns
    there and in the builders. *)
Section Requests.
Variable Data : Type.
Variable readData : Outcome Data.
Variable get : Data -> Value -> Outcome Data.
Variable view : Data -> Value.
Variable emptyObject : Data.
Variable pipNow : string.
Variable now : string.
Variable toLowerCase : string -> string.

Definition taskApprovalRequest : Object_ -> Outcome (option string) :=
  buildTaskApprovalRequest
    (getTaskPolicyInfo Data readData get view emptyObject pipNow) now.

Definition membershipValidationRequest
  : Object_ -> Outcome (option string) :=
  buildMembershipValidationRequest
    (getMembershipInfo Data readData get view emptyObject pipNow) now.

Definition membershipTypeRequest : Object_ -> Outcome (option string) :=
  buildMembershipTypeRequest
    (getMembershipInfo Data readData get view emptyObject pipNow)
    (getMembershipTypeInfo Data readData get view emptyObject pipNow) now.

Definition requestXML : Value -> Object_ -> Outcome (option string) :=
  getRequestXML
    (getTaskPolicyInfo Data readData get view emptyObject pipNow)
    (getMembershipInfo Data readData get view emptyObject pipNow)
    (getMembershipTypeInfo Data readData get view emptyObject pipNow)
    now toLowerCase.
End Requests.

End PolicyInformationPoint.

(** ** [app.js]: the [/getDecision] route *)

Module App.
Import DecisionParams Luas.

(** The constants of the package [http-status-codes] that the route
    uses; [res.json] without [res.status] replies with 200. *)
Module StatusCodes.
Definition OK : Z := 200.
Definition BAD_REQUEST : Z := 400.
Definition INTERNAL_SERVER_ERROR : Z := 500.
Definition SERVICE_UNAVAILABLE : Z := 503.
End StatusCodes.

(** The object handed to [res.json]: [{ error, details }], where
    [details] may be missing or [undefined], or [{ decision }], where
    [decision] is [undefined] when [luas.evaluates] returned nothing. *)
Inductive Body : Type :=
| ErrorBody (error : string) (details : option string)
| DecisionBody (decision : option Response).

Record Reply : Type := {
  status : Z;
  json : Body
}.

Section Route.
Context {W : Type}.
(** The module variable [luas], which is [undefined] until [init] has
    stored a PDP, as its method [evaluates]; and
    [decisionParams.getRequestXML]. *)
Variable luas : option (string -> M W (option Response)).
Variable getRequestXML : Value -> Object_ -> Outcome (option string).

(** The handler of [/getDecision] on [req.query]. Its promise is
    rejected, and no reply is sent, when the [catch] clause itself
    throws. The [console.error] is left out. *)
Definition getDecision (query : Object_) : M W Reply :=
  tryCatch
    (match luas with
     | None =>
         ret {| status := StatusCodes.SERVICE_UNAVAILABLE;
                json := ErrorBody "PDP not initialized yet" None |}
     | Some evaluates =>
         let action := prop query "action" in
         let! requestXml := lift (getRequestXML action query) in
         if negb (truthyStr requestXml) then
           ret {| status := StatusCodes.BAD_REQUEST;
                  json :=
                    ErrorBody
                      "Invalid or missing action or required params (task_id, node_id)"
                      None |}
         else
           let! decision := evaluates (default "" requestXml) in
           ret {| status := StatusCodes.OK;
                  json := DecisionBody decision |}
     end)
    (fun err =>
       match err with
       | ErrorObj _ message =>
           ret {| status := StatusCodes.INTERNAL_SERVER_ERROR;
                  json :=
                    ErrorBody "Failed to evaluate decision" (Some message) |}
       | ThrownStr _ =>
           ret {| status := StatusCodes.INTERNAL_SERVER_ERROR;
                  json := ErrorBody "Failed to evaluate decision" None |}
       | ThrownNullish =>
           throw
             (JsTypeError
                "Cannot read properties of null (reading 'message')")
       end).
End Route.

(** [Luas.prototype.getPDPInstance] of [xacml/luas.js] and [init]. *)
Section Init.
Context {W : Type}.
(** [new Luas(policyFiles)], [luas.pdp.init()] and
    [app.listen(PORT, ...)]; the constant [POLICY_FILES]. *)
Variable Pdp : Type.
Variable newLuas : list string -> M W Pdp.
Variable pdp_init : Pdp -> M W unit.
Variable listen : M W unit.
Variable POLICY_FILES : list string.

(** The [catch] clause traces the error and the function returns
    [undefined]. *)
Definition getPDPInstance (policyFiles : list string) : M W (option Pdp) :=
  tryCatch
    (let! luas := newLuas policyFiles in
     let! _ := pdp_init luas in
     ret (Some luas))
    (fun err => ret None).

(** How [init] ends: the server listens, with the module variable
    [luas] as [init] has set it, or the process exits. *)
Inductive Started : Type :=
| Listening (luas : option Pdp)
| Exited (code : Z).

Definition init : M W Started :=
  tryCatch
    (let! luas := getPDPInstance POLICY_FILES in
     let! _ := listen in
     ret (Listening luas))
    (fun err => ret (Exited 1)).
End Init.

End App.

(** ** A [nodes.json] and a query *)

Module PipExamples.
Import DecisionParams PolicyInformationPoint.

(** Parsed JSON made of strings and objects, read by own property;
    [JAbsent] is the [undefined] that a missing property reads as. *)
#[warnings="-register-all"]
Inductive Json : Type :=
| JAbsent
| JString (s : string)
| JObject (props : list (string * Json)).

Fixpoint lookup (k : string) (props : list (string * Json)) : Json :=
  match props with
  | [] => JAbsent
  | (k', v) :: props => if String.eqb k' k then v else lookup k props
  end.

Definition read (o : Json) (k : Value) : Outcome Json :=
  match o, k with
  | JAbsent, _ =>
      Throw (JsTypeError "Cannot read properties of undefined")
  | JObject props, VStr k => Return (lookup k props)
  | _, _ => Return JAbsent
  end.

Definition view (d : Json) : Value :=
  match d with
  | JAbsent => VUndefined
  | JString s => VStr s
  | JObject _ => VOther true (Some "[object Object]")
  end.

(** The task [medical] fixes the current time for its policy tests;
    its node [n1] has no membership flag. *)
Definition medical : Json :=
  JObject
    [("task_expires", JString "2026-12-31T23:59:59Z");
     ("current_dateTime", JString "2020-01-01T00:00:00Z");
     ("current_date_time", JString "2020-01-01T00:00:00Z");
     ("nodes",
      JObject
        [("n1",
          JObject
            [("task_membership_expires",
              JString "2026-06-30T00:00:00Z")])])].

Definition nodes : Json :=
  JObject [("tasks", JObject [("medical", medical); ("default", medical)])].

Definition hostClock : string := "2026-11-02T10:00:00.000Z".

Definition taskInfo : Value -> option Object_ :=
  getTaskPolicyInfo Json (Return nodes) read view (JObject []) hostClock.

Definition membershipInfo : Value -> Value -> option Object_ :=
  getMembershipInfo Json (Return nodes) read view (JObject []) hostClock.

Definition membershipTypeInfo : Value -> option Object_ :=
  getMembershipTypeInfo Json (Return nodes) read view (JObject [])
    hostClock.

Definition sampleRequestXML
  : Value -> Object_ -> Outcome (option string) :=
  PolicyInformationPoint.requestXML Json (Return nodes) read view
    (JObject []) hostClock hostClock Luas.toLowerCase.

Definition approvalQuery : Object_ :=
  {[ "action" := VStr "task_approval"; "task_id" := VStr "medical" ]}.

Definition validationQuery : Object_ :=
  {[ "action" := VStr "membership_validation";
     "task_id" := VStr "medical"; "node_id" := VStr "n1" ]}.

Definition trainQuery : Object_ :=
  {[ "action" := VStr "train"; "task_id" := VStr "medical";
     "node_id" := VStr "n1" ]}.

(** A PDP whose evaluation throws, behind a request factory that
    accepts every request. *)
Definition failingPdp (request : unit)
  : M unit (option (Luas.ResponseCtx unit unit)) :=
  throw (JsError "policy evaluation failed").

Definition failingLuas : string -> M unit (option Luas.Response) :=
  Luas.evaluates unit (fun _ => ret tt) unit unit failingPdp
    Examples.noObligations (fun _ => "{}") (fun _ => JStr "[]")
    0 1 2 3 4 5 6.

(** A PDP whose policy file is missing. *)
Definition missingPolicy (policyFiles : list string) : M unit unit :=
  throw (JsError "ENOENT: no such file or directory").

(** A task id that closes the element it is written into. *)
Definition hostileQuery : Object_ :=
  {[ "action" := VStr "task_approval";
     "task_id" := VStr "medical</AttributeValue><x a='1'>" ]}.

(** The requests built for these queries, and what the policy
    information point returns for the node [n1]. *)
Definition approvalRequest : string :=
  taskApprovalTemplate "task-authorization" "medical"
    "2026-12-31T23:59:59Z" hostClock.

Definition hostileRequest : string :=
  taskApprovalTemplate "task-authorization"
    "medical&lt;/AttributeValue&gt;&lt;x a=&apos;1&apos;&gt;"
    "2026-12-31T23:59:59Z" hostClock.

Definition validationRequest : string :=
  membershipValidationTemplate "node-activation" "medical"
    "2026-12-31T23:59:59Z" "n1" "false" "2026-06-30T00:00:00Z" hostClock.

Definition trainRequest : string :=
  membershipTypeTemplate "Train" "train" "medical" "2026-12-31T23:59:59Z"
    "true" "2026-06-30T00:00:00Z" "participant" "2020-01-01T00:00:00Z".

Definition n1Info : Object_ :=
  {[ "taskExpires" := VStr "2026-12-31T23:59:59Z";
     "isMember" := VUndefined;
     "taskMembershipExpires" := VStr "2026-06-30T00:00:00Z";
     "taskRole" := VUndefined;
     "current_date_time" := VStr "2020-01-01T00:00:00Z" ]}.

(** A [nodes.json] that cannot be read. *)
Definition noData : Outcome Json :=
  Throw (JsError "ENOENT: no such file or directory").

End PipExamples.

(** * Properties *)

(** ** The derivative matcher decides the language *)

Module RegexFacts.
Import Regex.

(** Inversion of the matching relation, one lemma per constructor. *)
Lemma Matches_Void_inv s : Matches Void s -> False.
Proof. intros H. inversion H. Qed.

Lemma Matches_Eps_inv s : Matches Eps s -> s = [].
Proof. intros H. now inversion H. Qed.

Lemma Matches_Cls_inv c s :
  Matches (Cls c) s -> exists a, s = [a] /\ in_class c a = true.
Proof. intros H. inversion H; subst. eauto. Qed.

Lemma Matches_Cat_inv r1 r2 s :
  Matches (Cat r1 r2) s ->
  exists s1 s2, s = s1 ++ s2 /\ Matches r1 s1 /\ Matches r2 s2.
Proof. intros H. inversion H; subst. eauto. Qed.

Lemma Matches_Alt_inv r1 r2 s :
  Matches (Alt r1 r2) s -> Matches r1 s \/ Matches r2 s.
Proof. intros H. inversion H; subst; auto. Qed.

Lemma Matches_Cat_intro r1 r2 s1 s2 s :
  s = s1 ++ s2 -> Matches r1 s1 -> Matches r2 s2 -> Matches (Cat r1 r2) s.
Proof. intros -> H1 H2. now constructor. Qed.

Lemma nullable_Matches r : nullable r = true <-> Matches r [].
Proof.
  induction r as [| | c | r1 IH1 r2 IH2 | r1 IH1 r2 IH2 | r IH]; simpl.
  - split; [discriminate | intros H; now apply Matches_Void_inv in H].
  - split; [constructor | reflexivity].
  - split; [discriminate |].
    intros H. apply Matches_Cls_inv in H as (a & E & _). discriminate.
  - rewrite andb_true_iff, IH1, IH2. split.
    + intros [H1 H2]. now apply (Matches_Cat_intro r1 r2 [] []).
    + intros H. apply Matches_Cat_inv in H as (s1 & s2 & E & H1 & H2).
      symmetry in E. apply app_eq_nil in E as [-> ->]. now split.
  - rewrite orb_true_iff, IH1, IH2. split.
    + intros [H | H]; [now apply MAltL | now apply MAltR].
    + apply Matches_Alt_inv.
  - split; [constructor | reflexivity].
Qed.

Lemma Matches_Cat_cons r1 r2 a s :
  Matches (Cat r1 r2) (a :: s) ->
  (exists s1 s2, s = s1 ++ s2 /\ Matches r1 (a :: s1) /\ Matches r2 s2)
  \/ (Matches r1 [] /\ Matches r2 (a :: s)).
Proof.
  intros H. apply Matches_Cat_inv in H as (s1 & s2 & E & M1 & M2).
  destruct s1 as [| b s1]; simpl in E.
  - right. subst. now split.
  - left. injection E as E1 E2. subst. now exists s1, s2.
Qed.

Lemma Matches_Star_cons r a s :
  Matches (Star r) (a :: s) ->
  exists s1 s2, s = s1 ++ s2 /\ Matches r (a :: s1) /\ Matches (Star r) s2.
Proof.
  intros H. remember (Star r) as r' eqn:Er. remember (a :: s) as w eqn:Ew.
  revert a s Ew.
  induction H as [| | | | | | r0 s1 s2 M1 _ M2 IH2]; intros x t Ew;
    try discriminate.
  injection Er as ->.
  destruct s1 as [| b s1]; simpl in Ew.
  - apply IH2; [reflexivity | assumption].
  - injection Ew as E1 E2. subst. now exists s1, s2.
Qed.

Lemma deriv_Matches r : forall a s,
  Matches (deriv a r) s <-> Matches r (a :: s).
Proof.
  induction r as [| | c | r1 IH1 r2 IH2 | r1 IH1 r2 IH2 | r IH];
    intros a s; simpl.
  - split; intros H; now apply Matches_Void_inv in H.
  - split; intros H;
      [now apply Matches_Void_inv in H | apply Matches_Eps_inv in H; discriminate].
  - destruct (in_class c a) eqn:Hc; split; intros H.
    + apply Matches_Eps_inv in H as ->. now constructor.
    + apply Matches_Cls_inv in H as (b & E & _). injection E as E1 E2. subst. constructor.
    + now apply Matches_Void_inv in H.
    + apply Matches_Cls_inv in H as (b & E & Hb). injection E as E1 E2. subst. congruence.
  - split.
    + intros H.
      assert (Matches (Cat (deriv a r1) r2) s -> Matches (Cat r1 r2) (a :: s))
        as HC.
      { intros HL. apply Matches_Cat_inv in HL as (s1 & s2 & -> & M1 & M2).
        apply (Matches_Cat_intro r1 r2 (a :: s1) s2);
          [reflexivity | now apply IH1 | assumption]. }
      destruct (nullable r1) eqn:N1; [| now apply HC].
      apply Matches_Alt_inv in H as [HL | HR]; [now apply HC |].
      apply (Matches_Cat_intro r1 r2 [] (a :: s));
        [reflexivity | now apply nullable_Matches | now apply IH2].
    + intros H.
      apply Matches_Cat_cons in H as [(s1 & s2 & -> & M1 & M2) | [M1 M2]].
      * assert (Matches (Cat (deriv a r1) r2) (s1 ++ s2)) as HC
          by (constructor; [now apply IH1 | assumption]).
        destruct (nullable r1); [now apply MAltL | assumption].
      * apply nullable_Matches in M1. rewrite M1.
        apply MAltR. now apply IH2.
  - split; intros H; apply Matches_Alt_inv in H as [H | H];
      solve [apply MAltL; now apply IH1 | apply MAltR; now apply IH2].
  - split; intros H.
    + apply Matches_Cat_inv in H as (s1 & s2 & -> & M1 & M2).
      change (a :: s1 ++ s2) with ((a :: s1) ++ s2).
      constructor; [now apply IH | assumption].
    + apply Matches_Star_cons in H as (s1 & s2 & -> & M1 & M2).
      constructor; [now apply IH | assumption].
Qed.

Lemma accepts_Matches s : forall r, accepts r s = true <-> Matches r s.
Proof.
  induction s as [| a s IH]; intros r; simpl.
  - apply nullable_Matches.
  - rewrite IH. apply deriv_Matches.
Qed.

(** The last piece of a concatenation matches a suffix of the input. *)
Lemma Matches_cat_all_last rs r s :
  Matches (cat_all (rs ++ [r])) s ->
  exists pre suf, s = pre ++ suf /\ Matches r suf.
Proof.
  revert s. induction rs as [| r0 rs IH]; intros s H; simpl in H;
    apply Matches_Cat_inv in H as (s1 & s2 & -> & M1 & M2).
  - apply Matches_Eps_inv in M2 as ->. exists [], s1. split; [| assumption].
    now rewrite app_nil_r.
  - destruct (IH _ M2) as (pre & suf & -> & Hs).
    exists (s1 ++ pre), suf. split; [now rewrite app_assoc | assumption].
Qed.

Lemma Matches_chr a s : Matches (chr a) s -> s = [a].
Proof.
  intros H. apply Matches_Cls_inv in H as (b & -> & Hb).
  simpl in Hb. apply Ascii.eqb_eq in Hb. now subst.
Qed.

Lemma Matches_digits n : forall s,
  Matches (digits n) s -> length s = n /\ forallb isDigit s = true.
Proof.
  induction n as [| n IH]; intros s H; simpl in H.
  - apply Matches_Eps_inv in H as ->. now split.
  - apply Matches_Cat_inv in H as (s1 & s2 & -> & M1 & M2).
    apply Matches_Cls_inv in M1 as (b & -> & Hb). simpl in Hb.
    destruct (IH _ M2) as [Hl Hd]. simpl. rewrite Hb, Hd, Hl. now split.
Qed.

End RegexFacts.

(** ** dateTime values *)

Module DateTimeAttributeFacts.
Import Regex RegexFacts DateTimeAttribute.

Lemma length_one_inv {A} (l : list A) :
  length l = 1%nat -> exists x, l = [x].
Proof.
  destruct l as [| x [| y l]]; try discriminate. intros _. now exists x.
Qed.

Lemma two_digits_inv s :
  Matches (digits 2) s ->
  exists a b, s = [a; b] /\ isDigit a = true /\ isDigit b = true.
Proof.
  intros H. apply Matches_digits in H as [Hl Hd].
  destruct s as [| a [| b [| c s]]]; try discriminate.
  simpl in Hd. apply andb_true_iff in Hd as [Ha Hb].
  apply andb_true_iff in Hb as [Hb _]. now exists a, b.
Qed.

(** What the timezone alternative of the pattern matches. *)
Lemma Matches_tzRegex suf :
  Matches tzRegex suf ->
  suf = ["Z"%char]
  \/ exists sign h1 h2 m1 m2,
       suf = [sign; h1; h2; ":"%char; m1; m2]
       /\ (Ascii.eqb sign "+" || Ascii.eqb sign "-") = true
       /\ isDigit h1 = true /\ isDigit h2 = true
       /\ isDigit m1 = true /\ isDigit m2 = true.
Proof.
  intros H. apply Matches_Alt_inv in H as [H | H].
  - left. now apply Matches_chr.
  - right. simpl in H.
    apply Matches_Cat_inv in H as (s1 & r1 & -> & M1 & H).
    apply Matches_Cat_inv in H as (s2 & r2 & -> & M2 & H).
    apply Matches_Cat_inv in H as (s3 & r3 & -> & M3 & H).
    apply Matches_Cat_inv in H as (s4 & r4 & -> & M4 & H).
    apply Matches_Eps_inv in H as ->.
    apply Matches_Cls_inv in M1 as (sign & -> & Hsign).
    apply two_digits_inv in M2 as (h1 & h2 & -> & Hh1 & Hh2).
    apply Matches_chr in M3 as ->.
    apply two_digits_inv in M4 as (m1 & m2 & -> & Hm1 & Hm2).
    exists sign, h1, h2, m1, m2. simpl in Hsign.
    rewrite orb_false_r in Hsign. repeat split; assumption.
Qed.

Lemma endsWithTimezone_app (pre suf : list ascii) :
  Matches tzRegex suf ->
  endsWithTimezone (string_of_list_ascii (pre ++ suf)) = true.
Proof.
  intros H. unfold endsWithTimezone.
  rewrite list_ascii_of_string_of_list_ascii, rev_app_distr.
  apply Matches_tzRegex in H
    as [-> | (sign & h1 & h2 & m1 & m2 & -> & Hs & H1 & H2 & H3 & H4)].
  - reflexivity.
  - simpl. destruct (Ascii.eqb m2 "Z") eqn:EZ.
    + apply Ascii.eqb_eq in EZ. subst. discriminate.
    + assert (m2 <> "Z"%char) as NZ by (now apply Ascii.eqb_neq).
      destruct m2 as [[] [] [] [] [] [] [] []];
        try reflexivity; try discriminate;
        try (now rewrite H1, H2, H3, Hs);
        try (simpl; now rewrite H1, H2, H3, Hs).
Qed.

(** The pattern of [getInstance] only accepts texts that end in a
    timezone designator. *)
Lemma dtRegex_requires_timezone (text : string) :
  Regex.test dtRegex text = true -> endsWithTimezone text = true.
Proof.
  unfold Regex.test. intros H. apply accepts_Matches in H.
  change dtRegex with
    (cat_all ([digits 4; chr "-"; digits 2; chr "-"; digits 2; chr "T";
               digits 2; chr ":"; digits 2; chr ":"; digits 2;
               opt (Cat (chr ".") (plus (Cls Digit)))] ++ [tzRegex])) in H.
  apply Matches_cat_all_last in H as (pre & suf & E & Hs).
  rewrite <- (string_of_list_ascii_of_string text), E.
  now apply endsWithTimezone_app.
Qed.

(** The pattern on sample texts. *)
Example dtRegex_utc : Regex.test dtRegex "2026-12-31T23:59:59Z" = true.
Proof. reflexivity. Qed.

Example dtRegex_offset_fraction :
  Regex.test dtRegex "2025-01-01T00:00:00.123456789123+05:30" = true.
Proof. reflexivity. Qed.

Example dtRegex_no_timezone : Regex.test dtRegex "2025-01-01T00:00:00" = false.
Proof. reflexivity. Qed.

Example dtRegex_not_a_date : Regex.test dtRegex "not-a-date" = false.
Proof. reflexivity. Qed.

Example dtRegex_trailing_newline :
  Regex.test dtRegex (String.append "2026-12-31T23:59:59Z" (String "010" ""))
  = false.
Proof. reflexivity. Qed.

Example dateTimeText_element :
  dateTimeText
    "<AttributeValue DataType=x>2025-01-01T00:00:00.5-05:30</AttributeValue>"
  = Return "2025-01-01T00:00:00.5-05:30".
Proof. reflexivity. Qed.

Example dateTimeText_empty_element :
  dateTimeText "<AttributeValue DataType=x></AttributeValue>"
  = Throw (JsError "Invalid XML format for dateTime value").
Proof. reflexivity. Qed.

Example parseNanos_truncates :
  parseNanos "2025-01-01T00:00:00.123456789123+05:30" = 123456789.
Proof. reflexivity. Qed.

Example parseNanos_pads : parseNanos "2025-01-01T00:00:00.5Z" = 500000000.
Proof. reflexivity. Qed.

Example combineNanos_carry : combineNanos 1500 700000000 = 200000000.
Proof. reflexivity. Qed.

Section Moment.
Variable moment_isValid : string -> bool.
Variable moment_toDate : string -> Z.
Variable moment_utcOffset : string -> Z.

Local Abbreviation getInstance :=
  (DateTimeAttribute.getInstance
     moment_isValid moment_toDate moment_utcOffset).

(** A text without a timezone designator is rejected by the pattern
    test, before [moment] sees it. *)
Lemma getInstance_rejects_missing_timezone (value text : string) :
  dateTimeText value = Return text ->
  endsWithTimezone text = false ->
  getInstance value
  = Throw (JsError ("Malformed dateTime value: " +:+ text)).
Proof.
  intros Ht Hz. unfold DateTimeAttribute.getInstance.
  rewrite Ht. simpl.
  destruct (Regex.test dtRegex text) eqn:Hre; [| reflexivity].
  apply dtRegex_requires_timezone in Hre. congruence.
Qed.

(** Whenever the dateTime parser returns a value, the text it parsed
    ends in a timezone designator. *)
Lemma getInstance_returns_timezone (value : string) (attr : t) :
  getInstance value = Return attr ->
  exists text,
    dateTimeText value = Return text
    /\ endsWithTimezone text = true.
Proof.
  unfold DateTimeAttribute.getInstance. intros H.
  destruct (dateTimeText value) as [text | e] eqn:Ht; [| discriminate].
  exists text. split; [reflexivity |]. simpl in H.
  destruct (Regex.test dtRegex text) eqn:Hre; [| discriminate].
  now apply dtRegex_requires_timezone.
Qed.

(** C4 (as the code has it). Whenever the dateTime parser returns a
    value, the text it parsed (the argument, or the text content of the
    [<AttributeValue>] element given as argument) ends in a timezone
    designator [Z] or [+hh:mm] / [-hh:mm]. A text without one is
    answered by throwing [Error('Malformed dateTime value: ' + text)],
    whatever [moment] makes of the text: the parser returns no value,
    and it builds no Indeterminate result and no status. *)
Theorem getInstance_timezone_or_throws (value : string) :
  (forall attr,
      getInstance value = Return attr ->
      exists text,
        dateTimeText value = Return text
        /\ endsWithTimezone text = true)
  /\ (forall text,
        dateTimeText value = Return text ->
        endsWithTimezone text = false ->
        getInstance value
        = Throw (ErrorObj "Error" ("Malformed dateTime value: " +:+ text))
        /\ forall attr, getInstance value <> Return attr).
Proof.
  split; [apply getInstance_returns_timezone |].
  intros text Ht Hz.
  pose proof (getInstance_rejects_missing_timezone value text Ht Hz) as H.
  split; [exact H |]. intros attr E. rewrite H in E. discriminate E.
Qed.
End Moment.

Lemma getInstance_timezone_or_throws_witness :
  (DateTimeAttribute.getInstance
     (fun _ => true) (fun _ => 1798761599000) (fun _ => 0)
     "2026-12-31T23:59:59Z"
   = Return {| value := 1798761599000; nanoseconds := 0;
               timeZone := 0; defaultedTimeZone := 0 |}
   /\ dateTimeText "2026-12-31T23:59:59" = Return "2026-12-31T23:59:59"
   /\ endsWithTimezone "2026-12-31T23:59:59" = false)
  /\ (exists text,
        dateTimeText "2026-12-31T23:59:59Z" = Return text
        /\ endsWithTimezone text = true)
  /\ DateTimeAttribute.getInstance
       (fun _ => true) (fun _ => 1798761599000) (fun _ => 0)
       "2026-12-31T23:59:59"
     = Throw (ErrorObj "Error"
                "Malformed dateTime value: 2026-12-31T23:59:59").
Proof.
  assert (DateTimeAttribute.getInstance
            (fun _ => true) (fun _ => 1798761599000) (fun _ => 0)
            "2026-12-31T23:59:59Z"
          = Return {| value := 1798761599000; nanoseconds := 0;
                      timeZone := 0; defaultedTimeZone := 0 |})
    as H by (vm_compute; reflexivity).
  split; [split; [exact H | split; reflexivity] |].
  split.
  - exact (proj1 (getInstance_timezone_or_throws
                    (fun _ => true) (fun _ => 1798761599000) (fun _ => 0)
                    "2026-12-31T23:59:59Z") _ H).
  - exact (proj1 (proj2 (getInstance_timezone_or_throws
                           (fun _ => true) (fun _ => 1798761599000)
                           (fun _ => 0) "2026-12-31T23:59:59")
                          "2026-12-31T23:59:59" eq_refl eq_refl)).
Defined.

(** C4 (as stated) fails. The text [2025-01-01T00:00:00] has no
    timezone designator. The parser answers it by throwing a plain
    [Error]: a language-level exception, not an Indeterminate result
    with the status syntax-error. The one handler in the sources, the
    [catch] clause of [evaluateCallBack], would turn this exception
    into the response below, in which the decision is "Indeterminate"
    and no property names that status. *)
Lemma missing_timezone_without_status :
  DateTimeAttribute.getInstance
    (fun _ => true) (fun _ => 1735689600000) (fun _ => 0)
    "2025-01-01T00:00:00"
  = Throw (ErrorObj "Error" "Malformed dateTime value: 2025-01-01T00:00:00")
  /\ Luas.errorText
       (ErrorObj "Error" "Malformed dateTime value: 2025-01-01T00:00:00")
     = Return "Malformed dateTime value: 2025-01-01T00:00:00"
  /\ ~ Luas.carriesStatus
         (Luas.errorResponse "Malformed dateTime value: 2025-01-01T00:00:00")
         "syntax-error".
Proof.
  split; [vm_compute; reflexivity |]. split; [reflexivity |].
  intros (k & s & L & I). unfold Luas.errorResponse in L.
  repeat (rewrite lookup_insert in L; case_decide;
          [first [discriminate L
                 | injection L as <-; vm_compute in I; discriminate I] |]).
  rewrite lookup_singleton in L. case_decide; [| discriminate L].
  injection L as <-. vm_compute in I. discriminate I.
Qed.

(** C5. [equals] never returns: whatever the two dateTime values are,
    and also when they denote the same instant, the call throws. *)
Theorem equals_throws :
  let dt := {| value := 1735689600000; nanoseconds := 0;
               timeZone := 0; defaultedTimeZone := 0 |} in
  sameInstant dt dt = true
  /\ equals dt dt = Throw (JsError "")
  /\ forall a b : t, returns (equals a b) = false.
Proof. repeat split. Qed.

(** On instants at or after the epoch the sub-second component stays
    below one second. *)
Lemma combineNanos_range (date nanoseconds : Z) :
  0 <= date -> 0 <= nanoseconds ->
  0 <= combineNanos date nanoseconds < NANOS_PER_SECOND.
Proof.
  intros Hd Hn. unfold combineNanos.
  assert (0 <= Z.rem date MILLIS_PER_SECOND < MILLIS_PER_SECOND) as Hc
    by (apply Z.rem_bound_pos; [assumption | reflexivity]).
  destruct ((Z.rem date MILLIS_PER_SECOND =? 0) && (0 <? nanoseconds)
            && (nanoseconds <? NANOS_PER_SECOND)) eqn:Hq.
  - apply andb_true_iff in Hq as [Hq H2]. apply andb_true_iff in Hq as [_ H1].
    apply Z.ltb_lt in H1, H2. lia.
  - cbv zeta. apply Z.rem_bound_pos; [| reflexivity].
    unfold NANOS_PER_MILLI. lia.
Qed.

(** C10. For an instant before the epoch the remainder of the time
    value is negative and [combineNanos] returns a negative number:
    999 ms before the epoch with one millisecond of nanoseconds, as
    [getInstance] passes them for [1969-12-31T23:59:59.001Z]. *)
Theorem combineNanos_negative_before_epoch :
  combineNanos (-999) 1000000 = -998000000
  /\ parseNanos "1969-12-31T23:59:59.001Z" = 1000000
  /\ DateTimeAttribute.getInstance
       (fun _ => true) (fun _ => -999) (fun _ => 0)
       "1969-12-31T23:59:59.001Z"
     = Return {| value := -999; nanoseconds := -998000000;
                 timeZone := 0; defaultedTimeZone := 0 |}.
Proof. repeat split. Qed.

End DateTimeAttributeFacts.

(** ** The [<Attributes>] loader *)

Module AttributesFacts.
Import Dom Attributes.

Section Loader.
Variable ATTRIBUTES_ELEMENT : string.
Variable ATTRIBUTES_CATEGORY : string.
Variable ATTRIBUTES_ID : string.
Variable ATTRIBUTES_CONTENT : string.
Variable ATTRIBUTE_ELEMENT : string.
Variable XACML_VERSION_3_0 : Z.
Variable Attribute : Type.
Variable Attribute_getInstance : Node -> Z -> Outcome Attribute.

Local Abbreviation scanChildren :=
  (scanChildren ATTRIBUTES_CONTENT ATTRIBUTE_ELEMENT XACML_VERSION_3_0
                Attribute Attribute_getInstance).
Local Abbreviation endsWithContent := (endsWithContent Attribute).
Local Abbreviation getInstanceRoot :=
  (getInstanceRoot ATTRIBUTES_ELEMENT ATTRIBUTES_CATEGORY ATTRIBUTES_ID
                   ATTRIBUTES_CONTENT ATTRIBUTE_ELEMENT XACML_VERSION_3_0
                   Attribute Attribute_getInstance).

Lemma scanChildren_keeps_content nodes : forall content attributes,
  is_Some content -> endsWithContent (scanChildren nodes content attributes).
Proof.
  induction nodes as [| node nodes IH]; intros content attributes Hc; simpl.
  - assumption.
  - destruct (String.eqb (nodeName node) ATTRIBUTES_CONTENT).
    + destruct Hc as [c ->]. exact I.
    + destruct (String.eqb (nodeName node) ATTRIBUTE_ELEMENT).
      * destruct (Attribute_getInstance node XACML_VERSION_3_0); simpl;
          [now apply IH | exact I].
      * now apply IH.
Qed.

Lemma scanChildren_finds_content nodes : forall content attributes,
  (exists child fragment,
      In child nodes /\ nodeName child = ATTRIBUTES_CONTENT
      /\ firstChild child = Some fragment) ->
  endsWithContent (scanChildren nodes content attributes).
Proof.
  induction nodes as [| node nodes IH];
    intros content attributes (child & fragment & Hin & Hname & Hfirst).
  - destruct Hin.
  - simpl. destruct Hin as [-> | Hin].
    + rewrite Hname, String.eqb_refl.
      destruct content; [exact I |].
      apply scanChildren_keeps_content. rewrite Hfirst. now eexists.
    + assert (exists child fragment,
                 In child nodes /\ nodeName child = ATTRIBUTES_CONTENT
                 /\ firstChild child = Some fragment) as Hex
        by (now exists child, fragment).
      destruct (String.eqb (nodeName node) ATTRIBUTES_CONTENT).
      * destruct content; [exact I |].
        destruct (firstChild node) eqn:Hf.
        -- apply scanChildren_keeps_content. now eexists.
        -- now apply IH.
      * destruct (String.eqb (nodeName node) ATTRIBUTE_ELEMENT).
        -- destruct (Attribute_getInstance node XACML_VERSION_3_0); simpl;
             [now apply IH | exact I].
        -- now apply IH.
Qed.

(** No group with a content fragment is ever loaded. *)
Lemma getInstanceRoot_never_loads_Content (root : Node) :
  hasContentFragment ATTRIBUTES_CONTENT root ->
  exists e, getInstanceRoot root = Throw e.
Proof.
  intros Hc. unfold Attributes.getInstanceRoot.
  destruct (negb (String.eqb (nodeName root) ATTRIBUTES_ELEMENT));
    [now eexists |].
  pose proof (scanChildren_finds_content (childNodes root) None [] Hc) as H.
  destruct (scanChildren (childNodes root) None []) as [[content attrs] | e];
    simpl; [| now eexists].
  destruct H as [c ->]. now eexists.
Qed.

(** What is loaded has no content. *)
Lemma getInstanceRoot_content_null (root : Node) (a : t Attribute) :
  getInstanceRoot root = Return a -> getContent Attribute a = None.
Proof.
  unfold Attributes.getInstanceRoot.
  destruct (negb (String.eqb (nodeName root) ATTRIBUTES_ELEMENT));
    [discriminate |].
  destruct (scanChildren (childNodes root) None []) as [[content attrs] | e];
    simpl; [| discriminate].
  destruct content; [discriminate |].
  intros H. injection H as <-. reflexivity.
Qed.

(** C6. Loading an [<Attributes>] group whose only child is a
    [<Content>] element holding an XML fragment does not succeed: the
    loader throws "need an implementation", so the fragment is never
    available from [getContent]. *)
Theorem getInstance_throws_on_Content (categoryValue : string)
    (fragment : Node) :
  getInstanceRoot
    (Element ATTRIBUTES_ELEMENT [(ATTRIBUTES_CATEGORY, categoryValue)]
             [Element ATTRIBUTES_CONTENT [] [fragment]])
  = Throw (JsError "need an implementation").
Proof.
  unfold Attributes.getInstanceRoot. simpl.
  now rewrite !String.eqb_refl.
Qed.
End Loader.

End AttributesFacts.

(** ** The attribute designator *)

Module AttributeDesignatorFacts.
Import Cond AttributeDesignator Examples.

Section Evaluate.
Variable STATUS_MISSING_ATTRIBUTE : string.
Variable XACML_VERSION_3_0 : Z.

Local Abbreviation evaluate :=
  (evaluate STATUS_MISSING_ATTRIBUTE XACML_VERSION_3_0).
Local Abbreviation missingAttributeResult :=
  (missingAttributeResult STATUS_MISSING_ATTRIBUTE XACML_VERSION_3_0).

(** [evaluate] after its first statement. *)
Lemma evaluate_after_lookup d context c result c' :
  cachedLookup d context c = (Return (Some result), c') ->
  evaluate d context c
  = (if indeterminate result then Return result
     else match attributeValues result with
          | None =>
              Throw (JsTypeError
                "Cannot read properties of undefined (reading 'size')")
          | Some bag =>
              if size bag =? 0 then
                if mustBePresent d
                then Return (missingAttributeResult d)
                else Return result
              else Return result
          end, c').
Proof.
  intros H. unfold AttributeDesignator.evaluate, bind. rewrite H.
  destruct (indeterminate result); [reflexivity |].
  destruct (attributeValues result) as [bag |]; [| reflexivity].
  destruct (size bag =? 0); [| reflexivity].
  destruct (mustBePresent d); reflexivity.
Qed.

(** C2. When the attribute lookup of a designator produces an empty
    bag: with [mustBePresent] false the evaluation returns that
    result, the empty bag; with [mustBePresent] true it returns an
    Indeterminate result whose status has the code missing-attribute
    and a detail that names the id, data type, category and issuer of
    the designator. *)
Theorem evaluate_empty_bag d context c result c' :
  cachedLookup d context c = (Return (Some result), c') ->
  indeterminate result = false ->
  attributeValues result = Some [] ->
  (mustBePresent d = false ->
   evaluate d context c = (Return result, c'))
  /\ (mustBePresent d = true ->
      exists r,
        evaluate d context c = (Return r, c')
        /\ indeterminate r = true
        /\ status r
           = Some {| code := [STATUS_MISSING_ATTRIBUTE];
                     message :=
                       Some "Couldn't find AttributeDesignator attribute";
                     detail :=
                       Some {| missingAttributes :=
                                 [{| mad_id := id d;
                                     mad_type := type d;
                                     mad_category := category d;
                                     mad_issuer := issuer d;
                                     mad_attributeValues := None;
                                     mad_xacmlVersion :=
                                       XACML_VERSION_3_0 |}] |} |}).
Proof.
  intros Hl Hi Hb. rewrite (evaluate_after_lookup _ _ _ _ _ Hl), Hi, Hb.
  simpl. split; intros ->; [reflexivity |].
  eexists. repeat split.
Qed.

(** A lookup under a key or an attribute store other than the cached
    ones does not read the cache. *)
Lemma cachedLookup_miss d context c :
  cacheHit c d context = false ->
  fst (cachedLookup d context c)
  = match getAttribute context (type d) (id d) (issuer d) (category d) with
    | Return r => Return (Some r)
    | Throw e => Throw e
    end.
Proof.
  intros H. unfold cachedLookup, bind, get, lift, put, ret. rewrite H.
  destruct (getAttribute context _ _ _ _); reflexivity.
Qed.

Lemma cacheHit_empty d context : cacheHit emptyCache d context = false.
Proof. reflexivity. Qed.

Lemma evaluate_miss d context c :
  cacheHit c d context = false ->
  fst (evaluate d context c) = fst (evaluate d context emptyCache).
Proof.
  intros H. unfold AttributeDesignator.evaluate, bind.
  pose proof (cachedLookup_miss d context c H) as H1.
  pose proof (cachedLookup_miss d context emptyCache
                (cacheHit_empty d context)) as H2.
  destruct (cachedLookup d context c) as [o1 c1].
  destruct (cachedLookup d context emptyCache) as [o2 c2].
  simpl in H1, H2. subst o1 o2.
  destruct (getAttribute context _ _ _ _) as [r | e]; [| reflexivity].
  destruct (indeterminate r); [reflexivity |].
  destruct (attributeValues r) as [bag |]; [| reflexivity].
  destruct (size bag =? 0); [| reflexivity].
  destruct (mustBePresent d); reflexivity.
Qed.

(** The state [evaluate] leaves behind is that of its lookup. *)
Lemma evaluate_state d context c :
  snd (evaluate d context c)
  = if cacheHit c d context then c
    else match getAttribute context (type d) (id d) (issuer d)
                             (category d) with
         | Return r =>
             {| cacheType := Some (type d); cacheId := Some (id d);
                cacheIssuer := Some (issuer d);
                cacheCategory := Some (category d);
                cacheResult := Some r;
                cacheAttributes := Some (attributesSet context) |}
         | Throw _ => c
         end.
Proof.
  unfold AttributeDesignator.evaluate, cachedLookup, bind, get, lift, put,
    ret, throw.
  destruct (cacheHit c d context).
  - destruct (cacheResult c) as [r |]; [| reflexivity].
    destruct (indeterminate r); [reflexivity |].
    destruct (attributeValues r) as [bag |]; [| reflexivity].
    destruct (size bag =? 0); [| reflexivity].
    destruct (mustBePresent d); reflexivity.
  - destruct (getAttribute context _ _ _ _) as [r | e]; [| reflexivity].
    destruct (indeterminate r); [reflexivity |].
    destruct (attributeValues r) as [bag |]; [| reflexivity].
    destruct (size bag =? 0); [| reflexivity].
    destruct (mustBePresent d); reflexivity.
Qed.

(** With a cache that agrees with the context, a hit returns what the
    lookup returns, so the cache cannot be observed. *)
Lemma evaluate_agrees d context c :
  cacheAgrees context c ->
  fst (evaluate d context c) = fst (evaluate d context emptyCache).
Proof.
  intros Ha. destruct (cacheHit c d context) eqn:Hh;
    [| now apply evaluate_miss].
  destruct (Ha d Hh) as (result & Hr & Hg).
  unfold AttributeDesignator.evaluate, cachedLookup, bind, get, lift, put,
    ret, throw.
  rewrite Hh, Hr, cacheHit_empty, Hg.
  destruct (indeterminate result); [reflexivity |].
  destruct (attributeValues result) as [bag |]; [| reflexivity].
  destruct (size bag =? 0); [| reflexivity].
  destruct (mustBePresent d); reflexivity.
Qed.

Lemma evaluate_preserves_agreement d context c :
  cacheAgrees context c ->
  cacheAgrees context (snd (evaluate d context c)).
Proof.
  intros Ha. rewrite evaluate_state.
  destruct (cacheHit c d context); [assumption |].
  destruct (getAttribute context (type d) (id d) (issuer d) (category d))
    as [r | e] eqn:Hg; [| assumption].
  intros d' Hh. exists r. split; [reflexivity |].
  unfold cacheHit in Hh. simpl in Hh.
  repeat (apply andb_true_iff in Hh as [Hh ?]).
  repeat match goal with
         | H : bool_decide _ = true |- _ => apply bool_decide_eq_true in H
         end.
  congruence.
Qed.

Lemma evaluate_cacheAttributes d context c :
  cacheAttributes (snd (evaluate d context c)) = cacheAttributes c
  \/ cacheAttributes (snd (evaluate d context c))
     = Some (attributesSet context).
Proof.
  rewrite evaluate_state.
  destruct (cacheHit c d context); [now left |].
  destruct (getAttribute context _ _ _ _); [now right | now left].
Qed.

(** Without a cache, the result depends on the context through its
    lookup only. *)
Lemma evaluate_empty_ext d context context' :
  getAttribute context = getAttribute context' ->
  fst (evaluate d context emptyCache)
  = fst (evaluate d context' emptyCache).
Proof.
  intros E.
  unfold AttributeDesignator.evaluate, cachedLookup, bind, get, lift, put,
    ret, throw.
  rewrite !cacheHit_empty, E.
  destruct (getAttribute context' _ _ _ _) as [r | e]; [| reflexivity].
  destruct (indeterminate r); [reflexivity |].
  destruct (attributeValues r) as [bag |]; [| reflexivity].
  destruct (size bag =? 0); [| reflexivity].
  destruct (mustBePresent d); reflexivity.
Qed.

(** The cache answers exactly when the whole key and the identity of the
    attribute store are the cached ones. *)
Lemma cacheHit_true_iff c d context :
  cacheHit c d context = true
  <-> cacheType c = Some (type d) /\ cacheId c = Some (id d)
      /\ cacheIssuer c = Some (issuer d)
      /\ cacheCategory c = Some (category d)
      /\ cacheAttributes c = Some (attributesSet context).
Proof.
  unfold cacheHit. rewrite !andb_true_iff, !bool_decide_eq_true. tauto.
Qed.

(** A hit returns the cached result without asking the context. *)
Lemma cachedLookup_hit d context c :
  cacheHit c d context = true ->
  cachedLookup d context c = (Return (cacheResult c), c).
Proof.
  intros H. unfold cachedLookup, bind, get, ret. now rewrite H.
Qed.

(** C3 (as the code has it). The cache is one module-level slot, read
    by every context. A lookup is answered from it only when the data
    type, id, issuer and category of the designator and the identity
    of the attribute store of the context all equal the cached ones:
    when any of them differs, and in particular for a context over
    another attribute store, the evaluation returns what a lookup with
    an empty cache returns, never the cached result. *)
Theorem cache_keyed_by_tuple_and_store d context c :
  cacheType c <> Some (type d)
  \/ cacheId c <> Some (id d)
  \/ cacheIssuer c <> Some (issuer d)
  \/ cacheCategory c <> Some (category d)
  \/ cacheAttributes c <> Some (attributesSet context) ->
  cacheHit c d context = false
  /\ fst (evaluate d context c) = fst (evaluate d context emptyCache).
Proof.
  intros H.
  assert (cacheHit c d context = false) as Hm.
  { unfold cacheHit. rewrite !andb_false_iff.
    destruct H as [H | [H | [H | [H | H]]]];
      apply (bool_decide_eq_false_2 _) in H; tauto. }
  split; [assumption | now apply evaluate_miss].
Qed.
End Evaluate.

Lemma evaluate_empty_bag_witness :
  let d := taskExpires true in
  let context := contextWith 0%nat [] in
  let c' := snd (cachedLookup d context emptyCache) in
  (cachedLookup d context emptyCache = (Return (Some (bagResult [])), c')
   /\ indeterminate (bagResult []) = false
   /\ attributeValues (bagResult []) = Some [])
  /\ exists r,
       evaluate MISSING 3 d context emptyCache = (Return r, c')
       /\ indeterminate r = true.
Proof.
  intros d context c'. split; [repeat split |].
  destruct (proj2 (evaluate_empty_bag MISSING 3 d context emptyCache
                     (bagResult []) c' eq_refl eq_refl eq_refl) eq_refl)
    as (r & Hr & Hi & _).
  exists r. split; assumption.
Defined.

(** What one evaluation caches is not returned to an evaluation over
    another attribute store. *)
Lemma no_leak_between_stores d1 context1 d2 context2 :
  attributesSet context1 <> attributesSet context2 ->
  fst (evaluate MISSING 3 d2 context2
         (snd (evaluate MISSING 3 d1 context1 emptyCache)))
  = fst (evaluate MISSING 3 d2 context2 emptyCache).
Proof.
  intros Hne. apply evaluate_miss.
  destruct (cacheHit _ d2 context2) eqn:Hh; [| reflexivity].
  apply cacheHit_true_iff in Hh as (_ & _ & _ & _ & Hs).
  rewrite evaluate_state, cacheHit_empty in Hs.
  destruct (getAttribute context1 _ _ _ _); simpl in Hs; congruence.
Qed.

(** C3 (as stated) fails: two contexts that share the identity of the
    attribute store but resolve the designator differently; after the
    evaluation in the first, the evaluation in the second returns the
    result cached for the first. *)
Lemma cache_shared_between_contexts : ~ cachePerContext MISSING 3.
Proof.
  intros H.
  specialize (H (taskExpires false)
                (contextWith 7%nat [JStr "2026-12-31T23:59:59Z"])
                (contextWith 7%nat [JStr "2020-01-01T00:00:00Z"])).
  assert (contextWith 7%nat [JStr "2026-12-31T23:59:59Z"]
          <> contextWith 7%nat [JStr "2020-01-01T00:00:00Z"]) as Hne.
  { intros E.
    apply (f_equal (fun c => getAttribute c None None None None)) in E.
    discriminate E. }
  specialize (H Hne). vm_compute in H. discriminate H.
Qed.

Lemma cache_keyed_by_tuple_and_store_witness :
  let d := taskExpires false in
  let c := snd (evaluate MISSING 3 d
                  (contextWith 7%nat [JStr "2026-12-31T23:59:59Z"]) emptyCache) in
  let context := contextWith 8%nat [JStr "2020-01-01T00:00:00Z"] in
  cacheAttributes c <> Some (attributesSet context)
  /\ fst (evaluate MISSING 3 d context c)
     = Return (bagResult [JStr "2020-01-01T00:00:00Z"]).
Proof.
  intros d c context.
  assert (cacheAttributes c <> Some (attributesSet context)) as Hs
    by (vm_compute; discriminate).
  split; [exact Hs |].
  rewrite (proj2 (cache_keyed_by_tuple_and_store MISSING 3 d context c
                    (or_intror (or_intror (or_intror (or_intror Hs)))))).
  reflexivity.
Defined.

End AttributeDesignatorFacts.

(** ** The [not] function *)

Module NotFunctionFacts.
Import Cond NotFunction Examples.

Section Evaluate.
Context {W Ctx : Type}.
Variable EvaluationResult_getInstance : bool -> EvaluationResult.

Local Abbreviation evaluate :=
  (@evaluate W Ctx EvaluationResult_getInstance).

(** C9. [not] applied to an argument expression: when the argument
    evaluates to an Indeterminate result, that result is returned
    unchanged; when it evaluates to a boolean [v], the result is the
    evaluation result of the boolean [negb v]. *)
Theorem not_propagates_and_negates
    (arg : Expression) (more : list Expression) (context : Ctx)
    (w w' : W) (r : EvaluationResult) :
  arg context w = (Return r, w') ->
  (indeterminate r = true ->
   evaluate (InArray (arg :: more)) context w = (Return r, w'))
  /\ (forall v : bool,
        indeterminate r = false ->
        value r = JBool v ->
        evaluate (InArray (arg :: more)) context w
        = (Return (EvaluationResult_getInstance (negb v)), w')).
Proof.
  intros Ha. unfold NotFunction.evaluate, evaluateApply, bind.
  rewrite Ha. split.
  - intros ->. reflexivity.
  - intros v -> ->. reflexivity.
Qed.

(** The same holds when [evaluate] is handed the result directly. *)
Lemma not_on_result (r : EvaluationResult) (context : Ctx) (w : W) :
  evaluate (InResult r) context w
  = (Return (if indeterminate r then r
             else EvaluationResult_getInstance (negb (truthy (value r)))),
     w).
Proof.
  unfold NotFunction.evaluate, ret. now destruct (indeterminate r).
Qed.

(** An argument that throws makes [not] throw the same value. *)
Lemma not_rethrows (arg : Expression) more context w w' e :
  arg context w = (Throw e, w') ->
  evaluate (InArray (arg :: more)) context w = (Throw e, w').
Proof.
  intros Ha. unfold NotFunction.evaluate, evaluateApply, bind.
  now rewrite Ha.
Qed.
End Evaluate.

Lemma not_propagates_and_negates_witness :
  let arg : @Expression unit unit := fun _ => ret (booleanResult true) in
  arg tt tt = (Return (booleanResult true), tt)
  /\ evaluate booleanResult (InArray [arg]) tt tt
     = (Return (booleanResult false), tt).
Proof.
  intros arg. split; [reflexivity |].
  exact (proj2 (not_propagates_and_negates booleanResult arg [] tt tt tt
                  (booleanResult true) eq_refl) true eq_refl eq_refl).
Defined.

End NotFunctionFacts.

(** ** The PDP facade *)

Module LuasFacts.
Import Cond Luas Examples.

Section Facade.
Context {W : Type}.
Variable Request : Type.
Variable getRequestCtxWithRequest : string -> M W Request.
Variable Obligation : Type.
Variable ResultAttributes : Type.
Variable pdp_evaluate :
  Request -> M W (option (ResponseCtx Obligation ResultAttributes)).
Variable getFullObligationsFromPolicy :
  option (list Obligation) -> M W (list FullObligation).
Variable JSON_stringify_obligation : FullObligation -> string.
Variable JSON_stringify_attributes : ResultAttributes -> jsval.
Variable DECISION_PERMIT : Z.
Variable DECISION_DENY : Z.
Variable DECISION_INDETERMINATE : Z.
Variable DECISION_NOT_APPLICABLE : Z.
Variable DECISION_INDETERMINATE_DENY : Z.
Variable DECISION_INDETERMINATE_PERMIT : Z.
Variable DECISION_INDETERMINATE_DENY_OR_PERMIT : Z.

Local Abbreviation parseRes :=
  (parseRes DECISION_PERMIT DECISION_DENY DECISION_INDETERMINATE
            DECISION_NOT_APPLICABLE DECISION_INDETERMINATE_DENY
            DECISION_INDETERMINATE_PERMIT
            DECISION_INDETERMINATE_DENY_OR_PERMIT).
Local Abbreviation evaluateCallBack :=
  (evaluateCallBack Request getRequestCtxWithRequest
     Obligation ResultAttributes pdp_evaluate getFullObligationsFromPolicy
     JSON_stringify_obligation JSON_stringify_attributes
     DECISION_PERMIT DECISION_DENY DECISION_INDETERMINATE
     DECISION_NOT_APPLICABLE DECISION_INDETERMINATE_DENY
     DECISION_INDETERMINATE_PERMIT DECISION_INDETERMINATE_DENY_OR_PERMIT).
Local Abbreviation evaluates :=
  (evaluates Request getRequestCtxWithRequest
     Obligation ResultAttributes pdp_evaluate getFullObligationsFromPolicy
     JSON_stringify_obligation JSON_stringify_attributes
     DECISION_PERMIT DECISION_DENY DECISION_INDETERMINATE
     DECISION_NOT_APPLICABLE DECISION_INDETERMINATE_DENY
     DECISION_INDETERMINATE_PERMIT DECISION_INDETERMINATE_DENY_OR_PERMIT).

(** [evaluates] catches whatever [evaluateCallBack] throws. *)
Lemma evaluates_never_throws request w :
  exists r w', evaluates request w = (Return r, w').
Proof.
  unfold Luas.evaluates, tryCatch, bind, ret.
  destruct (evaluateCallBack request w) as [[r | e] w']; eauto.
Qed.

(** The [catch] clause of [evaluateCallBack]. *)
Lemma evaluateCallBack_request_error request w err w' message :
  getRequestCtxWithRequest request w = (Throw err, w') ->
  errorText err = Return message ->
  evaluateCallBack request w = (Return (errorResponse message), w').
Proof.
  intros Hf Hm. unfold Luas.evaluateCallBack, tryCatch, bind, lift, ret.
  now rewrite Hf, Hm.
Qed.

Lemma errorText_returns err :
  err <> ThrownNullish -> exists message, errorText err = Return message.
Proof. destruct err; simpl; intros H; [eauto | eauto | congruence]. Qed.

(** An exception behind the request factory leaves [evaluates]
    without a result. *)
Lemma evaluates_undefined_on_pdp_error request w req w1 e w2 :
  getRequestCtxWithRequest request w = (Return req, w1) ->
  pdp_evaluate req w1 = (Throw e, w2) ->
  evaluates request w = (Return None, w2).
Proof.
  intros Hf Hp.
  unfold Luas.evaluates, Luas.evaluateCallBack, tryCatch, bind, ret.
  now rewrite Hf, Hp.
Qed.

(** C1 (as the code has it). [evaluates] never throws. When the
    construction of the request throws an error object or a string,
    it returns the response object of the [catch] clause, whose
    decision is "Indeterminate" and whose message is the text of the
    error; that object has no other status information. *)
Theorem evaluates_total request w :
  (exists r w', evaluates request w = (Return r, w'))
  /\ (forall err w',
        getRequestCtxWithRequest request w = (Throw err, w') ->
        err <> ThrownNullish ->
        exists message,
          errorText err = Return message
          /\ evaluates request w
             = (Return (Some (errorResponse message)), w')
          /\ errorResponse message !! "decision"
             = Some (JStr "Indeterminate")
          /\ errorResponse message !! "message" = Some (JStr message)
          /\ dom (errorResponse message)
             = ({[ "obligations"; "attributes"; "decision"; "reason";
                   "message" ]} : gset string)).
Proof.
  split; [apply evaluates_never_throws |].
  intros err w' Hf Hn.
  destruct (errorText_returns err Hn) as [message Hm].
  exists message. split; [assumption |]. split.
  - unfold Luas.evaluates, tryCatch, bind, ret.
    now rewrite (evaluateCallBack_request_error _ _ _ _ _ Hf Hm).
  - unfold errorResponse. repeat split.
Qed.

(** The decision of every response [evaluateCallBack] returns is the
    literal of the [catch] clause or what [parseRes] makes of the
    decision code of a result. *)
Lemma evaluateCallBack_decision request w r w' :
  evaluateCallBack request w = (Return r, w') ->
  r !! "decision" = Some (JStr "Indeterminate")
  \/ exists code, r !! "decision" = Some (jsOfStr (parseRes code)).
Proof.
  unfold Luas.evaluateCallBack, tryCatch, bind, lift, ret, throw.
  destruct (getRequestCtxWithRequest request w) as [[req | err] w1].
  - destruct (pdp_evaluate req w1) as [[[rc |] | e] w2]; try discriminate.
    destruct (getFullObligationsFromPolicy _ w2) as [[fo | e] w3];
      [| discriminate].
    intros H. injection H as <- _. right. exists (getDecision _ _ rc).
    reflexivity.
  - destruct (errorText err); [| discriminate].
    intros H. injection H as <- _. now left.
Qed.

(** C7. On the seven decision codes, [parseRes] yields one of the
    four literal strings "Permit", "Deny", "NotApplicable",
    "Indeterminate", and each of the three Indeterminate flavours
    yields "Indeterminate". *)
Theorem parseRes_decision_strings :
  NoDup [DECISION_PERMIT; DECISION_DENY; DECISION_INDETERMINATE;
         DECISION_NOT_APPLICABLE; DECISION_INDETERMINATE_DENY;
         DECISION_INDETERMINATE_PERMIT;
         DECISION_INDETERMINATE_DENY_OR_PERMIT] ->
  (forall code,
      In code [DECISION_PERMIT; DECISION_DENY; DECISION_INDETERMINATE;
               DECISION_NOT_APPLICABLE; DECISION_INDETERMINATE_DENY;
               DECISION_INDETERMINATE_PERMIT;
               DECISION_INDETERMINATE_DENY_OR_PERMIT] ->
      In (parseRes code)
         [Some "Permit"; Some "Deny"; Some "NotApplicable";
          Some "Indeterminate"])
  /\ parseRes DECISION_PERMIT = Some "Permit"
  /\ parseRes DECISION_DENY = Some "Deny"
  /\ parseRes DECISION_NOT_APPLICABLE = Some "NotApplicable"
  /\ parseRes DECISION_INDETERMINATE = Some "Indeterminate"
  /\ parseRes DECISION_INDETERMINATE_DENY = Some "Indeterminate"
  /\ parseRes DECISION_INDETERMINATE_PERMIT = Some "Indeterminate"
  /\ parseRes DECISION_INDETERMINATE_DENY_OR_PERMIT = Some "Indeterminate".
Proof.
  intros Hnd.
  repeat match goal with
         | H : NoDup (_ :: _) |- _ =>
             apply NoDup_cons in H; destruct H as [? H]
         end.
  repeat match goal with
         | H : _ ∉ _ :: _ |- _ =>
             apply not_elem_of_cons in H; destruct H as [? H]
         end.
  split.
  - intros code Hin. unfold Luas.parseRes.
    repeat match goal with
           | |- context [if ?c =? ?d then _ else _] =>
               destruct (Z.eqb_spec c d); [simpl; tauto |]
           end.
    simpl in Hin. intuition congruence.
  - unfold Luas.parseRes.
    repeat match goal with
           | H : ?a <> ?b |- _ =>
               apply Z.eqb_neq in H;
               try rewrite H; try rewrite (Z.eqb_sym a b) in H;
               try rewrite H; clear H
           end.
    rewrite !Z.eqb_refl. repeat split.
Qed.
End Facade.

Lemma evaluates_total_witness :
  (rejectingFactory malformedXml tt
   = (Throw (JsError "The request could not be parsed"), tt)
   /\ JsError "The request could not be parsed" <> ThrownNullish)
  /\ evaluates unit rejectingFactory unit unit noPdp noObligations
       (fun _ => "{}") (fun _ => JStr "[]") 0 1 2 3 4 5 6 malformedXml tt
     = (Return (Some (errorResponse "The request could not be parsed")),
        tt).
Proof.
  assert (JsError "The request could not be parsed" <> ThrownNullish)
    as Hn by discriminate.
  assert (rejectingFactory malformedXml tt
          = (Throw (JsError "The request could not be parsed"), tt))
    as Hf by reflexivity.
  split; [split; [exact Hf | exact Hn] |].
  destruct (proj2 (evaluates_total unit rejectingFactory unit unit
                     noPdp noObligations (fun _ => "{}")
                     (fun _ => JStr "[]") 0 1 2 3 4 5 6 malformedXml tt)
                  _ tt Hf Hn) as (message & Hm & He & _).
  injection Hm as <-. exact He.
Defined.

Lemma parseRes_decision_strings_witness :
  NoDup [0; 1; 2; 3; 4; 5; 6]
  /\ parseRes 0 1 2 3 4 5 6 4 = Some "Indeterminate"
  /\ parseRes 0 1 2 3 4 5 6 5 = Some "Indeterminate"
  /\ parseRes 0 1 2 3 4 5 6 6 = Some "Indeterminate".
Proof.
  assert (NoDup [0; 1; 2; 3; 4; 5; 6]) as Hnd
    by (apply (bool_decide_unpack _); vm_compute; exact I).
  split; [exact Hnd |].
  destruct (parseRes_decision_strings 0 1 2 3 4 5 6 Hnd)
    as (_ & _ & _ & _ & _ & H4 & H5 & H6).
  repeat split; assumption.
Defined.

End LuasFacts.

(** ** More on dateTime values *)

Module DateTimeAttributeMore.
Import Regex RegexFacts DateTimeAttribute.

Lemma list_ascii_of_string_append (s1 s2 : string) :
  list_ascii_of_string (s1 +:+ s2)
  = list_ascii_of_string s1 ++ list_ascii_of_string s2.
Proof. induction s1 as [| c s1 IH]; simpl; [reflexivity | now rewrite IH]. Qed.

Lemma String_length_list (s : string) :
  String.length s = length (list_ascii_of_string s).
Proof. induction s as [| c s IH]; simpl; [reflexivity | now rewrite IH]. Qed.

Lemma list_ascii_substring_0 (n : nat) : forall s : string,
  list_ascii_of_string (substring 0 n s) = take n (list_ascii_of_string s).
Proof.
  induction n as [| n IH]; intros [| c s]; simpl; try reflexivity.
  now rewrite IH.
Qed.

Lemma forallb_isDigit_filter (l : list ascii) :
  forallb isDigit (filter (fun a => isDigit a = true) l) = true.
Proof.
  induction l as [| a l IH]; [reflexivity |].
  rewrite filter_cons. case_decide as Ha; [| assumption].
  simpl. now rewrite Ha, IH.
Qed.

Lemma forallb_isDigit_repeat (n : nat) :
  forallb isDigit (repeat "0"%char n) = true.
Proof. induction n as [| n IH]; [reflexivity | simpl; assumption]. Qed.

Lemma forallb_take {A} (p : A -> bool) (n : nat) : forall l : list A,
  forallb p l = true -> forallb p (take n l) = true.
Proof.
  induction n as [| n IH]; intros [| a l] H; simpl; try reflexivity.
  simpl in H. apply andb_true_iff in H as [Ha Hl].
  now rewrite Ha, (IH l Hl).
Qed.

Lemma isDigit_value (a : ascii) :
  isDigit a = true -> 0 <= Z.of_nat (nat_of_ascii a) - 48 <= 9.
Proof.
  unfold isDigit. intros H. apply andb_true_iff in H as [H1 H2].
  apply Nat.leb_le in H1, H2. lia.
Qed.

(** Reading decimal digits keeps the accumulator below the next power
    of ten. *)
Lemma parse_digits_bound (l : list ascii) : forall acc : Z,
  forallb isDigit l = true -> 0 <= acc ->
  0 <= fold_left (fun acc a => 10 * acc + (Z.of_nat (nat_of_ascii a) - 48))
                 l acc
    < (acc + 1) * 10 ^ Z.of_nat (length l).
Proof.
  induction l as [| a l IH]; intros acc Hd Hacc; simpl fold_left.
  - simpl. lia.
  - simpl in Hd. apply andb_true_iff in Hd as [Ha Hl].
    pose proof (isDigit_value a Ha) as Hv.
    specialize (IH (10 * acc + (Z.of_nat (nat_of_ascii a) - 48)) Hl
                   ltac:(lia)).
    replace (Z.of_nat (length (a :: l))) with (Z.of_nat (length l) + 1)
      by (simpl length; lia).
    rewrite Z.pow_add_r, Z.pow_1_r by lia.
    assert (0 < 10 ^ Z.of_nat (length l)) by (apply Z.pow_pos_nonneg; lia).
    nia.
Qed.

(** The nine digits [getInstance] hands to [parseInt]. *)
Lemma nanoString_digits (frac : string) :
  let nanoString := padNine (keepDigits frac) in
  let nanoString :=
    if (9 <? String.length nanoString)%nat
    then substring 0 9 nanoString else nanoString in
  length (list_ascii_of_string nanoString) = 9%nat
  /\ forallb isDigit (list_ascii_of_string nanoString) = true.
Proof.
  cbv zeta. unfold padNine, keepDigits.
  set (ds := filter (fun a => isDigit a = true) (list_ascii_of_string frac)).
  assert (forallb isDigit ds = true) as Hds by apply forallb_isDigit_filter.
  rewrite String_length_list, list_ascii_of_string_append,
    !list_ascii_of_string_of_list_ascii, String_length_list,
    list_ascii_of_string_of_list_ascii.
  set (padded := ds ++ repeat "0"%char (9 - length ds)).
  assert (forallb isDigit padded = true) as Hp.
  { unfold padded. rewrite forallb_app, Hds. apply forallb_isDigit_repeat. }
  assert (9 <= length padded)%nat as Hlen.
  { unfold padded. rewrite length_app, repeat_length. lia. }
  destruct (9 <? length padded)%nat eqn:Hlt.
  - rewrite list_ascii_substring_0, list_ascii_of_string_append,
      !list_ascii_of_string_of_list_ascii.
    fold padded. split; [rewrite length_take; lia | now apply forallb_take].
  - apply Nat.ltb_ge in Hlt.
    rewrite list_ascii_of_string_append, !list_ascii_of_string_of_list_ascii.
    fold padded. split; [lia | assumption].
Qed.

Lemma parseNanos_bounds (value : string) :
  0 <= parseNanos value < NANOS_PER_SECOND.
Proof.
  unfold parseNanos.
  destruct (index 0 "." value) as [dotIndex |]; [| now compute].
  cbv zeta.
  match goal with
  | |- context [parseInt10 ?s] =>
      assert (length (list_ascii_of_string s) = 9%nat
              /\ forallb isDigit (list_ascii_of_string s) = true) as [Hl Hd]
  end.
  { apply nanoString_digits. }
  unfold parseInt10.
  pose proof (parse_digits_bound _ 0 Hd ltac:(lia)) as Hb.
  rewrite Hl in Hb. change NANOS_PER_SECOND with 1000000000.
  change ((0 + 1) * 10 ^ Z.of_nat 9) with 1000000000 in Hb. exact Hb.
Qed.

(** X1. Whatever the text, the nanoseconds [getInstance] reads from its
    fractional part lie between 0 and 999999999. *)
Theorem parseNanos_range (value : string) :
  0 <= parseNanos value < 1000000000.
Proof. exact (parseNanos_bounds value). Qed.

Section Moment.
Variable moment_isValid : string -> bool.
Variable moment_toDate : string -> Z.
Variable moment_utcOffset : string -> Z.

Local Abbreviation getInstance :=
  (DateTimeAttribute.getInstance
     moment_isValid moment_toDate moment_utcOffset).

(** What a returning [getInstance] has computed. *)
Lemma getInstance_returns (value : string) (attr : t) :
  getInstance value = Return attr ->
  exists text,
    dateTimeText value = Return text
    /\ Regex.test dtRegex text = true
    /\ moment_isValid text = true
    /\ attr = init (moment_toDate text) (parseNanos text)
                   (moment_utcOffset text) (moment_utcOffset text).
Proof.
  unfold DateTimeAttribute.getInstance. intros H.
  destruct (dateTimeText value) as [text | e]; [| discriminate].
  simpl in H. exists text.
  destruct (Regex.test dtRegex text); [| discriminate].
  destruct (moment_isValid text); [| discriminate].
  simpl in H. injection H as <-. repeat split.
Qed.

(** X2. Every dateTime value that [getInstance] returns for an instant
    at or after the epoch stores a nanoseconds component between 0 and
    999999999. *)
Theorem getInstance_nanoseconds_range (value : string) (attr : t) :
  getInstance value = Return attr ->
  0 <= DateTimeAttribute.value attr ->
  0 <= nanoseconds attr < 1000000000.
Proof.
  intros H Hv. apply getInstance_returns in H as (text & _ & _ & _ & ->).
  simpl in *.
  apply DateTimeAttributeFacts.combineNanos_range;
    [assumption | apply parseNanos_bounds].
Qed.

(** X3. The milliseconds of a fraction are counted twice. When the
    [Date] that [moment] returns carries the milliseconds of the
    fractional part, as it does for instants at or after the epoch, and
    these are not zero, the stored nanoseconds are the nanoseconds of the
    fraction plus those milliseconds once more, modulo one second, and
    so never the nanoseconds of the fraction. *)
Theorem getInstance_counts_milliseconds_twice
    (value text : string) (attr : t) :
  dateTimeText value = Return text ->
  getInstance value = Return attr ->
  0 <= moment_toDate text ->
  Z.rem (moment_toDate text) 1000 = parseNanos text / 1000000 ->
  parseNanos text / 1000000 <> 0 ->
  nanoseconds attr
  = (parseNanos text + parseNanos text / 1000000 * 1000000) mod 1000000000
  /\ nanoseconds attr <> parseNanos text.
Proof.
  intros Ht H Hd Hms Hnz.
  apply getInstance_returns in H as (text' & Ht' & _ & _ & ->).
  rewrite Ht in Ht'. injection Ht' as <-.
  pose proof (parseNanos_bounds text) as Hn.
  change NANOS_PER_SECOND with 1000000000 in Hn.
  simpl. unfold combineNanos.
  change MILLIS_PER_SECOND with 1000. change NANOS_PER_MILLI with 1000000.
  change NANOS_PER_SECOND with 1000000000.
  rewrite Hms.
  destruct (parseNanos text / 1000000 =? 0) eqn:Hz;
    [apply Z.eqb_eq in Hz; contradiction |].
  cbv zeta. simpl andb.
  set (n := parseNanos text) in *. set (k := n / 1000000) in *.
  assert (0 < k < 1000) as Hk.
  { unfold k. split.
    - assert (0 <= n / 1000000) by (apply Z.div_pos; lia). lia.
    - apply Z.div_lt_upper_bound; lia. }
  rewrite Z.rem_mod_nonneg by lia.
  split; [reflexivity |].
  destruct (Z_lt_dec (n + k * 1000000) 1000000000) as [Hs | Hs].
  - rewrite Z.mod_small by lia. lia.
  - replace (n + k * 1000000)
      with ((n + k * 1000000 - 1000000000) + 1 * 1000000000) by lia.
    rewrite Z.mod_add by lia. rewrite Z.mod_small by lia. lia.
Qed.
End Moment.

Lemma getInstance_nanoseconds_range_witness :
  let attr := {| value := 1798761599000; nanoseconds := 0;
                 timeZone := 0; defaultedTimeZone := 0 |} in
  (DateTimeAttribute.getInstance
     (fun _ => true) (fun _ => 1798761599000) (fun _ => 0)
     "2026-12-31T23:59:59Z" = Return attr
   /\ 0 <= value attr)
  /\ 0 <= nanoseconds attr < 1000000000.
Proof.
  intros attr.
  assert (DateTimeAttribute.getInstance
            (fun _ => true) (fun _ => 1798761599000) (fun _ => 0)
            "2026-12-31T23:59:59Z" = Return attr) as H
    by (vm_compute; reflexivity).
  assert (0 <= value attr) as Hv by (simpl; lia).
  split; [split; assumption |].
  exact (getInstance_nanoseconds_range _ _ _ _ _ H Hv).
Defined.

Lemma getInstance_counts_milliseconds_twice_witness :
  let attr := {| value := 1735686000250; nanoseconds := 500000000;
                 timeZone := 60; defaultedTimeZone := 60 |} in
  DateTimeAttribute.getInstance
    (fun _ => true) (fun _ => 1735686000250) (fun _ => 60)
    "2025-01-01T00:00:00.25+01:00" = Return attr
  /\ parseNanos "2025-01-01T00:00:00.25+01:00" = 250000000
  /\ nanoseconds attr <> parseNanos "2025-01-01T00:00:00.25+01:00".
Proof.
  intros attr.
  assert (DateTimeAttribute.getInstance
            (fun _ => true) (fun _ => 1735686000250) (fun _ => 60)
            "2025-01-01T00:00:00.25+01:00" = Return attr) as H
    by (vm_compute; reflexivity).
  split; [exact H |]. split; [vm_compute; reflexivity |].
  refine (proj2 (getInstance_counts_milliseconds_twice
                   _ _ _ "2025-01-01T00:00:00.25+01:00"
                   "2025-01-01T00:00:00.25+01:00" attr
                   eq_refl H _ _ _)).
  - lia.
  - vm_compute. reflexivity.
  - vm_compute. discriminate.
Defined.

(** The text taken out of an element. *)
Lemma untilLt_spec (s : list ascii) :
  forall run tail,
    untilLt s = (run, tail) ->
    s = run ++ tail
    /\ ~ In "<"%char run
    /\ (tail = [] \/ exists rest, tail = "<"%char :: rest).
Proof.
  induction s as [| c s IH]; intros run tail H; simpl in H.
  - injection H as <- <-. repeat split; [intros [] | now left].
  - destruct (Ascii.eqb c "<") eqn:Hc.
    + injection H as <- <-. apply Ascii.eqb_eq in Hc. subst c.
      repeat split; [intros [] | right; now eexists].
    + destruct (untilLt s) as [run' tail'] eqn:Hu.
      injection H as <- <-.
      destruct (IH run' tail' eq_refl) as (-> & Hn & Ht).
      apply Ascii.eqb_neq in Hc.
      repeat split; [| assumption].
      intros [E | Hin]; [congruence | contradiction].
Qed.

(** What the pattern [/>([^<]+)</] captures: a run of characters
    without [<], not empty, between a [>] and the next [<]. *)
Lemma matchText_between_tags (s text : list ascii) :
  matchText s = Some text ->
  text <> []
  /\ ~ In "<"%char text
  /\ exists before after,
       s = before ++ ">"%char :: text ++ "<"%char :: after.
Proof.
  induction s as [| c s IH]; intros H; simpl in H; [discriminate |].
  assert (matchText s = Some text ->
          text <> [] /\ ~ In "<"%char text
          /\ exists before after,
               c :: s = before ++ ">"%char :: text ++ "<"%char :: after)
    as Hrec.
  { intros Hm. destruct (IH Hm) as (Hne & Hno & before & after & ->).
    repeat split; try assumption. now exists (c :: before), after. }
  destruct (Ascii.eqb c ">") eqn:Hc; [| now apply Hrec].
  apply Ascii.eqb_eq in Hc. subst c.
  destruct (untilLt s) as [run tail] eqn:Hu.
  destruct (untilLt_spec s run tail Hu) as (Hs & Hno & Ht).
  destruct run as [| r run]; [now apply Hrec |].
  destruct tail as [| t tail]; [now apply Hrec |].
  injection H as <-.
  destruct Ht as [Ht | [rest Ht]]; [discriminate |].
  injection Ht as -> ->.
  repeat split; [discriminate | assumption |].
  exists [], rest. now rewrite Hs.
Qed.

(** A text without [<] is no [<AttributeValue ...>] element. *)
Lemma dateTimeText_plain (text : string) :
  ~ In "<"%char (list_ascii_of_string text) ->
  dateTimeText text = Return text.
Proof.
  intros Hno. unfold dateTimeText.
  destruct text as [| c text]; [reflexivity |].
  assert (String.prefix "<AttributeValue" (String c text) = false) as ->;
    [| reflexivity].
  cbn [String.prefix].
  destruct (ascii_dec "<" c) as [<- | Hc]; [| reflexivity].
  exfalso. apply Hno. now left.
Qed.

(** X4. When [getInstance] is handed an [<AttributeValue ...>] element
    as a string and does not reject it as invalid XML, the text it goes
    on to parse is a non-empty run of characters without [<] that
    stands in the string between a [>] and the next [<], and the call
    returns, or throws, what the call on that text alone does. *)
Theorem getInstance_parses_element_text
    (moment_isValid : string -> bool)
    (moment_toDate moment_utcOffset : string -> Z)
    (value text : string) :
  String.prefix "<AttributeValue" value = true ->
  dateTimeText value = Return text ->
  text <> ""
  /\ ~ In "<"%char (list_ascii_of_string text)
  /\ (exists before after,
        list_ascii_of_string value
        = before ++ ">"%char :: list_ascii_of_string text
                 ++ "<"%char :: after)
  /\ getInstance moment_isValid moment_toDate moment_utcOffset value
     = getInstance moment_isValid moment_toDate moment_utcOffset text.
Proof.
  intros Hp Ht. pose proof Ht as Ht'. unfold dateTimeText in Ht'.
  rewrite Hp in Ht'.
  destruct (matchText (list_ascii_of_string value)) as [l |] eqn:Hm;
    [| discriminate].
  injection Ht' as <-.
  destruct (matchText_between_tags _ _ Hm) as (Hne & Hno & before & after & E).
  rewrite list_ascii_of_string_of_list_ascii.
  split; [| split; [exact Hno | split; [now exists before, after |]]].
  - destruct l as [| c l]; [contradiction | discriminate].
  - unfold getInstance. rewrite Ht, dateTimeText_plain; [reflexivity |].
    now rewrite list_ascii_of_string_of_list_ascii.
Qed.

Lemma getInstance_parses_element_text_witness :
  let value :=
    "<AttributeValue DataType=x>2025-01-01T00:00:00Z</AttributeValue>" in
  (String.prefix "<AttributeValue" value = true
   /\ dateTimeText value = Return "2025-01-01T00:00:00Z")
  /\ "2025-01-01T00:00:00Z" <> ""
  /\ getInstance (fun _ => true) (fun _ => 1735689600000) (fun _ => 0) value
     = getInstance (fun _ => true) (fun _ => 1735689600000) (fun _ => 0)
         "2025-01-01T00:00:00Z".
Proof.
  intros value.
  assert (dateTimeText value = Return "2025-01-01T00:00:00Z")
    as Ht by (vm_compute; reflexivity).
  split; [split; [reflexivity | exact Ht] |].
  destruct (getInstance_parses_element_text
              (fun _ => true) (fun _ => 1735689600000) (fun _ => 0)
              value "2025-01-01T00:00:00Z" eq_refl Ht)
    as (Hne & _ & _ & Hg).
  split; assumption.
Defined.

End DateTimeAttributeMore.

(** ** More on the [<Attributes>] loader *)

Module AttributesMore.
Import Dom Attributes JsLoops.

Section Loader.
Variable ATTRIBUTES_ELEMENT : string.
Variable ATTRIBUTES_CATEGORY : string.
Variable ATTRIBUTES_ID : string.
Variable ATTRIBUTES_CONTENT : string.
Variable ATTRIBUTE_ELEMENT : string.
Variable XACML_VERSION_3_0 : Z.
Variable Attribute : Type.
Variable Attribute_getInstance : Node -> Z -> Outcome Attribute.

Local Abbreviation scanChildren :=
  (scanChildren ATTRIBUTES_CONTENT ATTRIBUTE_ELEMENT XACML_VERSION_3_0
                Attribute Attribute_getInstance).
Local Abbreviation getInstanceRoot :=
  (getInstanceRoot ATTRIBUTES_ELEMENT ATTRIBUTES_CATEGORY ATTRIBUTES_ID
                   ATTRIBUTES_CONTENT ATTRIBUTE_ELEMENT XACML_VERSION_3_0
                   Attribute Attribute_getInstance).

(** The children the loop hands to the attribute parser. *)
Local Abbreviation isAttributeChild :=
  (fun node : Node =>
     negb (String.eqb (nodeName node) ATTRIBUTES_CONTENT)
     && String.eqb (nodeName node) ATTRIBUTE_ELEMENT).

Lemma scanChildren_collects nodes : forall content attributes content' attributes',
  scanChildren nodes content attributes = Return (content', attributes') ->
  exists more,
    mapO (fun node => Attribute_getInstance node XACML_VERSION_3_0)
         (List.filter isAttributeChild nodes) = Return more
    /\ attributes' = attributes ++ more.
Proof.
  induction nodes as [| node nodes IH];
    intros content attributes content' attributes' H; simpl in H.
  - injection H as _ <-. exists []. split; [reflexivity | now rewrite app_nil_r].
  - simpl List.filter.
    destruct (String.eqb (nodeName node) ATTRIBUTES_CONTENT); simpl.
    + destruct content; [discriminate |]. now apply IH in H.
    + destruct (String.eqb (nodeName node) ATTRIBUTE_ELEMENT); simpl.
      * destruct (Attribute_getInstance node XACML_VERSION_3_0) as [a | e];
          simpl in H; [| discriminate].
        apply IH in H as (more & Hm & ->). rewrite Hm. simpl.
        exists (a :: more). split; [reflexivity | now rewrite <- app_assoc].
      * now apply IH in H.
Qed.

(** X6. When an [<Attributes>] group loads, its root is the expected
    element, category and id are the attributes of the root, and the
    loaded attributes are the results of the attribute parser on the
    [<Attribute>] children, in document order. *)
Theorem getInstanceRoot_loads_attributes (root : Node) (a : t Attribute) :
  getInstanceRoot root = Return a ->
  nodeName root = ATTRIBUTES_ELEMENT
  /\ category Attribute a = getAttribute root ATTRIBUTES_CATEGORY
  /\ id Attribute a = getAttribute root ATTRIBUTES_ID
  /\ mapO (fun node => Attribute_getInstance node XACML_VERSION_3_0)
          (List.filter isAttributeChild (childNodes root))
     = Return (attributes Attribute a).
Proof.
  unfold Attributes.getInstanceRoot.
  destruct (String.eqb (nodeName root) ATTRIBUTES_ELEMENT) eqn:Hr;
    [| discriminate].
  apply String.eqb_eq in Hr. simpl.
  destruct (scanChildren (childNodes root) None []) as [[content attrs] | e]
    eqn:Hs; simpl; [| discriminate].
  destruct content; [discriminate |].
  intros H. injection H as <-.
  apply scanChildren_collects in Hs as (more & Hm & ->).
  simpl. repeat split; try assumption.
  now destruct (getAttribute root ATTRIBUTES_ID).
Qed.
(** X5. Whenever an [<Attributes>] group loads, its content is [null]:
    [getContent] never returns an XML fragment. *)
Theorem loaded_group_has_no_content (root : Node) (a : t Attribute) :
  getInstanceRoot root = Return a -> getContent Attribute a = None.
Proof. apply AttributesFacts.getInstanceRoot_content_null. Qed.
End Loader.

(** A group with two attributes, parsed by a parser that keeps the
    [AttributeId]. *)
Lemma getInstanceRoot_loads_attributes_witness :
  let parse := fun (node : Node) (_ : Z) =>
                 Return (getAttribute node "AttributeId") in
  let root :=
    Element "Attributes" [("Category", "resource")]
      [Text " "; Element "Attribute" [("AttributeId", "task_id")] [];
       Element "Attribute" [("AttributeId", "task_expires")] []] in
  let a := init (option string) (Some "resource") None
                [Some "task_id"; Some "task_expires"] None in
  getInstanceRoot "Attributes" "Category" "id" "Content" "Attribute" 3
                  (option string) parse root = Return a
  /\ category (option string) a = Some "resource"
  /\ mapO (fun node => parse node 3)
          [Element "Attribute" [("AttributeId", "task_id")] [];
           Element "Attribute" [("AttributeId", "task_expires")] []]
     = Return (attributes (option string) a).
Proof.
  intros parse root a.
  assert (getInstanceRoot "Attributes" "Category" "id" "Content" "Attribute"
                          3 (option string) parse root = Return a) as H
    by reflexivity.
  split; [exact H |].
  destruct (getInstanceRoot_loads_attributes _ _ _ _ _ _ _ _ root a H)
    as (_ & Hc & _ & Hm).
  split; [exact Hc | exact Hm].
Defined.

(** A group whose [<Content>] element is empty loads. *)
Lemma loaded_group_has_no_content_witness :
  let parse := fun (node : Node) (_ : Z) =>
                 Return (getAttribute node "AttributeId") in
  let root :=
    Element "Attributes" [("Category", "resource")]
      [Element "Content" [] [];
       Element "Attribute" [("AttributeId", "task_id")] []] in
  let a := init (option string) (Some "resource") None [Some "task_id"] None in
  getInstanceRoot "Attributes" "Category" "id" "Content" "Attribute" 3
                  (option string) parse root = Return a
  /\ getContent (option string) a = None.
Proof.
  intros parse root a.
  assert (getInstanceRoot "Attributes" "Category" "id" "Content" "Attribute"
                          3 (option string) parse root = Return a) as H
    by reflexivity.
  split; [exact H |].
  exact (loaded_group_has_no_content _ _ _ _ _ _ _ _ root a H).
Defined.

End AttributesMore.

(** ** More on the attribute designator *)

Module AttributeDesignatorMore.
Import Cond AttributeDesignator AttributeDesignatorFacts Examples.

(** What [getInstance] builds from an element. *)
Lemma designator_getInstance_returns (root : Dom.Node) (d : t) :
  getInstance root = Return d ->
  Dom.tagName root = Some "AttributeDesignator"
  /\ mustBePresent d
     = bool_decide (Dom.getAttribute root "MustBePresent" = Some "true")
  /\ id d = Dom.getAttribute root "AttributeId"
  /\ type d = Dom.getAttribute root "DataType"
  /\ category d = Dom.getAttribute root "Category".
Proof.
  unfold getInstance.
  destruct (bool_decide (Dom.tagName root = Some "AttributeDesignator"))
    eqn:Ht; simpl; [| discriminate].
  apply bool_decide_eq_true in Ht.
  intros H. injection H as <-. repeat split. assumption.
Qed.

Section Evaluate.
Variable STATUS_MISSING_ATTRIBUTE : string.
Variable XACML_VERSION_3_0 : Z.

Local Abbreviation evaluate :=
  (evaluate STATUS_MISSING_ATTRIBUTE XACML_VERSION_3_0).

(** X7. A designator parsed from an element whose [MustBePresent]
    attribute is absent, or is anything but the exact text [true], is
    optional: when its lookup produces an empty bag, the evaluation
    returns the empty bag, never an Indeterminate result. *)
Theorem designator_optional_by_default
    (root : Dom.Node) (d : t) (context : Context) (c c' : Cache)
    (result : EvaluationResult) :
  getInstance root = Return d ->
  Dom.getAttribute root "MustBePresent" <> Some "true" ->
  cachedLookup d context c = (Return (Some result), c') ->
  indeterminate result = false ->
  attributeValues result = Some [] ->
  evaluate d context c = (Return result, c').
Proof.
  intros Hg Hm Hl Hi Hb.
  apply designator_getInstance_returns in Hg as (_ & Hmp & _).
  rewrite (bool_decide_eq_false_2 _ Hm) in Hmp.
  rewrite (evaluate_after_lookup _ _ _ _ _ _ _ Hl), Hi, Hb, Hmp.
  reflexivity.
Qed.

(** X8. Evaluating a designator a second time in the same context, with
    the state the first evaluation left, returns the same outcome and
    leaves the same state: the second evaluation is answered from the
    cache when the first one filled it. *)
Theorem evaluate_twice (d : t) (context : Context) (c : Cache) :
  evaluate d context (snd (evaluate d context c)) = evaluate d context c.
Proof.
  rewrite evaluate_state.
  destruct (cacheHit c d context) eqn:Hh; [reflexivity |].
  destruct (getAttribute context (type d) (id d) (issuer d) (category d))
    as [r | e] eqn:Hg; [| reflexivity].
  unfold AttributeDesignator.evaluate, cachedLookup, bind, get, lift, put,
    ret, throw.
  rewrite Hh, Hg.
  assert (cacheHit {| cacheType := Some (type d); cacheId := Some (id d);
                      cacheIssuer := Some (issuer d);
                      cacheCategory := Some (category d);
                      cacheResult := Some r;
                      cacheAttributes := Some (attributesSet context) |}
                   d context = true) as Hh'.
  { unfold cacheHit. simpl. now rewrite !bool_decide_eq_true_2. }
  rewrite Hh'. simpl.
  destruct (indeterminate r); [reflexivity |].
  destruct (attributeValues r) as [bag |]; [| reflexivity].
  destruct (size bag =? 0); [| reflexivity].
  destruct (mustBePresent d); reflexivity.
Qed.

(** X9. The cache is transparent as long as it agrees with the context:
    if every lookup the cache would answer for this context is answered
    as the context itself answers, an evaluation returns what it returns
    without a cache, and the cache it leaves agrees with the context
    again. *)
Theorem cache_transparent (d : t) (context : Context) (c : Cache) :
  cacheAgrees context c ->
  fst (evaluate d context c) = fst (evaluate d context emptyCache)
  /\ cacheAgrees context (snd (evaluate d context c)).
Proof.
  intros Ha. split.
  - now apply evaluate_agrees.
  - now apply evaluate_preserves_agreement.
Qed.
End Evaluate.

Lemma emptyCache_agrees (context : Context) : cacheAgrees context emptyCache.
Proof. intros d Hh. discriminate Hh. Qed.

Lemma designator_optional_by_default_witness :
  let root :=
    Dom.Element "AttributeDesignator"
      [("AttributeId", "task_expires"); ("MustBePresent", "TRUE");
       ("DataType", "http://www.w3.org/2001/XMLSchema#dateTime");
       ("Category", "urn:oasis:names:tc:xacml:3.0:attribute-category:resource")]
      [] in
  let context := contextWith 0%nat [] in
  exists d,
    getInstance root = Return d
    /\ Dom.getAttribute root "MustBePresent" <> Some "true"
    /\ fst (evaluate MISSING 3 d context emptyCache) = Return (bagResult []).
Proof.
  intros root context. exists (taskExpires false).
  assert (getInstance root = Return (taskExpires false)) as Hg by reflexivity.
  assert (Dom.getAttribute root "MustBePresent" <> Some "true") as Hm
    by discriminate.
  split; [exact Hg |]. split; [exact Hm |].
  rewrite (designator_optional_by_default MISSING 3 root (taskExpires false)
             context emptyCache
             (snd (cachedLookup (taskExpires false) context emptyCache))
             (bagResult []) Hg Hm eq_refl eq_refl eq_refl).
  reflexivity.
Defined.

Lemma cache_transparent_witness :
  let context := contextWith 7%nat [JStr "2026-12-31T23:59:59Z"] in
  let c := snd (evaluate MISSING 3 (taskExpires true) context emptyCache) in
  cacheAgrees context c
  /\ fst (evaluate MISSING 3 (taskExpires false) context c)
     = fst (evaluate MISSING 3 (taskExpires false) context emptyCache).
Proof.
  intros context c.
  assert (cacheAgrees context c) as Ha.
  { apply evaluate_preserves_agreement, emptyCache_agrees. }
  split; [exact Ha |].
  exact (proj1 (cache_transparent MISSING 3 (taskExpires false) context c Ha)).
Defined.

End AttributeDesignatorMore.

(** ** More on the [not] function *)

Module NotFunctionMore.
Import Cond NotFunction NotFunctionFacts Examples.

Section Evaluate.
Context {W Ctx : Type}.
Variable EvaluationResult_getInstance : bool -> EvaluationResult.

Local Abbreviation evaluate :=
  (@evaluate W Ctx EvaluationResult_getInstance).

(** X10. Negating twice normalises to a boolean. Provided the result
    built for a boolean is not Indeterminate and holds that boolean,
    [not] of [not] of a determinate result is the result built for the
    truthiness of its value; for a boolean value this is the value
    itself. *)
Theorem not_not (r : EvaluationResult) (context : Ctx) (w : W) :
  (forall b : bool,
      indeterminate (EvaluationResult_getInstance b) = false
      /\ value (EvaluationResult_getInstance b) = JBool b) ->
  indeterminate r = false ->
  exists once,
    evaluate (InResult r) context w = (Return once, w)
    /\ evaluate (InResult once) context w
       = (Return (EvaluationResult_getInstance (truthy (value r))), w).
Proof.
  intros Hgi Hr.
  exists (EvaluationResult_getInstance (negb (truthy (value r)))).
  rewrite !not_on_result, Hr.
  destruct (Hgi (negb (truthy (value r)))) as [-> ->].
  simpl. now rewrite negb_involutive.
Qed.
End Evaluate.

Lemma not_not_witness :
  ((forall b : bool,
       indeterminate (booleanResult b) = false
       /\ value (booleanResult b) = JBool b)
   /\ indeterminate (booleanResult false) = false)
  /\ exists once,
       @evaluate unit unit booleanResult
         (InResult (booleanResult false)) tt tt = (Return once, tt)
       /\ @evaluate unit unit booleanResult (InResult once) tt tt
          = (Return (booleanResult false), tt).
Proof.
  assert (forall b : bool,
             indeterminate (booleanResult b) = false
             /\ value (booleanResult b) = JBool b) as Hgi
    by (intros b; split; reflexivity).
  split; [split; [exact Hgi | reflexivity] |].
  exact (@not_not unit unit booleanResult (booleanResult false) tt tt
           Hgi eq_refl).
Defined.

End NotFunctionMore.

(** ** More on the PDP facade *)

Module LuasMore.
Import Cond Luas Examples PolicyExamples.

Lemma reasonOfAssignment_spec (a : Assignment) (s : string) :
  In s (reasonOfAssignment a) ->
  s <> ""
  /\ exists attrId,
       attributeId a = Some attrId
       /\ includes (toLowerCase attrId) "reason" = true.
Proof.
  unfold reasonOfAssignment.
  destruct (attributeId a) as [attrId |]; [| intros []].
  destruct (truthyStr (Some attrId) && includes (toLowerCase attrId) "reason")
    eqn:Hc; [| intros []].
  apply andb_true_iff in Hc as [_ Hinc].
  intros Hin. split; [| now exists attrId].
  destruct (a_value a) as [v |]; simpl in Hin.
  - destruct (String.eqb v "") eqn:Hv; simpl in Hin.
    + destruct (designator a) as [dsg |]; [| destruct Hin].
      destruct (di_attributeId dsg) as [i |]; simpl in Hin; [| destruct Hin].
      destruct (String.eqb i "") eqn:Hi; simpl in Hin; [destruct Hin |].
      destruct Hin as [<- | []]. now apply String.eqb_neq.
    + destruct Hin as [<- | []]. now apply String.eqb_neq.
  - destruct (designator a) as [dsg |]; [| destruct Hin].
    destruct (di_attributeId dsg) as [i |]; simpl in Hin; [| destruct Hin].
    destruct (String.eqb i "") eqn:Hi; simpl in Hin; [destruct Hin |].
    destruct Hin as [<- | []]. now apply String.eqb_neq.
Qed.

Lemma collectReasons_spec (fullObligations : list FullObligation) (s : string) :
  In s (collectReasons fullObligations) ->
  s <> ""
  /\ exists obl a attrId,
       In obl fullObligations /\ In a (assignments obl)
       /\ attributeId a = Some attrId
       /\ includes (toLowerCase attrId) "reason" = true.
Proof.
  unfold collectReasons. intros H.
  apply in_flat_map in H as (obl & Ho & H).
  apply in_flat_map in H as (a & Ha & H).
  apply reasonOfAssignment_spec in H as (Hne & attrId & Hid & Hinc).
  split; [assumption |]. now exists obl, a, attrId.
Qed.

Section Facade.
Context {W : Type}.
Variable Request : Type.
Variable getRequestCtxWithRequest : string -> M W Request.
Variable Obligation : Type.
Variable ResultAttributes : Type.
Variable pdp_evaluate :
  Request -> M W (option (ResponseCtx Obligation ResultAttributes)).
Variable getFullObligationsFromPolicy :
  option (list Obligation) -> M W (list FullObligation).
Variable JSON_stringify_obligation : FullObligation -> string.
Variable JSON_stringify_attributes : ResultAttributes -> jsval.
Variable DECISION_PERMIT : Z.
Variable DECISION_DENY : Z.
Variable DECISION_INDETERMINATE : Z.
Variable DECISION_NOT_APPLICABLE : Z.
Variable DECISION_INDETERMINATE_DENY : Z.
Variable DECISION_INDETERMINATE_PERMIT : Z.
Variable DECISION_INDETERMINATE_DENY_OR_PERMIT : Z.

Local Abbreviation parseRes :=
  (parseRes DECISION_PERMIT DECISION_DENY DECISION_INDETERMINATE
            DECISION_NOT_APPLICABLE DECISION_INDETERMINATE_DENY
            DECISION_INDETERMINATE_PERMIT
            DECISION_INDETERMINATE_DENY_OR_PERMIT).
Local Abbreviation evaluateCallBack :=
  (evaluateCallBack Request getRequestCtxWithRequest
     Obligation ResultAttributes pdp_evaluate getFullObligationsFromPolicy
     JSON_stringify_obligation JSON_stringify_attributes
     DECISION_PERMIT DECISION_DENY DECISION_INDETERMINATE
     DECISION_NOT_APPLICABLE DECISION_INDETERMINATE_DENY
     DECISION_INDETERMINATE_PERMIT DECISION_INDETERMINATE_DENY_OR_PERMIT).

(** The two ways in which [evaluateCallBack] returns. *)
Lemma evaluateCallBack_returns request w r w' :
  evaluateCallBack request w = (Return r, w') ->
  (exists err message,
      fst (getRequestCtxWithRequest request w) = Throw err
      /\ errorText err = Return message
      /\ r = errorResponse message)
  \/ (exists (rc : ResponseCtx Obligation ResultAttributes) fullObligations,
         let decisionStr := parseRes (getDecision _ _ rc) in
         let reasons :=
           if bool_decide (decisionStr = Some "Deny")
           then collectReasons fullObligations else [] in
         r = {[ "obligations" :=
                  JStr (JSON_stringify_array JSON_stringify_obligation
                                             fullObligations);
                "attributes" :=
                  JSON_stringify_attributes (attributes _ _ rc);
                "decision" := jsOfStr decisionStr;
                "reason" :=
                  (if (0 <? length reasons)%nat then JArr reasons else JNull);
                "message" :=
                  match status _ _ rc with
                  | Some st => jsOfStr (message st)
                  | None => JNull
                  end ]}).
Proof.
  unfold Luas.evaluateCallBack, tryCatch, bind, lift, ret, throw.
  destruct (getRequestCtxWithRequest request w) as [[req | err] w1].
  - destruct (pdp_evaluate req w1) as [[[rc |] | e] w2]; try discriminate.
    destruct (getFullObligationsFromPolicy _ w2) as [[fo | e] w3];
      [| discriminate].
    intros H. injection H as <- _. right. now exists rc, fo.
  - destruct (errorText err) as [message | e] eqn:He; [| discriminate].
    intros H. injection H as <- _. left. now exists err, message.
Qed.

(** X11. Every response object [evaluateCallBack] returns has exactly
    the five properties obligations, attributes, decision, reason and
    message, on the error path and on the normal one. *)
Theorem response_properties request w r w' :
  evaluateCallBack request w = (Return r, w') ->
  dom r = ({[ "obligations"; "attributes"; "decision"; "reason";
              "message" ]} : gset string).
Proof.
  intros H.
  apply evaluateCallBack_returns in H
    as [(err & message & _ & _ & ->) | (rc & fo & ->)].
  - reflexivity.
  - rewrite !dom_insert_L, dom_singleton_L. set_solver.
Qed.

(** X12. The reason of a response is [null] unless the decision is
    "Deny"; when it is not [null] it is a non-empty array of non-empty
    strings. *)
Theorem response_reason request w r w' :
  evaluateCallBack request w = (Return r, w') ->
  r !! "reason" = Some JNull
  \/ (r !! "decision" = Some (JStr "Deny")
      /\ exists reasons,
           r !! "reason" = Some (JArr reasons)
           /\ reasons <> []
           /\ Forall (fun s => s <> "") reasons).
Proof.
  intros H.
  apply evaluateCallBack_returns in H
    as [(err & message & _ & _ & ->) | (rc & fo & ->)].
  - now left.
  - cbv zeta.
    destruct (bool_decide (parseRes (getDecision _ _ rc) = Some "Deny"))
      eqn:Hd; [| now left].
    apply bool_decide_eq_true in Hd.
    destruct (collectReasons fo) as [| s reasons] eqn:Hr; [now left |].
    right. split.
    + rewrite Hd. reflexivity.
    + exists (s :: reasons). split; [reflexivity |]. split; [discriminate |].
      rewrite <- Hr. apply Forall_forall. intros x Hx.
      apply list_elem_of_In in Hx. now apply collectReasons_spec in Hx.
Qed.

(** X13. When the PDP hands back a decision code that is none of the
    seven [DECISION_*] constants, the response carries the decision
    [null]: it is neither refused nor turned into "Indeterminate". *)
Theorem unknown_code_null_decision request w req w1
    (rc : ResponseCtx Obligation ResultAttributes) w2 fo w3 :
  getRequestCtxWithRequest request w = (Return req, w1) ->
  pdp_evaluate req w1 = (Return (Some rc), w2) ->
  getFullObligationsFromPolicy (obligations _ _ rc) w2 = (Return fo, w3) ->
  ~ In (getDecision _ _ rc)
       [DECISION_PERMIT; DECISION_DENY; DECISION_INDETERMINATE;
        DECISION_NOT_APPLICABLE; DECISION_INDETERMINATE_DENY;
        DECISION_INDETERMINATE_PERMIT;
        DECISION_INDETERMINATE_DENY_OR_PERMIT] ->
  exists r,
    evaluateCallBack request w = (Return r, w3)
    /\ r !! "decision" = Some JNull
    /\ r !! "reason" = Some JNull.
Proof.
  intros Hf Hp Ho Hc.
  assert (parseRes (getDecision _ _ rc) = None) as Hn.
  { unfold Luas.parseRes. simpl in Hc.
    repeat match goal with
           | |- context [if ?c =? ?d then _ else _] =>
               destruct (Z.eqb_spec c d) as [e | _];
               [exfalso; apply Hc; symmetry in e; tauto |]
           end.
    reflexivity. }
  unfold Luas.evaluateCallBack, tryCatch, bind, lift, ret, throw.
  rewrite Hf, Hp, Ho, Hn. eexists. split; [reflexivity |]. split; reflexivity.
Qed.
End Facade.

Lemma response_properties_witness :
  sampleCallBack 1 "<Request/>" tt
  = (Return (sampleResponse (JStr "Deny") (JArr ["The task has expired"])),
     tt)
  /\ dom (sampleResponse (JStr "Deny") (JArr ["The task has expired"]))
     = ({[ "obligations"; "attributes"; "decision"; "reason";
           "message" ]} : gset string).
Proof.
  assert (sampleCallBack 1 "<Request/>" tt
          = (Return (sampleResponse (JStr "Deny")
                       (JArr ["The task has expired"])), tt))
    as H by (vm_compute; reflexivity).
  split; [exact H |].
  exact (response_properties unit (fun _ => ret tt)
           LuasObligations.Obligation unit (samplePdp 1) sampleObligations
           (fun _ => "{}") (fun _ => JStr "[]") 0 1 2 3 4 5 6
           "<Request/>" tt _ tt H).
Defined.

Lemma response_reason_witness :
  sampleCallBack 0 "<Request/>" tt
  = (Return (sampleResponse (JStr "Permit") JNull), tt)
  /\ (sampleResponse (JStr "Permit") JNull !! "reason" = Some JNull
      \/ (sampleResponse (JStr "Permit") JNull !! "decision"
          = Some (JStr "Deny")
          /\ exists reasons,
               sampleResponse (JStr "Permit") JNull !! "reason"
               = Some (JArr reasons)
               /\ reasons <> []
               /\ Forall (fun s => s <> "") reasons)).
Proof.
  assert (sampleCallBack 0 "<Request/>" tt
          = (Return (sampleResponse (JStr "Permit") JNull), tt))
    as H by (vm_compute; reflexivity).
  split; [exact H |].
  exact (response_reason unit (fun _ => ret tt)
           LuasObligations.Obligation unit (samplePdp 0) sampleObligations
           (fun _ => "{}") (fun _ => JStr "[]") 0 1 2 3 4 5 6
           "<Request/>" tt _ tt H).
Defined.

Lemma unknown_code_null_decision_witness :
  ((fun _ : string => ret tt) "<Request/>" tt = (Return tt, tt)
   /\ samplePdp 9 tt tt
      = (Return (Some {| obligations := requested; getDecision := 9;
                         attributes := tt; status := None |}), tt)
   /\ sampleObligations requested tt = (Return fullObligations, tt)
   /\ ~ In 9 [0; 1; 2; 3; 4; 5; 6])
  /\ exists r,
       sampleCallBack 9 "<Request/>" tt = (Return r, tt)
       /\ r !! "decision" = Some JNull
       /\ r !! "reason" = Some JNull.
Proof.
  assert (sampleObligations requested tt = (Return fullObligations, tt))
    as Ho by (vm_compute; reflexivity).
  assert (~ In 9 [0; 1; 2; 3; 4; 5; 6]) as Hc by (simpl; lia).
  split; [split; [reflexivity | split; [reflexivity | split;
    [exact Ho | exact Hc]]] |].
  exact (unknown_code_null_decision unit (fun _ => ret tt)
           LuasObligations.Obligation unit (samplePdp 9) sampleObligations
           (fun _ => "{}") (fun _ => JStr "[]") 0 1 2 3 4 5 6
           "<Request/>" tt tt tt
           {| obligations := requested; getDecision := 9;
              attributes := tt; status := None |}
           tt fullObligations tt eq_refl eq_refl Ho Hc).
Defined.

(** C1 (as stated) fails. The text [<Request><Attributes] is not
    well-formed XML. Whatever the request factory, the PDP and the
    other collaborators do with it, [evaluates] does not answer with a
    response that has a status: what it returns is [undefined] or an
    object with the properties obligations, attributes, decision,
    reason and message and no other, so that no status code such as
    syntax-error comes with the decision. *)
Lemma malformed_request_without_status :
  ~ exists (W Request Obligation ResultAttributes : Type)
           (getRequestCtxWithRequest : string -> M W Request)
           (pdp_evaluate :
              Request ->
              M W (option (ResponseCtx Obligation ResultAttributes)))
           (getFullObligationsFromPolicy :
              option (list Obligation) -> M W (list FullObligation))
           (JSON_stringify_obligation : FullObligation -> string)
           (JSON_stringify_attributes : ResultAttributes -> jsval)
           (permit deny indeterminate notApplicable indeterminateDeny
            indeterminatePermit indeterminateDenyOrPermit : Z)
           (w : W) (r : Response) (w' : W),
      evaluates Request getRequestCtxWithRequest Obligation
        ResultAttributes pdp_evaluate getFullObligationsFromPolicy
        JSON_stringify_obligation JSON_stringify_attributes
        permit deny indeterminate notApplicable indeterminateDeny
        indeterminatePermit indeterminateDenyOrPermit malformedXml w
      = (Return (Some r), w')
      /\ hasStatus r.
Proof.
  intros (W & Request & Obligation & ResultAttributes & factory & pdp
          & obligations & so & sa & d1 & d2 & d3 & d4 & d5 & d6 & d7
          & w & r & w' & E & k & Hk & Hn).
  apply Hn. clear Hn. unfold responseProperties.
  unfold Luas.evaluates, tryCatch, bind, ret in E.
  destruct (Luas.evaluateCallBack Request factory Obligation
              ResultAttributes pdp obligations so sa d1 d2 d3 d4 d5 d6 d7
              malformedXml w) as [[r0 | e] w0] eqn:Ec; [| discriminate E].
  injection E as <- _.
  apply evaluateCallBack_returns in Ec
    as [(err & message & _ & _ & ->) | (rc & fo & ->)].
  - exact Hk.
  - rewrite !dom_insert_L, dom_singleton_L in Hk. set_solver.
Qed.

End LuasMore.

(** ** The obligations read back from the policy files *)

Module LuasObligationsFacts.
Import Dom Luas LuasObligations PolicyExamples.

Lemma uniq_subset result : forall seen o,
  In o (uniq result seen) -> In o result /\ obligationId o ∉ seen.
Proof.
  induction result as [| x result IH]; intros seen o H; simpl in H.
  - destruct H.
  - destruct (decide (obligationId x ∈ seen)) as [Hx | Hx].
    + apply IH in H as [H1 H2]. split; [now right | assumption].
    + destruct H as [<- | H]; [split; [now left | assumption] |].
      destruct (IH _ _ H) as [H1 H2]. split; [now right |].
      intros Hs. apply H2, elem_of_union. now right.
Qed.

Lemma uniq_NoDup result : forall seen,
  List.NoDup (List.map obligationId (uniq result seen)).
Proof.
  induction result as [| x result IH]; intros seen; simpl.
  - constructor.
  - destruct (decide (obligationId x ∈ seen)) as [Hx | Hx]; [apply IH |].
    simpl. constructor; [| apply IH].
    intros Hin. apply in_map_iff in Hin as (o & Ho & Hin).
    apply uniq_subset in Hin as [_ Hn]. set_solver.
Qed.

Lemma uniq_keeps_ids result : forall seen o,
  In o result -> obligationId o ∉ seen ->
  exists o', In o' (uniq result seen) /\ obligationId o' = obligationId o.
Proof.
  induction result as [| x result IH]; intros seen o Hin Hn; [destruct Hin |].
  simpl. destruct Hin as [-> | Hin].
  - destruct (decide (obligationId o ∈ seen)); [contradiction |].
    exists o. split; [now left | reflexivity].
  - destruct (decide (obligationId x ∈ seen)) as [Hx | Hx];
      [now apply IH |].
    destruct (decide (obligationId o = obligationId x)) as [E | E].
    + exists x. split; [now left | now symmetry].
    + assert (obligationId o ∉ {[ obligationId x ]} ∪ seen) as Hn'
        by (intros [Hs%elem_of_singleton | Hs]%elem_of_union;
            [now apply E | now apply Hn]).
      destruct (IH _ o Hin Hn') as (o' & Ho' & E').
      exists o'. split; [now right | assumption].
Qed.

Lemma includesId_true ids oid :
  includesId ids oid = true -> exists s, oid = Some s /\ In (Some s) ids.
Proof.
  destruct oid as [s |]; simpl; [| discriminate].
  intros H. apply existsb_exists in H as (i & Hi & Hd).
  apply bool_decide_eq_true in Hd. subst i. now exists s.
Qed.

Lemma includesId_In ids s : In (Some s) ids -> includesId ids (Some s) = true.
Proof.
  intros H. simpl. apply existsb_exists. exists (Some s).
  split; [assumption | now apply bool_decide_eq_true].
Qed.

Lemma matching_spec ids nodes o :
  In o (matching ids nodes) <->
  exists node,
    In node nodes
    /\ includesId ids (getAttribute node "ObligationId") = true
    /\ o = obligationOf node.
Proof.
  unfold matching. rewrite in_map_iff. split.
  - intros (node & <- & Hin). apply filter_In in Hin as [Hin Hid].
    now exists node.
  - intros (node & Hin & Hid & ->). exists node.
    split; [reflexivity | now apply filter_In].
Qed.

Section Files.
Variable policyFiles : list string.
Variable readFileSync : string -> Outcome string.
Variable parseFromString : string -> Outcome (option Node).

Local Abbreviation collect := (collect readFileSync parseFromString).
Local Abbreviation getFullObligationsFromPolicy :=
  (getFullObligationsFromPolicy policyFiles readFileSync parseFromString).

(** What the loop over the files has pushed when it ends. *)
Lemma collect_sound ids files : forall result r o,
  collect ids files result = Return r ->
  In o r ->
  In o result
  \/ exists pf xml doc node,
       In pf files /\ readFileSync pf = Return xml
       /\ parseFromString xml = Return doc
       /\ In node (getElementsByTagName doc "ObligationExpression")
       /\ includesId ids (getAttribute node "ObligationId") = true
       /\ o = obligationOf node.
Proof.
  induction files as [| pf files IH]; intros result r o H Hin; simpl in H.
  - injection H as <-. now left.
  - destruct (readFileSync pf) as [xml | e] eqn:Hr.
    + destruct (parseFromString xml) as [doc | e] eqn:Hp; simpl in H;
        [| discriminate].
      destruct (IH _ _ _ H Hin)
        as [Hres | (pf' & xml' & doc' & node & Hpf & H1 & H2 & H3 & H4 & H5)].
      * apply in_app_or in Hres as [Hres | Hres]; [now left |].
        apply matching_spec in Hres as (node & Hn & Hid & ->).
        right. exists pf, xml, doc, node. repeat split; try assumption.
        now left.
      * right. exists pf', xml', doc', node. repeat split; try assumption.
        now right.
    + destruct (IH _ _ _ H Hin)
        as [Hres | (pf' & xml' & doc' & node & Hpf & H1 & H2 & H3 & H4 & H5)];
        [now left |].
      right. exists pf', xml', doc', node. repeat split; try assumption.
      now right.
Qed.

Lemma collect_complete ids files : forall result r,
  collect ids files result = Return r ->
  (forall o, In o result -> In o r)
  /\ forall pf xml doc node,
       In pf files -> readFileSync pf = Return xml ->
       parseFromString xml = Return doc ->
       In node (getElementsByTagName doc "ObligationExpression") ->
       includesId ids (getAttribute node "ObligationId") = true ->
       In (obligationOf node) r.
Proof.
  induction files as [| pf files IH]; intros result r H; simpl in H.
  - injection H as <-. split; [auto | intros ? ? ? ? []].
  - destruct (readFileSync pf) as [xml | e] eqn:Hr.
    + destruct (parseFromString xml) as [doc | e] eqn:Hp; simpl in H;
        [| discriminate].
      destruct (IH _ _ H) as [Hkeep Hfiles]. split.
      * intros o Ho. apply Hkeep, in_or_app. now left.
      * intros pf' xml' doc' node [<- | Hpf] H1 H2 H3 H4.
        -- rewrite Hr in H1. injection H1 as <-.
           rewrite Hp in H2. injection H2 as <-.
           apply Hkeep, in_or_app. right. apply matching_spec. now exists node.
        -- now apply (Hfiles pf' xml' doc' node).
    + destruct (IH _ _ H) as [Hkeep Hfiles]. split; [assumption |].
      intros pf' xml' doc' node [<- | Hpf] H1 H2 H3 H4.
      * rewrite Hr in H1. discriminate.
      * now apply (Hfiles pf' xml' doc' node).
Qed.

(** X14. The obligations [getFullObligationsFromPolicy] returns have
    pairwise different ids. *)
Theorem fullObligations_distinct_ids obligations r :
  getFullObligationsFromPolicy obligations = Return r ->
  List.NoDup (List.map obligationId r).
Proof.
  unfold LuasObligations.getFullObligationsFromPolicy.
  destruct obligations as [[| obl obligations] |];
    try (intros H; injection H as <-; constructor).
  destruct (collect _ policyFiles []) as [result | e]; simpl; [| discriminate].
  intros H. injection H as <-. apply uniq_NoDup.
Qed.

(** X15. Every obligation returned was asked for and was read from a
    policy file: its id is the id of one of the obligations passed in,
    and it is the [ObligationExpression] element with that id of a
    policy file that could be read. *)
Theorem fullObligations_sound obligations r o :
  getFullObligationsFromPolicy obligations = Return r ->
  In o r ->
  exists s obl pf xml doc node,
    obligationId o = Some s
    /\ In obl (default [] obligations) /\ idOf obl = Some s
    /\ In pf policyFiles /\ readFileSync pf = Return xml
    /\ parseFromString xml = Return doc
    /\ In node (getElementsByTagName doc "ObligationExpression")
    /\ o = obligationOf node.
Proof.
  unfold LuasObligations.getFullObligationsFromPolicy.
  destruct obligations as [[| obl0 obligations] |];
    try (intros H; injection H as <-; intros []).
  destruct (collect _ policyFiles []) as [result | e] eqn:Hc; simpl;
    [| discriminate].
  intros H Hin. injection H as <-.
  apply uniq_subset in Hin as [Hin _].
  destruct (collect_sound _ _ _ _ _ Hc Hin)
    as [[] | (pf & xml & doc & node & Hpf & H1 & H2 & H3 & H4 & ->)].
  apply includesId_true in H4 as (s & Hs & Hids).
  apply in_map_iff in Hids as (obl & Hobl & Hin').
  exists s, obl, pf, xml, doc, node. repeat split; assumption.
Qed.

(** X16. Nothing asked for is lost: when the call returns, every
    requested id that an [ObligationExpression] element of a readable
    policy file carries is the id of a returned obligation. *)
Theorem fullObligations_complete obligations r obl s pf xml doc node :
  getFullObligationsFromPolicy obligations = Return r ->
  In obl (default [] obligations) -> idOf obl = Some s ->
  In pf policyFiles -> readFileSync pf = Return xml ->
  parseFromString xml = Return doc ->
  In node (getElementsByTagName doc "ObligationExpression") ->
  getAttribute node "ObligationId" = Some s ->
  exists o, In o r /\ obligationId o = Some s.
Proof.
  unfold LuasObligations.getFullObligationsFromPolicy.
  intros H Hobl Hid Hpf Hr Hp Hn Hs.
  destruct obligations as [obligations |]; [| destruct Hobl].
  simpl in Hobl.
  assert (In (Some s) (List.map idOf obligations)) as Hids.
  { apply in_map_iff. exists obl. now split. }
  destruct obligations as [| obl0 obligations]; [destruct Hobl |].
  destruct (collect _ policyFiles []) as [result | e] eqn:Hc; simpl in H;
    [| discriminate].
  injection H as <-.
  destruct (collect_complete _ _ _ _ Hc) as [_ Hfiles].
  assert (In (obligationOf node) result) as Hin.
  { apply (Hfiles pf xml doc node); try assumption.
    rewrite Hs. now apply includesId_In. }
  destruct (uniq_keeps_ids result ∅ _ Hin) as (o' & Ho' & E);
    [set_solver |].
  exists o'. split; [assumption |]. rewrite E. exact Hs.
Qed.
End Files.

Lemma fullObligations_distinct_ids_witness :
  getFullObligationsFromPolicy policyFiles readFileSync parseFromString
    requested = Return fullObligations
  /\ List.NoDup (List.map obligationId fullObligations).
Proof.
  assert (getFullObligationsFromPolicy policyFiles readFileSync
            parseFromString requested = Return fullObligations)
    as H by (vm_compute; reflexivity).
  split; [exact H |].
  exact (fullObligations_distinct_ids policyFiles readFileSync
           parseFromString requested fullObligations H).
Defined.

Lemma fullObligations_sound_witness :
  (getFullObligationsFromPolicy policyFiles readFileSync parseFromString
     requested = Return fullObligations
   /\ In (obligationOf expiredObligation) fullObligations)
  /\ exists s obl pf xml doc node,
       obligationId (obligationOf expiredObligation) = Some s
       /\ In obl (default [] requested) /\ idOf obl = Some s
       /\ In pf policyFiles /\ readFileSync pf = Return xml
       /\ parseFromString xml = Return doc
       /\ In node (getElementsByTagName doc "ObligationExpression")
       /\ obligationOf expiredObligation = obligationOf node.
Proof.
  assert (getFullObligationsFromPolicy policyFiles readFileSync
            parseFromString requested = Return fullObligations)
    as H by (vm_compute; reflexivity).
  assert (In (obligationOf expiredObligation) fullObligations) as Hin
    by (simpl; left; reflexivity).
  split; [split; [exact H | exact Hin] |].
  exact (fullObligations_sound policyFiles readFileSync parseFromString
           requested fullObligations (obligationOf expiredObligation) H Hin).
Defined.

Lemma fullObligations_complete_witness :
  (getFullObligationsFromPolicy policyFiles readFileSync parseFromString
     requested = Return fullObligations
   /\ In (OblObject (JStr "task-expired")) (default [] requested)
   /\ idOf (OblObject (JStr "task-expired")) = Some "task-expired"
   /\ In "policies/task-approval.xml" policyFiles
   /\ readFileSync "policies/task-approval.xml" = Return policyXml
   /\ parseFromString policyXml = Return (Some policyDocument)
   /\ In expiredObligation
        (getElementsByTagName (Some policyDocument) "ObligationExpression")
   /\ getAttribute expiredObligation "ObligationId" = Some "task-expired")
  /\ exists o,
       In o fullObligations /\ obligationId o = Some "task-expired".
Proof.
  assert (getFullObligationsFromPolicy policyFiles readFileSync
            parseFromString requested = Return fullObligations)
    as H by (vm_compute; reflexivity).
  assert (In (OblObject (JStr "task-expired")) (default [] requested))
    as H1 by (simpl; left; reflexivity).
  assert (In "policies/task-approval.xml" policyFiles)
    as H2 by (simpl; right; left; reflexivity).
  assert (In expiredObligation
            (getElementsByTagName (Some policyDocument)
               "ObligationExpression"))
    as H3 by (simpl; left; reflexivity).
  split; [split; [exact H | split; [exact H1 | split; [reflexivity | split;
    [exact H2 | split; [reflexivity | split; [reflexivity | split;
    [exact H3 | reflexivity]]]]]]] |].
  exact (fullObligations_complete policyFiles readFileSync parseFromString
           requested fullObligations (OblObject (JStr "task-expired"))
           "task-expired" "policies/task-approval.xml" policyXml
           (Some policyDocument) expiredObligation
           H H1 eq_refl H2 eq_refl eq_refl H3 eq_refl).
Defined.

End LuasObligationsFacts.

(** ** The requests built from query parameters *)

Module DecisionParamsFacts.
Import DecisionParams.

Lemma append_String (c : ascii) (s t : string) :
  String c s +:+ t = String c (s +:+ t).
Proof. reflexivity. Qed.

Lemma append_empty (t : string) : "" +:+ t = t.
Proof. reflexivity. Qed.

Lemma append_assoc3 (s1 s2 s3 : string) :
  (s1 +:+ s2) +:+ s3 = s1 +:+ (s2 +:+ s3).
Proof.
  induction s1 as [| c s1 IH]; [reflexivity |].
  change (String c ((s1 +:+ s2) +:+ s3) = String c (s1 +:+ (s2 +:+ s3))).
  now rewrite IH.
Qed.

Lemma replaceAll_app (c : ascii) (by_ s1 s2 : string) :
  replaceAll c by_ (s1 +:+ s2) = replaceAll c by_ s1 +:+ replaceAll c by_ s2.
Proof.
  induction s1 as [| x s1 IH]; [reflexivity |].
  change (replaceAll c by_ (String x (s1 +:+ s2))
          = replaceAll c by_ (String x s1) +:+ replaceAll c by_ s2).
  simpl. destruct (Ascii.eqb x c); rewrite IH;
    [now rewrite append_assoc3 | reflexivity].
Qed.

(** [escapeText] works character by character. *)
Lemma escapeText_app (s1 s2 : string) :
  escapeText (s1 +:+ s2) = escapeText s1 +:+ escapeText s2.
Proof. unfold escapeText. now rewrite !replaceAll_app. Qed.

Lemma escapeText_cons (c : ascii) (s : string) :
  escapeText (String c s) = escapeText (String c "") +:+ escapeText s.
Proof. exact (escapeText_app (String c "") s). Qed.

(** The image of one character. *)
Lemma escapeText_char (c : ascii) :
  (c = "&"%char /\ escapeText (String c "") = "&amp;")
  \/ (c = "<"%char /\ escapeText (String c "") = "&lt;")
  \/ (c = ">"%char /\ escapeText (String c "") = "&gt;")
  \/ (c = dq /\ escapeText (String c "") = "&quot;")
  \/ (c = "'"%char /\ escapeText (String c "") = "&apos;")
  \/ (c <> "&"%char /\ isMarkup c = false
      /\ escapeText (String c "") = String c "").
Proof.
  destruct c as [[] [] [] [] [] [] [] []];
    first [ left; split; reflexivity
          | right; left; split; reflexivity
          | right; right; left; split; reflexivity
          | right; right; right; left; split; reflexivity
          | right; right; right; right; left; split; reflexivity
          | right; right; right; right; right;
            split; [discriminate | split; reflexivity] ].
Qed.

Lemma markup_app (s1 s2 : string) :
  markup (s1 +:+ s2) = markup s1 ++ markup s2.
Proof.
  unfold markup. induction s1 as [| c s1 IH]; simpl; [reflexivity |].
  destruct (isMarkup c); simpl; now rewrite IH.
Qed.

Lemma markup_escapeText (s : string) : markup (escapeText s) = [].
Proof.
  induction s as [| c s IH]; [reflexivity |].
  rewrite escapeText_cons, markup_app, IH, app_nil_r.
  destruct (escapeText_char c)
    as [[_ ->] | [[_ ->] | [[_ ->] | [[_ ->] | [[_ ->] | (_ & Hm & ->)]]]]];
    try reflexivity.
  unfold markup. simpl. now rewrite Hm.
Qed.

Lemma escapeXml_returns (v : Value) (s : string) :
  escapeXml v = Return s ->
  s = "" \/ exists text, String_ v = Return text /\ s = escapeText text.
Proof.
  destruct v as [| | t | b [t |]]; simpl; intros H;
    try (injection H as <-); try discriminate; eauto.
Qed.

Lemma markup_escapeXml (v : Value) (s : string) :
  escapeXml v = Return s -> markup s = [].
Proof.
  intros H. apply escapeXml_returns in H as [-> | (text & _ & ->)];
    [reflexivity | apply markup_escapeText].
Qed.

Lemma escapeText_inj (s : string) : forall t,
  escapeText s = escapeText t -> s = t.
Proof.
  induction s as [| c s IH]; intros [| d t] H.
  - reflexivity.
  - exfalso. rewrite escapeText_cons in H.
    destruct (escapeText_char d)
      as [[_ E] | [[_ E] | [[_ E] | [[_ E] | [[_ E] | (_ & _ & E)]]]]];
      rewrite E, ?append_String in H; discriminate H.
  - exfalso. rewrite escapeText_cons in H.
    destruct (escapeText_char c)
      as [[_ E] | [[_ E] | [[_ E] | [[_ E] | [[_ E] | (_ & _ & E)]]]]];
      rewrite E, ?append_String in H; discriminate H.
  - rewrite (escapeText_cons c), (escapeText_cons d) in H.
    destruct (escapeText_char c)
      as [[-> E] | [[-> E] | [[-> E] | [[-> E] | [[-> E] | (Hc & _ & E)]]]]];
      rewrite E in H; clear E;
      destruct (escapeText_char d)
        as [[-> E] | [[-> E] | [[-> E] | [[-> E] | [[-> E] | (Hd & _ & E)]]]]];
      rewrite E in H; clear E;
      rewrite ?append_String, ?append_empty in H;
      try discriminate H;
      try (injection H as H; f_equal; now apply IH);
      try (injection H as Hcd H; congruence).
    injection H as Hcd H. subst d. f_equal. now apply IH.
Qed.


Lemma markup_q (s : string) : markup (q s) = dq :: markup s ++ [dq].
Proof.
  unfold q. change (String dq (s +:+ String dq ""))
    with (String dq "" +:+ (s +:+ String dq "")).
  now rewrite !markup_app.
Qed.

Ltac markup_skeleton :=
  unfold unlines; cbn [String.concat];
  rewrite ?markup_app, ?markup_q;
  repeat match goal with
         | H : markup ?x = [] |- _ => rewrite !H; clear H
         end;
  vm_compute; reflexivity.

Lemma markup_taskApprovalTemplate (action taskId taskExpires now : string) :
  markup action = [] -> markup taskId = [] -> markup taskExpires = [] ->
  markup now = [] ->
  markup (taskApprovalTemplate action taskId taskExpires now)
  = markup (taskApprovalTemplate "" "" "" "").
Proof.
  intros Ha Ht He Hn. unfold taskApprovalTemplate at 1. markup_skeleton.
Qed.

Lemma markup_membershipValidationTemplate
    (action taskId taskExpires nodeId isMember taskMembershipExpires now
     : string) :
  markup action = [] -> markup taskId = [] -> markup taskExpires = [] ->
  markup nodeId = [] -> markup isMember = [] ->
  markup taskMembershipExpires = [] -> markup now = [] ->
  markup (membershipValidationTemplate action taskId taskExpires nodeId
            isMember taskMembershipExpires now)
  = markup (membershipValidationTemplate "" "" "" "" "" "" "").
Proof.
  intros H1 H2 H3 H4 H5 H6 H7. unfold membershipValidationTemplate at 1.
  markup_skeleton.
Qed.

Lemma markup_membershipTypeTemplate
    (title action taskId taskExpires isMember taskMembershipExpires taskRole
     now : string) :
  markup title = [] ->
  markup action = [] -> markup taskId = [] -> markup taskExpires = [] ->
  markup isMember = [] -> markup taskMembershipExpires = [] ->
  markup taskRole = [] -> markup now = [] ->
  markup (membershipTypeTemplate title action taskId taskExpires isMember
            taskMembershipExpires taskRole now)
  = markup (membershipTypeTemplate "" "" "" "" "" "" "" "").
Proof.
  intros H0 H1 H2 H3 H4 H5 H6 H7. unfold membershipTypeTemplate at 1.
  markup_skeleton.
Qed.

Lemma escapeXml_VStr (s : string) : escapeXml (VStr s) = Return (escapeText s).
Proof. reflexivity. Qed.

(** [String(v)] and [escapeXml(v)] throw nothing but the [TypeError] of
    a failed conversion. *)
Lemma String_throws (v : Value) (e : exn) :
  String_ v = Throw e -> e = conversionError.
Proof.
  destruct v as [| | t | b [t |]]; simpl; intros H; try discriminate.
  now injection H as <-.
Qed.

Lemma escapeXml_throws (v : Value) (e : exn) :
  escapeXml v = Throw e -> e = conversionError.
Proof.
  destruct v as [| | t | b [t |]]; simpl; intros H; try discriminate.
  now injection H as <-.
Qed.

Section Builders.
Variable getTaskPolicyInfo : Value -> option Object_.
Variable getMembershipInfo : Value -> Value -> option Object_.
Variable getMembershipTypeInfo : Value -> option Object_.
Variable now : string.
Variable toLowerCase : string -> string.

Local Abbreviation buildTaskApprovalRequest :=
  (buildTaskApprovalRequest getTaskPolicyInfo now).
Local Abbreviation buildMembershipValidationRequest :=
  (buildMembershipValidationRequest getMembershipInfo now).
Local Abbreviation buildMembershipTypeRequest :=
  (buildMembershipTypeRequest getMembershipInfo getMembershipTypeInfo now).
Local Abbreviation getRequestXML :=
  (getRequestXML getTaskPolicyInfo getMembershipInfo getMembershipTypeInfo
     now toLowerCase).

(** One step of a chain of [escapeXml] calls. *)
Ltac escape_step H :=
  match type of H with
  | context [escapeXml ?v] =>
      let s := fresh "s" in
      let E := fresh "E" in
      destruct (escapeXml v) as [s | ?] eqn:E; simpl in H; [| discriminate H]
  end.

Ltac escape_throw H :=
  match type of H with
  | context [escapeXml ?v] =>
      let s := fresh "s" in
      let E := fresh "E" in
      destruct (escapeXml v) as [s | ?] eqn:E; simpl in H;
      [| injection H as <-; exact (escapeXml_throws _ _ E)]
  end.

Lemma buildTaskApprovalRequest_returns (params : Object_) (xml : string) :
  buildTaskApprovalRequest params = Return (Some xml) ->
  exists info taskId taskExpires now',
    getTaskPolicyInfo (taskIdOf params) = Some info
    /\ escapeXml (taskIdOf params) = Return taskId
    /\ escapeXml
         (or_ (or_ (prop info "taskExpires") (prop info "task_expires"))
              (VStr "2026-12-31T23:59:59Z")) = Return taskExpires
    /\ escapeXml
         (or_ (or_ (prop info "current_dateTime")
                   (prop info "currentDateTime"))
              (VStr now)) = Return now'
    /\ xml = taskApprovalTemplate "task-authorization" taskId taskExpires
               now'.
Proof.
  unfold DecisionParams.buildTaskApprovalRequest.
  destruct (toBoolean (taskIdOf params)); simpl negb; cbv iota;
    [| discriminate].
  destruct (getTaskPolicyInfo (taskIdOf params)) as [info |];
    [| discriminate].
  rewrite escapeXml_VStr. simpl bindO. intros H.
  do 3 escape_step H. injection H as <-.
  now exists info, s, s0, s1.
Qed.

Lemma buildMembershipValidationRequest_returns
    (params : Object_) (xml : string) :
  buildMembershipValidationRequest params = Return (Some xml) ->
  exists info taskId taskExpires nodeId isMember taskMembershipExpires now',
    getMembershipInfo (taskIdOf params) (nodeIdOf params) = Some info
    /\ escapeXml (taskIdOf params) = Return taskId
    /\ escapeXml
         (or_ (or_ (prop info "taskExpires") (prop info "task_expires"))
              (VStr "2026-12-31T23:59:59Z")) = Return taskExpires
    /\ escapeXml (nodeIdOf params) = Return nodeId
    /\ escapeXml
         (or_ (or_ (prop info "isMember") (prop info "is_member_of_task"))
              (VStr "false")) = Return isMember
    /\ escapeXml
         (or_ (or_ (prop info "taskMembershipExpires")
                   (prop info "task_membership_expires"))
              (VStr "2026-12-31T23:59:59Z")) = Return taskMembershipExpires
    /\ escapeXml
         (or_ (or_ (prop info "current_dateTime")
                   (prop info "currentDateTime"))
              (VStr now)) = Return now'
    /\ xml = membershipValidationTemplate "node-activation" taskId
               taskExpires nodeId isMember taskMembershipExpires now'.
Proof.
  unfold DecisionParams.buildMembershipValidationRequest.
  destruct (negb (toBoolean (nodeIdOf params))
            || negb (toBoolean (taskIdOf params))); [discriminate |].
  destruct (getMembershipInfo (taskIdOf params) (nodeIdOf params))
    as [info |]; [| discriminate].
  rewrite escapeXml_VStr. simpl bindO. intros H.
  do 6 escape_step H. injection H as <-.
  now exists info, s, s0, s1, s2, s3, s4.
Qed.

Lemma membershipTypeInfoFor_returns (taskId nodeId : Value)
    (info : Object_) :
  membershipTypeInfoFor getMembershipInfo getMembershipTypeInfo taskId nodeId
  = Some info ->
  getMembershipInfo taskId nodeId = Some info
  \/ getMembershipTypeInfo taskId = Some info.
Proof.
  unfold membershipTypeInfoFor.
  destruct (toBoolean nodeId); [| now right].
  destruct (getMembershipInfo taskId nodeId) as [i |]; [| now right].
  intros H. injection H as <-. now left.
Qed.

Lemma buildMembershipTypeRequest_returns (params : Object_) (xml : string) :
  buildMembershipTypeRequest params = Return (Some xml) ->
  exists info title action taskId taskExpires isMember
         taskMembershipExpires taskRole now',
    membershipTypeInfoFor getMembershipInfo getMembershipTypeInfo
      (taskIdOf params) (nodeIdOf params) = Some info
    /\ markup title = []
    /\ escapeXml (prop params "action") = Return action
    /\ escapeXml (taskIdOf params) = Return taskId
    /\ escapeXml
         (or_ (or_ (prop info "taskExpires") (prop info "task_expires"))
              (VStr "2026-12-31T23:59:59Z")) = Return taskExpires
    /\ escapeXml
         (or_ (or_ (prop info "isMember") (prop info "is_member_of_task"))
              (VStr "true")) = Return isMember
    /\ escapeXml
         (or_ (or_ (prop info "taskMembershipExpires")
                   (prop info "task_membership_expires"))
              (VStr "2026-12-31T23:59:59Z")) = Return taskMembershipExpires
    /\ escapeXml
         (or_ (or_ (prop info "taskRole") (prop info "task_role"))
              (VStr "participant")) = Return taskRole
    /\ escapeXml
         (or_ (or_ (or_ (or_ (prop info "current_date_time")
                             (prop info "currentDateTime"))
                        (prop info "current_dateTime"))
                   (prop info "currentDateTime"))
              (VStr now)) = Return now'
    /\ xml = membershipTypeTemplate title action taskId taskExpires
               isMember taskMembershipExpires taskRole now'.
Proof.
  unfold DecisionParams.buildMembershipTypeRequest.
  destruct (toBoolean (taskIdOf params)); simpl negb; cbv iota;
    [| discriminate].
  destruct (membershipTypeInfoFor _ _ _ _) as [info |]; [| discriminate].
  intros H. do 7 escape_step H. injection H as <-.
  exists info,
         (match prop params "action" with
          | VStr "train" => "Train"
          | _ => "Evaluate"
          end), s, s0, s1, s2, s3, s4, s5.
  split; [reflexivity |]. split; [| now repeat split].
  assert (markup "Train" = [] /\ markup "Evaluate" = []) as [Ht He]
    by (split; reflexivity).
  repeat match goal with
         | |- context [match ?x with _ => _ end] => destruct x
         end; assumption.
Qed.

Lemma getRequestXML_returns (action : Value) (params : Object_)
    (xml : string) :
  getRequestXML action params = Return (Some xml) ->
  exists s,
    toBoolean action = true /\ String_ action = Return s
    /\ ((toLowerCase s ∈ taskApprovalKeys
         /\ buildTaskApprovalRequest params = Return (Some xml))
        \/ (toLowerCase s ∈ membershipValidationKeys
            /\ buildMembershipValidationRequest params = Return (Some xml))
        \/ (toLowerCase s ∈ membershipTypeKeys
            /\ buildMembershipTypeRequest params = Return (Some xml))).
Proof.
  unfold DecisionParams.getRequestXML.
  destruct (toBoolean action); simpl negb; cbv iota; [| discriminate].
  destruct (String_ action) as [s | e]; simpl bindO; [| discriminate].
  intros H. exists s. split; [reflexivity |]. split; [reflexivity |].
  repeat case_bool_decide; try discriminate; auto.
Qed.

Lemma buildTaskApprovalRequest_throws (params : Object_) (e : exn) :
  buildTaskApprovalRequest params = Throw e -> e = conversionError.
Proof.
  unfold DecisionParams.buildTaskApprovalRequest.
  destruct (negb (toBoolean (taskIdOf params))); [discriminate |].
  destruct (getTaskPolicyInfo (taskIdOf params)) as [info |];
    [| discriminate].
  rewrite escapeXml_VStr. simpl bindO. intros H.
  do 3 escape_throw H. discriminate H.
Qed.

Lemma buildMembershipValidationRequest_throws (params : Object_) (e : exn) :
  buildMembershipValidationRequest params = Throw e -> e = conversionError.
Proof.
  unfold DecisionParams.buildMembershipValidationRequest.
  destruct (negb (toBoolean (nodeIdOf params))
            || negb (toBoolean (taskIdOf params))); [discriminate |].
  destruct (getMembershipInfo (taskIdOf params) (nodeIdOf params))
    as [info |]; [| discriminate].
  rewrite escapeXml_VStr. simpl bindO. intros H.
  do 6 escape_throw H. discriminate H.
Qed.

Lemma buildMembershipTypeRequest_throws (params : Object_) (e : exn) :
  buildMembershipTypeRequest params = Throw e -> e = conversionError.
Proof.
  unfold DecisionParams.buildMembershipTypeRequest.
  destruct (negb (toBoolean (taskIdOf params))); [discriminate |].
  destruct (membershipTypeInfoFor _ _ _ _) as [info |]; [| discriminate].
  intros H. do 7 escape_throw H. discriminate H.
Qed.

(** Building a request throws nothing but the [TypeError] of a query
    parameter or a value of the policy information point that has no
    string form. *)
Lemma getRequestXML_throws (action : Value) (params : Object_) (e : exn) :
  getRequestXML action params = Throw e -> e = conversionError.
Proof.
  unfold DecisionParams.getRequestXML.
  destruct (negb (toBoolean action)); [discriminate |].
  destruct (String_ action) as [s | e'] eqn:Hs; simpl bindO.
  - repeat case_bool_decide; try discriminate;
      eauto using buildTaskApprovalRequest_throws,
        buildMembershipValidationRequest_throws,
        buildMembershipTypeRequest_throws.
  - intros H. injection H as <-. exact (String_throws _ _ Hs).
Qed.

(** A request is never the empty string. *)
Lemma getRequestXML_not_empty (action : Value) (params : Object_)
    (xml : string) :
  getRequestXML action params = Return (Some xml) -> xml <> "".
Proof.
  intros H. apply getRequestXML_returns in H as (s & _ & _ & H).
  destruct H as [[_ H] | [[_ H] | [_ H]]].
  - apply buildTaskApprovalRequest_returns in H
      as (? & ? & ? & ? & _ & _ & _ & _ & ->). discriminate.
  - apply buildMembershipValidationRequest_returns in H
      as (? & ? & ? & ? & ? & ? & ? & _ & _ & _ & _ & _ & _ & _ & ->).
    discriminate.
  - apply buildMembershipTypeRequest_returns in H
      as (? & ? & ? & ? & ? & ? & ? & ? & ? & H).
    destruct H as (_ & _ & _ & _ & _ & _ & _ & _ & _ & ->). discriminate.
Qed.

(** X19. Whatever the query and the policy information point hold, the
    markup characters of a request that [getRequestXML] returns are
    those of one of the three templates: no value can open or close an
    element, an attribute or a comment. *)
Theorem getRequestXML_markup (action : Value) (params : Object_)
    (xml : string) :
  getRequestXML action params = Return (Some xml) ->
  In (markup xml) requestSkeletons.
Proof.
  intros H. apply getRequestXML_returns in H as (s & _ & _ & H).
  unfold requestSkeletons.
  destruct H as [[_ H] | [[_ H] | [_ H]]].
  - apply buildTaskApprovalRequest_returns in H
      as (info & t & e & n & _ & Ht & He & Hn & ->).
    left. symmetry.
    apply markup_taskApprovalTemplate;
      first [reflexivity | eapply markup_escapeXml; eassumption].
  - apply buildMembershipValidationRequest_returns in H
      as (info & t & e & n & m & me & n' & _ & H1 & H2 & H3 & H4 & H5
          & H6 & ->).
    right; left. symmetry.
    apply markup_membershipValidationTemplate;
      first [reflexivity | eapply markup_escapeXml; eassumption].
  - apply buildMembershipTypeRequest_returns in H
      as (info & title & a & t & e & m & me & r & n' & H).
    destruct H as (_ & H0 & H1 & H2 & H3 & H4 & H5 & H6 & H7 & ->).
    right; right; left. symmetry.
    apply markup_membershipTypeTemplate;
      first [assumption | eapply markup_escapeXml; eassumption].
Qed.
End Builders.

Import PipExamples.

Lemma getRequestXML_markup_witness :
  PipExamples.sampleRequestXML (VStr "task_approval") hostileQuery
  = Return (Some hostileRequest)
  /\ In (markup hostileRequest) requestSkeletons.
Proof.
  assert (PipExamples.sampleRequestXML (VStr "task_approval") hostileQuery
          = Return (Some hostileRequest)) as H by (vm_compute; reflexivity).
  split; [exact H |].
  exact (getRequestXML_markup _ _ _ _ _ _ _ _ H).
Defined.

(** X17. The text [escapeXml] returns holds none of the characters
    [<], [>], the double quote and the apostrophe. *)
Theorem escapeXml_no_markup (v : Value) (s : string) :
  escapeXml v = Return s ->
  Forall (fun c => ~ In c ["<"; ">"; dq; "'"]%char)
         (list_ascii_of_string s).
Proof.
  intros H. apply markup_escapeXml in H. unfold markup in H.
  apply Forall_forall. intros c Hc Hin.
  assert (In c (List.filter isMarkup (list_ascii_of_string s))) as Hf.
  { apply filter_In. split; [now apply list_elem_of_In |].
    simpl in Hin. destruct Hin as [<- | [<- | [<- | [<- | []]]]];
      reflexivity. }
  rewrite H in Hf. destruct Hf.
Qed.

Lemma escapeXml_no_markup_witness :
  escapeXml (VStr "</AttributeValue><x a='1'>")
  = Return "&lt;/AttributeValue&gt;&lt;x a=&apos;1&apos;&gt;"
  /\ Forall (fun c => ~ In c ["<"; ">"; dq; "'"]%char)
        (list_ascii_of_string
           "&lt;/AttributeValue&gt;&lt;x a=&apos;1&apos;&gt;").
Proof.
  assert (escapeXml (VStr "</AttributeValue><x a='1'>")
          = Return "&lt;/AttributeValue&gt;&lt;x a=&apos;1&apos;&gt;")
    as H by reflexivity.
  split; [exact H |].
  exact (escapeXml_no_markup _ _ H).
Defined.

(** X18. [escapeXml] keeps strings apart: two strings with the same
    escaped text are the same string. *)
Theorem escapeXml_injective (s t : string) :
  escapeXml (VStr s) = escapeXml (VStr t) -> s = t.
Proof.
  rewrite !escapeXml_VStr. intros H. injection H as H.
  now apply escapeText_inj.
Qed.

Lemma escapeXml_injective_witness :
  escapeXml (VStr "a&lt;b") = escapeXml (VStr "a&lt;b")
  /\ "a&lt;b" = "a&lt;b".
Proof.
  split; [reflexivity |].
  exact (escapeXml_injective "a&lt;b" "a&lt;b" eq_refl).
Defined.

End DecisionParamsFacts.

(** ** The policy information point behind the requests *)

Module PolicyInformationPointFacts.
Import DecisionParams PolicyInformationPoint DecisionParamsFacts.

(** One step of a chain of reads. *)
Ltac read_step H :=
  match type of H with
  | context [bindO ?m _] =>
      let x := fresh "x" in
      let E := fresh "E" in
      destruct m as [x | ?] eqn:E; cbn [bindO] in H; [| discriminate H]
  | context [if negb (toBoolean ?v) then _ else _] =>
      destruct (toBoolean v); cbn [negb] in H; cbv iota in H;
      [| discriminate H]
  end.

Section Pip.
Variable Data : Type.
Variable readData : Outcome Data.
Variable get : Data -> Value -> Outcome Data.
Variable view : Data -> Value.
Variable emptyObject : Data.
Variable now : string.

Local Abbreviation getTaskPolicyInfo :=
  (getTaskPolicyInfo Data readData get view emptyObject now).
Local Abbreviation getMembershipInfo :=
  (getMembershipInfo Data readData get view emptyObject now).
Local Abbreviation getMembershipTypeInfo :=
  (getMembershipTypeInfo Data readData get view emptyObject now).

Lemma isMemberOf_returns (raw v : Value) :
  isMemberOf raw = Return v -> v = VUndefined \/ exists s, v = VStr s.
Proof.
  destruct raw as [| | t | b [t |]]; simpl; intros H;
    try discriminate; injection H as <-; eauto.
Qed.

(** The object literals that the three functions return. *)
Lemma getTaskPolicyInfo_returns (taskId : Value) (info : Object_) :
  getTaskPolicyInfo taskId = Some info ->
  exists taskExpires now',
    info = {[ "taskExpires" := taskExpires; "current_date_time" := now' ]}.
Proof.
  unfold PolicyInformationPoint.getTaskPolicyInfo, nullOnError. intros H.
  repeat read_step H. injection H as <-. eauto.
Qed.

Lemma getMembershipInfo_returns (taskId nodeId : Value) (info : Object_) :
  getMembershipInfo taskId nodeId = Some info ->
  exists taskExpires isMember taskMembershipExpires taskRole now',
    info = {[ "taskExpires" := taskExpires;
              "isMember" := isMember;
              "taskMembershipExpires" := taskMembershipExpires;
              "taskRole" := taskRole;
              "current_date_time" := now' ]}
    /\ (isMember = VUndefined \/ exists s, isMember = VStr s).
Proof.
  unfold PolicyInformationPoint.getMembershipInfo, nullOnError. intros H.
  repeat read_step H. injection H as <-.
  do 5 eexists. split; [reflexivity |]. eapply isMemberOf_returns; eassumption.
Qed.

Lemma getMembershipTypeInfo_returns (taskId : Value) (info : Object_) :
  getMembershipTypeInfo taskId = Some info ->
  exists taskExpires isMember taskMembershipExpires taskRole now',
    info = {[ "taskExpires" := taskExpires;
              "isMember" := isMember;
              "taskMembershipExpires" := taskMembershipExpires;
              "taskRole" := taskRole;
              "current_dateTime" := now' ]}
    /\ (isMember = VUndefined \/ exists s, isMember = VStr s).
Proof.
  unfold PolicyInformationPoint.getMembershipTypeInfo, nullOnError. intros H.
  repeat read_step H. injection H as <-.
  do 5 eexists. split; [reflexivity |]. eapply isMemberOf_returns; eassumption.
Qed.

(** Without data there is no information. *)
Lemma no_data_no_info (e : exn) :
  readData = Throw e ->
  (forall taskId, getTaskPolicyInfo taskId = None)
  /\ (forall taskId nodeId, getMembershipInfo taskId nodeId = None)
  /\ (forall taskId, getMembershipTypeInfo taskId = None).
Proof.
  intros H.
  unfold PolicyInformationPoint.getTaskPolicyInfo,
    PolicyInformationPoint.getMembershipInfo,
    PolicyInformationPoint.getMembershipTypeInfo, readTasks.
  rewrite H. repeat split.
Qed.
End Pip.

Section Requests.
Variable Data : Type.
Variable readData : Outcome Data.
Variable get : Data -> Value -> Outcome Data.
Variable view : Data -> Value.
Variable emptyObject : Data.
Variable pipNow : string.
Variable now : string.
Variable toLowerCase : string -> string.

Local Abbreviation taskApprovalRequest :=
  (taskApprovalRequest Data readData get view emptyObject pipNow now).
Local Abbreviation membershipValidationRequest :=
  (membershipValidationRequest Data readData get view emptyObject pipNow now).
Local Abbreviation membershipTypeRequest :=
  (membershipTypeRequest Data readData get view emptyObject pipNow now).
Local Abbreviation requestXML :=
  (requestXML Data readData get view emptyObject pipNow now toLowerCase).

(** X20. The current time of a task-approval request is always the
    clock of the host at the moment the request is built: the object
    that [getTaskPolicyInfo] returns holds the time under the key
    [current_date_time], which [buildTaskApprovalRequest] does not read,
    so a [current_dateTime] configured in [nodes.json] never reaches the
    request. *)
Theorem task_approval_uses_host_clock (params : Object_) (xml : string) :
  taskApprovalRequest params = Return (Some xml) ->
  exists taskId taskExpires,
    xml = taskApprovalTemplate "task-authorization" taskId taskExpires
            (escapeText now).
Proof.
  intros H. apply buildTaskApprovalRequest_returns in H
    as (info & t & e & n & Hinfo & _ & _ & Hn & ->).
  apply getTaskPolicyInfo_returns in Hinfo as (x & y & ->).
  exists t, e. f_equal.
  change (escapeXml (VStr now) = Return n) in Hn. now injection Hn as <-.
Qed.

(** X21. The same holds for a membership-validation request:
    [getMembershipInfo] returns the configured time as
    [current_date_time], [buildMembershipValidationRequest] reads
    [current_dateTime] and [currentDateTime], and the request carries
    the clock of the host. *)
Theorem membership_validation_uses_host_clock
    (params : Object_) (xml : string) :
  membershipValidationRequest params = Return (Some xml) ->
  exists taskId taskExpires nodeId isMember taskMembershipExpires,
    xml = membershipValidationTemplate "node-activation" taskId taskExpires
            nodeId isMember taskMembershipExpires (escapeText now).
Proof.
  intros H. apply buildMembershipValidationRequest_returns in H
    as (info & t & e & n & m & me & n' & Hinfo & _ & _ & _ & _ & _ & Hn
        & ->).
  apply getMembershipInfo_returns in Hinfo as (x1 & x2 & x3 & x4 & x5 & -> & _).
  exists t, e, n, m, me. f_equal.
  change (escapeXml (VStr now) = Return n') in Hn. now injection Hn as <-.
Qed.

(** X23. When [nodes.json] cannot be read or parsed, [getRequestXML]
    builds no request, whatever the action and the parameters are. *)
Theorem no_request_without_data (e : exn) (action : Value)
    (params : Object_) (xml : string) :
  readData = Throw e ->
  requestXML action params <> Return (Some xml).
Proof.
  intros Hd H.
  destruct (no_data_no_info Data readData get view emptyObject pipNow e Hd)
    as (H1 & H2 & H3).
  apply getRequestXML_returns in H as (s & _ & _ & H).
  destruct H as [[_ H] | [[_ H] | [_ H]]].
  - apply buildTaskApprovalRequest_returns in H
      as (info & ? & ? & ? & Hinfo & _). now rewrite H1 in Hinfo.
  - apply buildMembershipValidationRequest_returns in H
      as (info & ? & ? & ? & ? & ? & ? & Hinfo & _). now rewrite H2 in Hinfo.
  - apply buildMembershipTypeRequest_returns in H
      as (info & ? & ? & ? & ? & ? & ? & ? & ? & Hinfo & _).
    apply membershipTypeInfoFor_returns in Hinfo as [Hinfo | Hinfo].
    + now rewrite H2 in Hinfo.
    + now rewrite H3 in Hinfo.
Qed.


(** X22. A train or evaluate request states membership by default:
    when the object from the policy information point has no [isMember]
    value, the request says [true] for [is_member_of_task]. *)
Theorem train_request_member_by_default
    (params : Object_) (xml : string) (info : Object_) :
  membershipTypeRequest params = Return (Some xml) ->
  membershipTypeInfoFor
    (getMembershipInfo Data readData get view emptyObject pipNow)
    (getMembershipTypeInfo Data readData get view emptyObject pipNow)
    (taskIdOf params) (nodeIdOf params) = Some info ->
  prop info "isMember" = VUndefined ->
  exists title action taskId taskExpires taskMembershipExpires taskRole now',
    xml = membershipTypeTemplate title action taskId taskExpires "true"
            taskMembershipExpires taskRole now'.
Proof.
  intros H Hinfo Hm. apply buildMembershipTypeRequest_returns in H
    as (info' & title & a & t & e & m & me & r & n' & H).
  destruct H as (Hinfo' & _ & _ & _ & _ & H4 & _ & _ & _ & ->).
  rewrite Hinfo in Hinfo'. injection Hinfo' as <-.
  exists title, a, t, e, me, r, n'.
  assert (prop info "is_member_of_task" = VUndefined) as Hk.
  { apply membershipTypeInfoFor_returns in Hinfo as [Hinfo | Hinfo].
    - apply getMembershipInfo_returns in Hinfo
        as (x1 & x2 & x3 & x4 & x5 & -> & _). reflexivity.
    - apply getMembershipTypeInfo_returns in Hinfo
        as (x1 & x2 & x3 & x4 & x5 & -> & _). reflexivity. }
  rewrite Hm, Hk in H4. simpl in H4. now injection H4 as <-.
Qed.

End Requests.

Import PipExamples.

Lemma task_approval_uses_host_clock_witness :
  taskApprovalRequest Json (Return nodes) PipExamples.read view (JObject [])
    hostClock hostClock approvalQuery = Return (Some approvalRequest)
  /\ exists taskId taskExpires,
       approvalRequest
       = taskApprovalTemplate "task-authorization" taskId taskExpires
           (escapeText hostClock).
Proof.
  assert (taskApprovalRequest Json (Return nodes) PipExamples.read view
            (JObject []) hostClock hostClock approvalQuery
          = Return (Some approvalRequest)) as H by (vm_compute; reflexivity).
  split; [exact H |].
  exact (task_approval_uses_host_clock _ _ _ _ _ _ _ _ _ H).
Defined.

Lemma membership_validation_uses_host_clock_witness :
  membershipValidationRequest Json (Return nodes) PipExamples.read view
    (JObject []) hostClock hostClock validationQuery
  = Return (Some validationRequest)
  /\ exists taskId taskExpires nodeId isMember taskMembershipExpires,
       validationRequest
       = membershipValidationTemplate "node-activation" taskId taskExpires
           nodeId isMember taskMembershipExpires (escapeText hostClock).
Proof.
  assert (membershipValidationRequest Json (Return nodes) PipExamples.read
            view (JObject []) hostClock hostClock validationQuery
          = Return (Some validationRequest))
    as H by (vm_compute; reflexivity).
  split; [exact H |].
  exact (membership_validation_uses_host_clock _ _ _ _ _ _ _ _ _ H).
Defined.

Lemma train_request_member_by_default_witness :
  (membershipTypeRequest Json (Return nodes) PipExamples.read view
     (JObject []) hostClock hostClock trainQuery
   = Return (Some trainRequest)
   /\ membershipTypeInfoFor membershipInfo membershipTypeInfo
        (taskIdOf trainQuery) (nodeIdOf trainQuery) = Some n1Info
   /\ prop n1Info "isMember" = VUndefined)
  /\ exists title action taskId taskExpires taskMembershipExpires taskRole
            now',
       trainRequest
       = membershipTypeTemplate title action taskId taskExpires "true"
           taskMembershipExpires taskRole now'.
Proof.
  assert (membershipTypeRequest Json (Return nodes) PipExamples.read view
            (JObject []) hostClock hostClock trainQuery
          = Return (Some trainRequest)) as H by (vm_compute; reflexivity).
  assert (membershipTypeInfoFor membershipInfo membershipTypeInfo
            (taskIdOf trainQuery) (nodeIdOf trainQuery) = Some n1Info)
    as Hi by (vm_compute; reflexivity).
  split; [split; [exact H | split; [exact Hi | reflexivity]] |].
  exact (train_request_member_by_default _ _ _ _ _ _ _ _ _ _ H Hi eq_refl).
Defined.

Lemma no_request_without_data_witness :
  noData = Throw (JsError "ENOENT: no such file or directory")
  /\ PolicyInformationPoint.requestXML Json noData PipExamples.read view
       (JObject []) hostClock hostClock Luas.toLowerCase
       (VStr "task_approval") approvalQuery
     <> Return (Some approvalRequest).
Proof.
  split; [reflexivity |].
  exact (no_request_without_data Json noData PipExamples.read view
           (JObject []) hostClock hostClock Luas.toLowerCase
           (JsError "ENOENT: no such file or directory")
           (VStr "task_approval") approvalQuery approvalRequest eq_refl).
Defined.

End PolicyInformationPointFacts.

Module AppFacts.
Import DecisionParams DecisionParamsFacts Luas App.

Section Service.
Context {W : Type}.
Variable Request : Type.
Variable getRequestCtxWithRequest : string -> M W Request.
Variable Obligation : Type.
Variable ResultAttributes : Type.
Variable pdp_evaluate :
  Request -> M W (option (ResponseCtx Obligation ResultAttributes)).
Variable getFullObligationsFromPolicy :
  option (list Obligation) -> M W (list FullObligation).
Variable JSON_stringify_obligation : FullObligation -> string.
Variable JSON_stringify_attributes : ResultAttributes -> jsval.
Variable DECISION_PERMIT : Z.
Variable DECISION_DENY : Z.
Variable DECISION_INDETERMINATE : Z.
Variable DECISION_NOT_APPLICABLE : Z.
Variable DECISION_INDETERMINATE_DENY : Z.
Variable DECISION_INDETERMINATE_PERMIT : Z.
Variable DECISION_INDETERMINATE_DENY_OR_PERMIT : Z.
Variable getTaskPolicyInfo : Value -> option Object_.
Variable getMembershipInfo : Value -> Value -> option Object_.
Variable getMembershipTypeInfo : Value -> option Object_.
Variable now : string.
Variable toLowerCase : string -> string.

Local Abbreviation evaluates :=
  (evaluates Request getRequestCtxWithRequest
     Obligation ResultAttributes pdp_evaluate getFullObligationsFromPolicy
     JSON_stringify_obligation JSON_stringify_attributes
     DECISION_PERMIT DECISION_DENY DECISION_INDETERMINATE
     DECISION_NOT_APPLICABLE DECISION_INDETERMINATE_DENY
     DECISION_INDETERMINATE_PERMIT DECISION_INDETERMINATE_DENY_OR_PERMIT).
Local Abbreviation getRequestXML :=
  (getRequestXML getTaskPolicyInfo getMembershipInfo getMembershipTypeInfo
     now toLowerCase).
Local Abbreviation getDecision :=
  (getDecision (Some evaluates) getRequestXML).

(** X24. The [/getDecision] route of a running PDP always replies, and
    its status is settled by the construction of the request alone: 200
    with whatever [evaluates] returned when a request was built, 400
    when none was, 500 when a parameter has no string form. Nothing the
    PDP does while it evaluates leads to a 500. *)
Theorem getDecision_replies (query : Object_) (w : W) :
  exists reply w',
    getDecision query w = (Return reply, w')
    /\ ((status reply = 200
         /\ exists xml decision,
              getRequestXML (prop query "action") query = Return (Some xml)
              /\ evaluates xml w = (Return decision, w')
              /\ json reply = DecisionBody decision)
        \/ (status reply = 400
            /\ getRequestXML (prop query "action") query = Return None)
        \/ (status reply = 500
            /\ getRequestXML (prop query "action") query
               = Throw conversionError)).
Proof.
  unfold App.getDecision, tryCatch, bind, lift, ret, throw.
  destruct (getRequestXML (prop query "action") query) as [[xml |] | e]
    eqn:Hx.
  - pose proof (getRequestXML_not_empty _ _ _ _ _ _ _ _ Hx) as Hne.
    assert (truthyStr (Some xml) = true) as ->.
    { simpl. destruct (String.eqb_spec xml ""); [contradiction | reflexivity]. }
    cbv beta iota delta [negb from_option id].
    destruct (LuasFacts.evaluates_never_throws Request
                getRequestCtxWithRequest Obligation ResultAttributes
                pdp_evaluate getFullObligationsFromPolicy
                JSON_stringify_obligation JSON_stringify_attributes
                DECISION_PERMIT DECISION_DENY DECISION_INDETERMINATE
                DECISION_NOT_APPLICABLE DECISION_INDETERMINATE_DENY
                DECISION_INDETERMINATE_PERMIT
                DECISION_INDETERMINATE_DENY_OR_PERMIT xml w)
      as (decision & w' & He).
    rewrite He. eexists. exists w'. split; [reflexivity |].
    left. split; [reflexivity |]. now exists xml, decision.
  - simpl. eexists. exists w. split; [reflexivity |]. right; left. now split.
  - apply getRequestXML_throws in Hx as ->. simpl.
    eexists. exists w. split; [reflexivity |]. right; right. now split.
Qed.

(** X25. An exception inside the evaluation of the PDP is answered with
    status 200 and an object without a decision. *)
Theorem pdp_failure_replies_without_decision
    (query : Object_) (xml : string) (w : W) (req : Request) (w1 : W)
    (e : exn) (w2 : W) :
  getRequestXML (prop query "action") query = Return (Some xml) ->
  getRequestCtxWithRequest xml w = (Return req, w1) ->
  pdp_evaluate req w1 = (Throw e, w2) ->
  getDecision query w
  = (Return {| status := 200; json := DecisionBody None |}, w2).
Proof.
  intros Hx Hf Hp.
  pose proof (getRequestXML_not_empty _ _ _ _ _ _ _ _ Hx) as Hne.
  unfold App.getDecision, tryCatch, bind, lift, ret, throw. rewrite Hx.
  assert (truthyStr (Some xml) = true) as ->.
  { simpl. destruct (String.eqb_spec xml ""); [contradiction | reflexivity]. }
  cbv beta iota delta [negb from_option id].
  now rewrite (LuasFacts.evaluates_undefined_on_pdp_error Request
                 getRequestCtxWithRequest Obligation ResultAttributes
                 pdp_evaluate getFullObligationsFromPolicy
                 JSON_stringify_obligation JSON_stringify_attributes
                 DECISION_PERMIT DECISION_DENY DECISION_INDETERMINATE
                 DECISION_NOT_APPLICABLE DECISION_INDETERMINATE_DENY
                 DECISION_INDETERMINATE_PERMIT
                 DECISION_INDETERMINATE_DENY_OR_PERMIT xml w req w1 e w2 Hf Hp).
Qed.
End Service.

Section Startup.
Context {W : Type}.
Variable Pdp : Type.
Variable newLuas : list string -> M W Pdp.
Variable pdp_init : Pdp -> M W unit.
Variable listen : M W unit.
Variable POLICY_FILES : list string.
Variable evaluatesOf : Pdp -> string -> M W (option Response).
Variable getRequestXML : Value -> Object_ -> Outcome (option string).

(** X26. When the construction or the initialisation of the PDP throws,
    [getPDPInstance] swallows the error: [init] does not exit, the
    server listens without a PDP, and [/getDecision] answers every
    query with status 503. *)
Theorem failed_initialisation_serves_503 (w : W) (e : exn) (w1 w2 : W) :
  (newLuas POLICY_FILES w = (Throw e, w1)
   \/ exists luas w0,
        newLuas POLICY_FILES w = (Return luas, w0)
        /\ pdp_init luas w0 = (Throw e, w1)) ->
  listen w1 = (Return tt, w2) ->
  exists luas,
    init Pdp newLuas pdp_init listen POLICY_FILES w
    = (Return (Listening Pdp luas), w2)
    /\ forall query w3,
         getDecision (option_map evaluatesOf luas) getRequestXML query w3
         = (Return {| status := 503;
                      json := ErrorBody "PDP not initialized yet" None |},
            w3).
Proof.
  intros Hf Hl. exists None. split; [| reflexivity].
  unfold init, getPDPInstance, tryCatch, bind, ret.
  destruct Hf as [Hn | (luas & w0 & Hn & Hi)].
  - now rewrite Hn, Hl.
  - now rewrite Hn, Hi, Hl.
Qed.
End Startup.

Import PipExamples.

Lemma failed_initialisation_serves_503_witness :
  ((missingPolicy ["policies/medical.xml"] tt
    = (Throw (JsError "ENOENT: no such file or directory"), tt)
    \/ exists luas w0,
         missingPolicy ["policies/medical.xml"] tt = (Return luas, w0)
         /\ (fun _ : unit => ret tt) luas w0
            = (Throw (JsError "ENOENT: no such file or directory"), tt))
   /\ ret tt tt = (Return tt, tt))
  /\ exists luas,
       init unit missingPolicy (fun _ => ret tt) (ret tt)
         ["policies/medical.xml"] tt
       = (Return (Listening unit luas), tt)
       /\ forall query w3,
            getDecision (option_map (fun _ => failingLuas) luas)
              sampleRequestXML query w3
            = (Return {| status := 503;
                         json := ErrorBody "PDP not initialized yet" None |},
               w3).
Proof.
  assert (missingPolicy ["policies/medical.xml"] tt
          = (Throw (JsError "ENOENT: no such file or directory"), tt)
          \/ exists luas w0,
               missingPolicy ["policies/medical.xml"] tt = (Return luas, w0)
               /\ (fun _ : unit => ret tt) luas w0
                  = (Throw (JsError "ENOENT: no such file or directory"),
                     tt))
    as Hf by (left; reflexivity).
  split; [split; [exact Hf | reflexivity] |].
  exact (failed_initialisation_serves_503 unit missingPolicy
           (fun _ => ret tt) (ret tt) ["policies/medical.xml"]
           (fun _ => failingLuas) sampleRequestXML tt
           (JsError "ENOENT: no such file or directory") tt tt Hf eq_refl).
Defined.

Lemma pdp_failure_replies_without_decision_witness :
  (PipExamples.sampleRequestXML (prop approvalQuery "action") approvalQuery
   = Return (Some approvalRequest)
   /\ (fun _ : string => ret tt) approvalRequest tt = (Return tt, tt)
   /\ failingPdp tt tt = (Throw (JsError "policy evaluation failed"), tt))
  /\ getDecision (Some failingLuas) PipExamples.sampleRequestXML approvalQuery tt
     = (Return {| status := 200; json := DecisionBody None |}, tt).
Proof.
  assert (PipExamples.sampleRequestXML (prop approvalQuery "action") approvalQuery
          = Return (Some approvalRequest)) as H by (vm_compute; reflexivity).
  split; [split; [exact H | split; reflexivity] |].
  exact (pdp_failure_replies_without_decision unit (fun _ => ret tt) unit
           unit failingPdp Examples.noObligations (fun _ => "{}")
           (fun _ => JStr "[]") 0 1 2 3 4 5 6 taskInfo membershipInfo
           membershipTypeInfo hostClock Luas.toLowerCase approvalQuery
           approvalRequest tt tt tt (JsError "policy evaluation failed") tt
           H eq_refl eq_refl).
Defined.

End AppFacts.


(** ** The designator cache between evaluations *)

Module DesignatorCallsFacts.
Import Cond AttributeDesignator AttributeDesignatorFacts DesignatorCalls
  Examples.

Section Calls.
Variable STATUS_MISSING_ATTRIBUTE : string.
Variable XACML_VERSION_3_0 : Z.

Local Abbreviation evaluate :=
  (AttributeDesignator.evaluate STATUS_MISSING_ATTRIBUTE XACML_VERSION_3_0).
Local Abbreviation evaluateEach :=
  (evaluateEach STATUS_MISSING_ATTRIBUTE XACML_VERSION_3_0).

(** A cache that holds the store of another context answers nothing
    for this one. *)
Lemma other_store_agrees (context : Context) (c : Cache) :
  cacheAttributes c <> Some (attributesSet context) ->
  cacheAgrees context c.
Proof.
  intros Hs d Hh. exfalso. apply Hs.
  now apply cacheHit_true_iff in Hh as (_ & _ & _ & _ & Hh).
Qed.

(** The calls come out alike from any two states that agree with the
    contexts, when the two contexts look attributes up alike. *)
Lemma evaluateEach_independent (ds : list t) :
  forall (context1 context2 : Context) (c1 c2 : Cache),
    getAttribute context1 = getAttribute context2 ->
    cacheAgrees context1 c1 ->
    cacheAgrees context2 c2 ->
    fst (evaluateEach ds context1 c1) = fst (evaluateEach ds context2 c2).
Proof.
  induction ds as [| d ds IH]; intros context1 context2 c1 c2 Hg H1 H2;
    simpl; [reflexivity |].
  pose proof (evaluate_agrees STATUS_MISSING_ATTRIBUTE XACML_VERSION_3_0
                d context1 c1 H1) as E1.
  pose proof (evaluate_agrees STATUS_MISSING_ATTRIBUTE XACML_VERSION_3_0
                d context2 c2 H2) as E2.
  pose proof (evaluate_empty_ext STATUS_MISSING_ATTRIBUTE XACML_VERSION_3_0
                d context1 context2 Hg) as E3.
  pose proof (evaluate_preserves_agreement STATUS_MISSING_ATTRIBUTE
                XACML_VERSION_3_0 d context1 c1 H1) as P1.
  pose proof (evaluate_preserves_agreement STATUS_MISSING_ATTRIBUTE
                XACML_VERSION_3_0 d context2 c2 H2) as P2.
  destruct (evaluate d context1 c1) as [o1 c1'].
  destruct (evaluate d context2 c2) as [o2 c2'].
  simpl in E1, E2, P1, P2.
  assert (o1 = o2) as <- by congruence.
  specialize (IH context1 context2 c1' c2' Hg P1 P2).
  destruct (evaluateEach ds context1 c1') as [os1 c1''].
  destruct (evaluateEach ds context2 c2') as [os2 c2''].
  simpl in IH. simpl. now rewrite IH.
Qed.

End Calls.



End DesignatorCallsFacts.
